(** * ResumeParser: the scoring and matching engine of [ResumeParser.py]

    A shallow embedding of the helper functions and of the three graph
    nodes of [ResumeParser.py], with the properties of the scoring engine
    proved about them.

    Reading of the Python data:
    - in the matchers and the graph a [float] or [int] is an exact
      rational ([Q]), and [round(x, n)] rounds half to even at [n]
      decimals: what is proved there is stated for exact arithmetic;
    - the experience aggregator is embedded a second time, in the module
      [Aggregator], with Python's own numbers: an [int] is an integer, a
      [float] a binary64 number, and [+], [*], [/] and [round] are those
      of CPython on them;
    - a [str] is the sequence of its code points, one [ascii] per code
      point, so the strings covered are those whose code points are below
      256; [lower], [strip] and [isdigit] are Python's on that range;
    - a value decoded from JSON is a [pyval]; a [dict] is an association
      list in insertion order, looked up by its first binding of a key;
    - a raised exception is the [Raise] case of [result]. *)

From Stdlib Require Import ZArith QArith Qround Bool List Ascii String Lia.
From Stdlib Require Import Permutation Lqa Qabs Qpower Floats.
Import ListNotations.

#[local] Set Warnings "-register-all,-inexact-float".

(** ** The Python values and operations the source relies on *)

Module Py.

Inductive exn : Type :=
| AttributeError
| TypeError
| ValueError
| KeyError
| IndexError
| JSONDecodeError
| APIError
| OverflowError
| ZeroDivisionError.

Inductive result (A : Type) : Type :=
| Ok (a : A)
| Raise (e : exn).

Arguments Ok {A} a.
Arguments Raise {A} e.

Definition bind {A B : Type} (m : result A) (k : A -> result B) : result B :=
  match m with
  | Ok a => k a
  | Raise e => Raise e
  end.

Inductive pyval : Type :=
| PNone
| PBool (b : bool)
| PNum (q : Q)
| PStr (s : string)
| PList (l : list pyval)
| PDict (d : list (string * pyval)).

(** *** Characters and strings *)

Definition code (c : ascii) : N := N_of_ascii c.

Definition in_range (lo hi : N) (c : ascii) : bool :=
  (lo <=? code c)%N && (code c <=? hi)%N.

(** [A-Z], and the upper-case letters of Latin-1 (0xC0-0xDE but the
    multiplication sign 0xD7), are 32 below their lower-case letters. *)
Definition is_upper (c : ascii) : bool :=
  in_range 65 90 c || (in_range 192 222 c && negb (code c =? 215)%N).

Definition lower_char (c : ascii) : ascii :=
  if is_upper c then ascii_of_N (code c + 32) else c.

(** [str.lower()] *)
Fixpoint lower (s : string) : string :=
  match s with
  | EmptyString => EmptyString
  | String c r => String (lower_char c) (lower r)
  end.

(** The decimal digits [0-9]. *)
Definition is_decimal (c : ascii) : bool := in_range 48 57 c.

(** [c.isdigit()] for a character: a decimal digit or one of the
    superscript digits 0xB2, 0xB3, 0xB9. *)
Definition isdigit_char (c : ascii) : bool :=
  is_decimal c || (code c =? 178)%N || (code c =? 179)%N || (code c =? 185)%N.

(** The characters [str.strip()] removes. *)
Definition isspace_char (c : ascii) : bool :=
  in_range 9 13 c || in_range 28 32 c || (code c =? 133)%N || (code c =? 160)%N.

Fixpoint chars (s : string) : list ascii :=
  match s with
  | EmptyString => []
  | String c r => c :: chars r
  end.

Fixpoint all_chars (p : ascii -> bool) (s : string) : bool :=
  match s with
  | EmptyString => true
  | String c r => p c && all_chars p r
  end.

Fixpoint filter_chars (p : ascii -> bool) (s : string) : string :=
  match s with
  | EmptyString => EmptyString
  | String c r => if p c then String c (filter_chars p r) else filter_chars p r
  end.

Definition is_empty (s : string) : bool :=
  match s with
  | EmptyString => true
  | String _ _ => false
  end.

(** [s.isdigit()] for a string: not empty, every character a digit. *)
Definition isdigit (s : string) : bool :=
  negb (is_empty s) && all_chars isdigit_char s.

(** [s.strip() == ""] *)
Definition is_blank (s : string) : bool := all_chars isspace_char s.

Fixpoint starts_with (p s : string) : bool :=
  match p, s with
  | EmptyString, _ => true
  | String _ _, EmptyString => false
  | String a p', String b s' => Ascii.eqb a b && starts_with p' s'
  end.

(** [x in t] for two strings: [x] occurs in [t] as a substring. *)
Fixpoint str_in (x t : string) : bool :=
  starts_with x t ||
  match t with
  | EmptyString => false
  | String _ t' => str_in x t'
  end.

(** ["".join(parts)] *)
Definition join (parts : list string) : string :=
  fold_right append EmptyString parts.

Definition digit_value (c : ascii) : Z := Z.of_N (code c) - 48.

Fixpoint decimal_value (acc : Z) (s : string) : Z :=
  match s with
  | EmptyString => acc
  | String c r => decimal_value (10 * acc + digit_value c) r
  end.

(** [int(s)] for a string [s] of characters that pass [isdigit]: the
    decimal value of [s]; [None] stands for the [ValueError] raised on the
    empty string and on a superscript digit.  (The interpreter's limit on
    the length of the literal is not modelled.) *)
Definition int_of_digits (s : string) : option Z :=
  if negb (is_empty s) && all_chars is_decimal s
  then Some (decimal_value 0 s)
  else None.

(** *** Numbers *)

(** The integer nearest to [x], a tie going to the even one. *)
Definition round_half_even (x : Q) : Z :=
  let f := Qfloor x in
  match (x - inject_Z f ?= 1 # 2)%Q with
  | Lt => f
  | Gt => (f + 1)%Z
  | Eq => if Z.even f then f else (f + 1)%Z
  end.

Definition pow10 (n : nat) : Z := Z.pow 10 (Z.of_nat n).

(** [round(x, ndigits)] *)
Definition round (x : Q) (ndigits : nat) : Q :=
  (inject_Z (round_half_even (x * inject_Z (pow10 ndigits)))
   / inject_Z (pow10 ndigits))%Q.

(** *** Dynamic operations on values *)

(** [bool(v)] *)
Definition truthy (v : pyval) : bool :=
  match v with
  | PNone => false
  | PBool b => b
  | PNum q => negb (Qeq_bool q 0)
  | PStr s => negb (is_empty s)
  | PList l => match l with [] => false | _ :: _ => true end
  | PDict d => match d with [] => false | _ :: _ => true end
  end.

(** [a or b] *)
Definition py_or (a b : pyval) : pyval := if truthy a then a else b.

Fixpoint dict_get (d : list (string * pyval)) (k : string) : option pyval :=
  match d with
  | [] => None
  | (k', v) :: r => if String.eqb k' k then Some v else dict_get r k
  end.

(** [d[k] = v] on a dict: an existing key keeps its place. *)
Fixpoint dict_set (d : list (string * pyval)) (k : string) (v : pyval)
  : list (string * pyval) :=
  match d with
  | [] => [(k, v)]
  | (k', v') :: r =>
      if String.eqb k' k then (k', v) :: r else (k', v') :: dict_set r k v
  end.

(** [o.get(k, default)]: only a dict has the method. *)
Definition get (o : pyval) (k : string) (default : pyval) : result pyval :=
  match o with
  | PDict d =>
      Ok (match dict_get d k with Some v => v | None => default end)
  | _ => Raise AttributeError
  end.

(** [v.lower()]: only a str has the method. *)
Definition lower_of (v : pyval) : result string :=
  match v with
  | PStr s => Ok (lower s)
  | _ => Raise AttributeError
  end.

(** A value used as a number in [+] and [*] with a number: a bool counts
    as 0 or 1, anything else is a [TypeError]. *)
Definition num (v : pyval) : result Q :=
  match v with
  | PNum q => Ok q
  | PBool b => Ok (if b then 1%Q else 0%Q)
  | _ => Raise TypeError
  end.

(** [for x in v]: the elements of a list, the characters of a str, the
    keys of a dict. *)
Definition iter (v : pyval) : result (list pyval) :=
  match v with
  | PList l => Ok l
  | PStr s => Ok (map (fun c => PStr (String c EmptyString)) (chars s))
  | PDict d => Ok (map (fun kv => PStr (fst kv)) d)
  | _ => Raise TypeError
  end.

(** [len(v)] *)
Definition len (v : pyval) : result nat :=
  match v with
  | PList l => Ok (List.length l)
  | PStr s => Ok (String.length s)
  | PDict d => Ok (List.length d)
  | _ => Raise TypeError
  end.

(** [v[i]] for a natural number [i]; a dict decoded from JSON has no
    integer key. *)
Definition getitem (v : pyval) (i : nat) : result pyval :=
  match v with
  | PList l =>
      match nth_error l i with
      | Some x => Ok x
      | None => Raise IndexError
      end
  | PStr s =>
      match String.get i s with
      | Some c => Ok (PStr (String c EmptyString))
      | None => Raise IndexError
      end
  | PDict _ => Raise KeyError
  | _ => Raise TypeError
  end.

(** [v[k] = x] for a string key [k]: only a dict takes it. *)
Definition setitem (v : pyval) (k : string) (x : pyval) : result pyval :=
  match v with
  | PDict d => Ok (PDict (dict_set d k x))
  | _ => Raise TypeError
  end.

(** [a + b] *)
Definition add (a b : pyval) : result pyval :=
  match a, b with
  | PList x, PList y => Ok (PList (x ++ y))
  | PStr x, PStr y => Ok (PStr (x ++ y))
  | (PNum _ | PBool _), (PNum _ | PBool _) =>
      bind (num a) (fun x => bind (num b) (fun y => Ok (PNum (x + y)%Q)))
  | _, _ => Raise TypeError
  end.

End Py.

Notation "x <- m ;; k" := (Py.bind m (fun x => k))
  (at level 61, m at next level, right associativity).

(** ** The functions of [ResumeParser.py] *)

Module ResumeParser.
Import Py.

Local Open Scope string_scope.
Local Open Scope Q_scope.

(** The lists tested by [normalize_degree], in the order it tests them. *)
Definition bachelor_terms : list string :=
  ["b.tech"; "btech"; "b tech"; "b.e"; "be"; "bachelor"].
Definition master_terms : list string :=
  ["m.tech"; "mtech"; "m tech"; "m.e"; "me"; "master"; "msc"; "ms"].
Definition phd_terms : list string :=
  ["phd"; "ph.d"; "doctor"; "doctorate"; "doctoral"].

(** [any(x in t for x in terms)] *)
Definition any_in (terms : list string) (t : string) : bool :=
  existsb (fun x => str_in x t) terms.

Definition normalize_degree (text : pyval) : result string :=
  if negb (truthy text) then Ok "unknown"
  else
    t <- lower_of text ;;
    if any_in bachelor_terms t then Ok "bachelor"
    else if any_in master_terms t then Ok "master"
    else if any_in phd_terms t then Ok "phd"
    else if str_in "diploma" t then Ok "diploma"
    else Ok "unknown".

Definition RELEVANT_FIELDS : list string :=
  ["computer"; "cs"; "cse"; "it"; "information technology";
   "ai"; "ml"; "data"; "data science"; "ds";
   "ece"; "eee"; "electronics"; "csbs"].

(** [v.strip() == ""]: only a str has the method. *)
Definition strip_is_empty (v : pyval) : result bool :=
  match v with
  | PStr s => Ok (is_blank s)
  | _ => Raise AttributeError
  end.

Definition compute_field_relevance (candidate_stream jd_field_req : pyval)
  : result Q :=
  if negb (truthy jd_field_req) then Ok 1.0
  else
    blank <- strip_is_empty jd_field_req ;;
    if (blank : bool) then Ok 1.0
    else
      cand <- lower_of (py_or candidate_stream (PStr "")) ;;
      jd <- lower_of jd_field_req ;;
      if any_in RELEVANT_FIELDS cand then Ok 0.9 else Ok 0.5.

(** The [if]/[elif] chain of [degree_match] on the two normalized levels. *)
Definition level_score (cand_level jd_level : string) : Q :=
  if cand_level =? jd_level then 1.0
  else if (cand_level =? "master") && (jd_level =? "bachelor") then 1.0
  else if (cand_level =? "bachelor") && (jd_level =? "master") then 0.6
  else if (cand_level =? "diploma") && (jd_level =? "bachelor") then 0.5
  else 0.4.

Definition degree_match (candidate_degree candidate_stream jd_required : pyval)
  : result Q :=
  if negb (truthy jd_required) then Ok 1.0
  else
    cand_level <- normalize_degree candidate_degree ;;
    jd_level <- normalize_degree jd_required ;;
    field_score <- compute_field_relevance candidate_stream jd_required ;;
    let final := 0.7 * level_score cand_level jd_level + 0.3 * field_score in
    Ok (round final 3).

(** [[c for c in items if c.isdigit()]]: only a str has [isdigit]. *)
Fixpoint digit_items (items : list pyval) : result (list string) :=
  match items with
  | [] => Ok []
  | PStr c :: rest =>
      kept <- digit_items rest ;;
      Ok (if isdigit c then c :: kept else kept)
  | _ :: _ => Raise AttributeError
  end.

(** [int("".join([c for c in jd_exp if c.isdigit()]))] *)
Definition required_years (jd_exp : pyval) : result Z :=
  items <- iter jd_exp ;;
  kept <- digit_items items ;;
  match int_of_digits (join kept) with
  | Some n => Ok n
  | None => Raise ValueError
  end.

(** The bare [except] of [experience_match] turns every exception of
    [required_years] into the score 1.0. *)
Definition experience_match (candidate_exp_years : Q) (jd_exp : pyval) : Q :=
  if negb (truthy jd_exp) then 1.0
  else
    match required_years jd_exp with
    | Raise _ => 1.0
    | Ok required =>
        if Qle_bool (inject_Z required) candidate_exp_years then 1.0
        else if Qle_bool (inject_Z required - 1) candidate_exp_years then 0.6
        else 0.2
    end.

(** The five counters of [compute_experience_breakdown], the numbers
    read as exact rationals. *)
Record Months : Type := mkMonths {
  internship_months : Q;
  apprentice_months : Q;
  industry_months : Q;
  part_time_months : Q;
  freelance_months : Q
}.

Definition no_months : Months := mkMonths 0 0 0 0 0.

(** One turn of the loop [for exp in experiences]. *)
Definition add_experience (acc : Months) (exp : pyval) : result Months :=
  months_v <- get exp "duration_months" (PNum 0) ;;
  type_v <- get exp "type" (PStr "") ;;
  exp_type <- lower_of (py_or type_v (PStr "")) ;;
  months <- num months_v ;;
  let '(mkMonths i a f p l) := acc in
  Ok (if exp_type =? "internship" then mkMonths (i + months) a f p l
      else if exp_type =? "apprentice" then mkMonths i (a + months) f p l
      else if exp_type =? "full time" then mkMonths i a (f + months) p l
      else if exp_type =? "part time" then mkMonths i a f (p + months) l
      else if exp_type =? "free lance" then mkMonths i a f p (l + months)
      else mkMonths i (a + 0.5 * months) f p l).

Fixpoint for_each {S A : Type} (body : S -> A -> result S) (s : S)
  (items : list A) : result S :=
  match items with
  | [] => Ok s
  | x :: rest => s' <- body s x ;; for_each body s' rest
  end.

(** The dict [compute_experience_breakdown] returns. *)
Record ExperienceBreakdown : Type := mkBreakdown {
  internship_years : Q;
  apprentice_years : Q;
  industry_years : Q;
  part_time_years : Q;
  freelance_years : Q;
  effective_years : Q
}.

Definition INTERNSHIP_WEIGHT : Q := 0.5.
Definition APPRENTICE_WEIGHT : Q := 0.6.
Definition PART_TIME_WEIGHT : Q := 0.4.
Definition FREELANCE_WEIGHT : Q := 0.7.

(** The list the loop runs over, by the shape of [candidate]. *)
Definition experiences_of (candidate : pyval) : result pyval :=
  match candidate with
  | PDict _ => get candidate "experience" (PList [])
  | PList (PDict d :: _) => get (PDict d) "experience" (PList [])
  | _ => Ok (PList [])
  end.

(** What follows the loop: years per counter, the weighted sum, the
    rounding. *)
Definition breakdown_of (m : Months) : ExperienceBreakdown :=
  let internship_years := internship_months m / 12 in
  let apprentice_years := apprentice_months m / 12 in
  let industry_years := industry_months m / 12 in
  let part_time_years := part_time_months m / 12 in
  let freelance_years := freelance_months m / 12 in
  let effective_years :=
    industry_years
    + INTERNSHIP_WEIGHT * internship_years
    + APPRENTICE_WEIGHT * apprentice_years
    + PART_TIME_WEIGHT * part_time_years
    + FREELANCE_WEIGHT * freelance_years in
  mkBreakdown (round internship_years 2) (round apprentice_years 2)
    (round industry_years 2) (round part_time_years 2)
    (round freelance_years 2) (round effective_years 2).

Definition compute_experience_breakdown (candidate : pyval)
  : result ExperienceBreakdown :=
  experiences <- experiences_of candidate ;;
  items <- iter experiences ;;
  m <- for_each add_experience no_months items ;;
  Ok (breakdown_of m).

(** The dict [candidate_job_matching] returns. *)
Record ScoreBundle : Type := mkBundle {
  experience_score : Q;
  education_score : Q;
  skill_match_score : pyval;
  final_match_score : Q
}.

(** The graph state.  A key that is not set yet is [None]; the four score
    keys are set together by the last node and kept as one field.  (The
    key [match_score] of the source is never read or written.) *)
Record State : Type := mkState {
  raw_extracted_text : option string;
  links_info : option pyval;
  candidate_info_json : option pyval;
  job_description : option string;
  job_info_json : option pyval;
  scores : option ScoreBundle
}.

Definition with_candidate_info (s : State) (v : pyval) : State :=
  mkState (raw_extracted_text s) (links_info s) (Some v)
    (job_description s) (job_info_json s) (scores s).

Definition with_job_info (s : State) (v : pyval) : State :=
  mkState (raw_extracted_text s) (links_info s) (candidate_info_json s)
    (job_description s) (Some v) (scores s).

Definition with_scores (s : State) (b : ScoreBundle) : State :=
  mkState (raw_extracted_text s) (links_info s) (candidate_info_json s)
    (job_description s) (job_info_json s) (Some b).

(** [state[key]] *)
Definition field {A : Type} (v : option A) : result A :=
  match v with
  | Some a => Ok a
  | None => Raise KeyError
  end.

(** Lines 303-306: the grader's result to the object kept in the bundle
    and its score. *)
Definition first_or_empty (skill_match : pyval) : pyval :=
  match skill_match with
  | PList [] => PDict []
  | PList (x :: _) => x
  | v => v
  end.

Definition extract_skill_score (skill_match : pyval)
  : result (pyval * pyval) :=
  let skill_match := first_or_empty skill_match in
  skill_score <- get skill_match "final_skill_match_score" (PNum 0) ;;
  Ok (skill_match, skill_score).

(** Lines 309-313. *)
Definition final_score (exp_score edu_score skill_score : Q) : Q :=
  0.20 * exp_score + 0.10 * edu_score + 0.70 * skill_score.

(** The record the two extraction nodes put in place of a reply that
    [json.loads] rejects. *)
Definition degraded_record (assistant_msg : string) : pyval :=
  PDict [("error", PStr "Invalid JSON returned");
         ("raw_output", PStr assistant_msg)].

(** [c[k] = v], the right-hand side evaluated first. *)
Definition assign (c : pyval) (k : string) (v : result pyval)
  : result pyval :=
  x <- v ;; setitem c k x.

(** [projects[i] if len(projects) > i else ""] *)
Definition project_or_empty (projects : pyval) (i : nat) : result pyval :=
  n <- len projects ;;
  if (i <? n)%nat then getitem projects i else Ok (PStr "").

(** The body of [if isinstance(parsed, dict) and "contact" in parsed] in
    [candidate_info_extraction]; [contact] is [parsed["contact"]]. *)
Definition stitch_contact (parsed : list (string * pyval)) (contact links : pyval)
  : result pyval :=
  profile <- get links "profile_info" (PDict []) ;;
  c <- assign contact "email" (get profile "mail" (PStr "")) ;;
  c <- assign c "phone" (get profile "contact" (PStr "")) ;;
  c <- assign c "linkedin" (get profile "linkedin" (PStr "")) ;;
  projects <- get links "projects" (PList []) ;;
  c <- assign c "github" (project_or_empty projects 0) ;;
  c <- assign c "portfolio" (project_or_empty projects 1) ;;
  c <- assign c "other_links" (Ok projects) ;;
  Ok (PDict (dict_set parsed "contact" c)).

Section Nodes.

(** The collaborators of the nodes: the chat completion (system prompt,
    user content) to the content of its first choice, [json.loads] with
    [None] for a text it rejects, [json.dumps] with its [indent], and the
    three prompt files. *)
Variable chat : string -> string -> result string.
Variable json_loads : string -> option pyval.
Variable json_dumps : option nat -> pyval -> string.
Variables CANDIDATE_PROMPT JD_PROMPT GRADING_PROMPT : string.

(** [try: parsed = json.loads(msg) except: parsed = {...}] *)
Definition loads_or_degraded (assistant_msg : string) : pyval :=
  match json_loads assistant_msg with
  | Some parsed => parsed
  | None => degraded_record assistant_msg
  end.

Definition newline : string := String (ascii_of_nat 10) EmptyString.

(** The user message of the candidate extraction. *)
Definition combined_input (raw_text : string) (links : pyval) : string :=
  ("RAW RESUME TEXT:" ++ newline ++ newline ++ raw_text
   ++ newline ++ newline ++ "EXTRACTED LINKS JSON:" ++ newline
   ++ json_dumps (Some 2%nat) links)%string.

(** Returns the value of the key [candidate_info_json]. *)
Definition candidate_info_extraction (state : State) : result pyval :=
  raw_text <- field (raw_extracted_text state) ;;
  links <- field (links_info state) ;;
  assistant_msg <- chat CANDIDATE_PROMPT (combined_input raw_text links) ;;
  let parsed := loads_or_degraded assistant_msg in
  match parsed with
  | PDict d =>
      match dict_get d "contact" with
      | Some contact => stitch_contact d contact links
      | None => Ok parsed
      end
  | _ => Ok parsed
  end.

(** Returns the value of the key [job_info_json]. *)
Definition job_desc_extraction (state : State) : result pyval :=
  job_desc <- field (job_description state) ;;
  assistant_msg <- chat JD_PROMPT job_desc ;;
  Ok (loads_or_degraded assistant_msg).

(** Lines 262-267: the degree and stream of the first education entry. *)
Definition degree_and_stream (candidate : pyval) : result (pyval * pyval) :=
  education <- get candidate "education" PNone ;;
  if truthy education then
    first <- getitem education 0 ;;
    degree <- get first "degree" (PStr "") ;;
    stream <- get first "stream" (PStr "") ;;
    Ok (degree, stream)
  else Ok (PStr "", PStr "").

(** Lines 276-293: the payload sent to the grader. *)
Definition build_payload (cand jd_obj : pyval) : result pyval :=
  skills_obj <- get cand "skills" (PDict []) ;;
  technical <- get skills_obj "technical" (PList []) ;;
  let technical := py_or technical (PList []) in
  tools <- get skills_obj "tools" (PList []) ;;
  let tools := py_or tools (PList []) in
  jd_required_skills <- get jd_obj "skills_required" (PList []) ;;
  jd_optional_skills <- get jd_obj "skills_optional" (PList []) ;;
  jd_tools <- get jd_obj "tools_and_technologies" (PList []) ;;
  jd_responsibilities <- get jd_obj "responsibilities" (PList []) ;;
  candidate_skills <- add technical tools ;;
  candidate_projects <- get cand "projects" (PList []) ;;
  candidate_experience <- get cand "experience" (PList []) ;;
  candidate_certifications <- get cand "certifications" (PList []) ;;
  Ok (PDict [("jd_required_skills", jd_required_skills);
             ("jd_optional_skills", jd_optional_skills);
             ("jd_tools", jd_tools);
             ("jd_responsibilities", jd_responsibilities);
             ("candidate_skills", candidate_skills);
             ("candidate_tools", tools);
             ("candidate_projects", candidate_projects);
             ("candidate_experience", candidate_experience);
             ("candidate_certifications", candidate_certifications)]).

(** Line 302: [json.loads] outside any [try]. *)
Definition loads (text : string) : result pyval :=
  match json_loads text with
  | Some v => Ok v
  | None => Raise JSONDecodeError
  end.

Definition candidate_job_matching (state : State) : result ScoreBundle :=
  candidate <- field (candidate_info_json state) ;;
  jd <- field (job_info_json state) ;;
  exp_data <- compute_experience_breakdown candidate ;;
  let cand_exp_years := effective_years exp_data in
  jd_exp <- get jd "experience_required" (PStr "") ;;
  let exp_score := experience_match cand_exp_years jd_exp in
  ds <- degree_and_stream candidate ;;
  jd_edu <- get jd "education_required" (PStr "") ;;
  edu_score <- degree_match (fst ds) (snd ds) jd_edu ;;
  payload <- build_payload candidate jd ;;
  content <- chat GRADING_PROMPT (json_dumps None payload) ;;
  graded <- loads content ;;
  extracted <- extract_skill_score graded ;;
  skill_score <- num (snd extracted) ;;
  Ok (mkBundle exp_score edu_score (fst extracted)
        (final_score exp_score edu_score skill_score)).

(** The graph merges what a node returns into the state. *)
Definition run_candidate_json (state : State) : result State :=
  candidate <- candidate_info_extraction state ;;
  Ok (with_candidate_info state candidate).

Definition run_jd_json (state : State) : result State :=
  jd <- job_desc_extraction state ;;
  Ok (with_job_info state jd).

Definition run_match_score (state : State) : result State :=
  bundle <- candidate_job_matching state ;;
  Ok (with_scores state bundle).

(** The compiled graph: START, candidate_json, jd_json, match_score, END. *)
Definition invoke (initial_state : State) : result State :=
  s1 <- run_candidate_json initial_state ;;
  s2 <- run_jd_json s1 ;;
  run_match_score s2.

End Nodes.

End ResumeParser.

(** ** The specification's wording, for comparison with the code *)

Module Spec.
Import Py.

Local Open Scope string_scope.
Local Open Scope Q_scope.

(** The level table of the education matcher: equal levels, master for
    bachelor, bachelor for master, diploma for bachelor, any other
    mismatch. *)
Inductive LevelScore : string -> string -> Q -> Prop :=
| level_equal (c : string) : LevelScore c c 1.0
| level_master_bachelor : LevelScore "master" "bachelor" 1.0
| level_bachelor_master : LevelScore "bachelor" "master" 0.6
| level_diploma_bachelor : LevelScore "diploma" "bachelor" 0.5
| level_other (c j : string) :
    c <> j ->
    (c, j) <> ("master", "bachelor") ->
    (c, j) <> ("bachelor", "master") ->
    (c, j) <> ("diploma", "bachelor") ->
    LevelScore c j 0.4.

(** An experience record: a key that is absent is [None]. *)
Record ExperienceRecord : Type := mkRecord {
  type : option string;
  duration_months : option Q
}.

(** The record as the value decoded from JSON. *)
Definition record_value (r : ExperienceRecord) : pyval :=
  PDict ((match type r with Some s => [("type", PStr s)] | None => [] end)
         ++ (match duration_months r with
             | Some m => [("duration_months", PNum m)]
             | None => []
             end)).

(** The type compared without regard to case; a missing type is empty. *)
Definition type_of (r : ExperienceRecord) : string :=
  lower (match type r with Some s => s | None => "" end).

(** A missing duration is 0. *)
Definition months_of (r : ExperienceRecord) : Q :=
  match duration_months r with Some m => m | None => 0 end.

Definition recognized : list string :=
  ["internship"; "apprentice"; "full time"; "part time"; "free lance"].

Definition is_recognized (r : ExperienceRecord) : bool :=
  existsb (String.eqb (type_of r)) recognized.

(** The sum of [amount r] over the records that pass [p]. *)
Fixpoint sum_over (p : ExperienceRecord -> bool) (amount : ExperienceRecord -> Q)
  (rs : list ExperienceRecord) : Q :=
  match rs with
  | [] => 0
  | r :: rest =>
      if p r then amount r + sum_over p amount rest
      else sum_over p amount rest
  end.

Definition category_months (category : string) (rs : list ExperienceRecord) : Q :=
  sum_over (fun r => type_of r =? category) months_of rs.

(** Half the months of every record of an unrecognized type. *)
Definition unrecognized_share (rs : list ExperienceRecord) : Q :=
  sum_over (fun r => negb (is_recognized r)) (fun r => 0.5 * months_of r) rs.


(** The digits from the head of [s] up to the first character that is
    not one. *)
Fixpoint leading_digits (s : string) : string :=
  match s with
  | EmptyString => EmptyString
  | String c r => if isdigit_char c then String c (leading_digits r) else EmptyString
  end.

(** The first run of digit characters of [s]. *)
Fixpoint first_digit_run (s : string) : string :=
  match s with
  | EmptyString => EmptyString
  | String c r =>
      if isdigit_char c then String c (leading_digits r) else first_digit_run r
  end.

(** The experience match as section 4.5 words it: the required count is
    read off the first run of digits. *)
Definition experience_match_first_run (effective_years : Q) (requirement : string)
  : Q :=
  match int_of_digits (first_digit_run requirement) with
  | None => 1.0
  | Some required =>
      if Qle_bool (inject_Z required) effective_years then 1.0
      else if Qle_bool (inject_Z required - 1) effective_years then 0.6
      else 0.2
  end.

(** The shapes of a grader result the adapter is written for: an object,
    an empty sequence (read as the empty object), a sequence whose first
    element is an object. *)
Inductive GraderObject : pyval -> list (string * pyval) -> Prop :=
| grader_object (d : list (string * pyval)) : GraderObject (PDict d) d
| grader_empty : GraderObject (PList []) []
| grader_first (d : list (string * pyval)) (rest : list pyval) :
    GraderObject (PList (PDict d :: rest)) d.

End Spec.

(** ** A run of the graph on fixed replies *)

Module Demo.
Import Py ResumeParser.

Local Open Scope string_scope.
Local Open Scope Q_scope.

(** Two years of full-time work, a bachelor's degree in information
    technology; a job asking for 2+ years and a bachelor; a grade of 0.8. *)
Definition candidate_record : pyval :=
  PDict [("education",
          PList [PDict [("degree", PStr "Bachelor of Technology");
                        ("stream", PStr "Information Technology")]]);
         ("experience",
          PList [PDict [("type", PStr "Full Time");
                        ("duration_months", PNum 24)]]);
         ("skills", PDict [("technical", PList [PStr "python"]);
                           ("tools", PList [PStr "git"])])].

Definition job_record : pyval :=
  PDict [("experience_required", PStr "2+ years");
         ("education_required", PStr "Bachelor");
         ("skills_required", PList [PStr "python"])].

Definition grade_record : pyval :=
  PDict [("final_skill_match_score", PNum 0.8)].

(** The replies are told apart by the system prompt. *)
Definition chat (system user : string) : result string :=
  if system =? "candidate" then Ok "candidate reply"
  else if system =? "jd" then Ok "jd reply"
  else Ok "grade reply".

Definition json_loads (text : string) : option pyval :=
  if text =? "candidate reply" then Some candidate_record
  else if text =? "jd reply" then Some job_record
  else if text =? "grade reply" then Some grade_record
  else None.

(** A collaborator that answers the two extraction prompts in prose. *)
Definition chat_prose (system user : string) : result string :=
  if system =? "grade" then Ok "grade reply"
  else Ok "Sorry, I cannot do that.".

Definition json_dumps (indent : option nat) (v : pyval) : string := "{}".

Definition initial_state : State :=
  mkState (Some "resume text") (Some (PDict [])) None
    (Some "job text") None None.

(** The state when the last node starts, and the bundle it returns. *)
Definition extracted_state : State :=
  with_job_info (with_candidate_info initial_state candidate_record) job_record.

Definition bundle : ScoreBundle :=
  mkBundle 1.0 (round 0.97 3) grade_record (final_score 1.0 (round 0.97 3) 0.8).

End Demo.

(** ** The functions of [text_extractor.py] *)

Module TextExtractor.
Import Py.

Local Open Scope string_scope.

(** A link as [page.get_links()] gives it: a dict whose key [uri], when
    the link has one, holds a str. *)
Record Link : Type := mkLink {
  uri : option string
}.

(** A page of the opened document: its text and its links. *)
Record Page : Type := mkPage {
  get_text : string;
  get_links : list Link
}.

(** The dict [links["profile_info"]]. *)
Record ProfileInfo : Type := mkProfile {
  linkedin : string;
  mail : string;
  medium : string;
  contact : list string;
  location : string
}.

(** The dict [links]. *)
Record Links : Type := mkLinks {
  profile_info : ProfileInfo;
  projects : list string
}.

Definition empty_links : Links := mkLinks (mkProfile "" "" "" [] "") [].

(** The dict as a value, keys in the order of the literal. *)
Definition links_value (links : Links) : pyval :=
  let p := profile_info links in
  PDict [("profile_info",
          PDict [("linkedin", PStr (linkedin p));
                 ("mail", PStr (mail p));
                 ("medium", PStr (medium p));
                 ("contact", PList (map PStr (contact p)));
                 ("location", PStr (location p))]);
         ("projects", PList (map PStr (projects links)))].

(** One turn of [for link in link_found]; [link["uri"]] of a link with
    no such key raises. *)
Definition add_link (links : Links) (link : Link) : result Links :=
  match uri link with
  | None => Raise KeyError
  | Some u =>
      let p := profile_info links in
      Ok (if str_in "gmail" u then
            mkLinks (mkProfile (linkedin p) (mail p ++ u) (medium p)
                       (contact p) (location p)) (projects links)
          else if str_in "linkedin" u then
            mkLinks (mkProfile (linkedin p ++ u) (mail p) (medium p)
                       (contact p) (location p)) (projects links)
          else if str_in "medium" u then
            mkLinks (mkProfile (linkedin p) (mail p) (medium p ++ u)
                       (contact p) (location p)) (projects links)
          else mkLinks p (projects links ++ [u]))
  end.

(** One turn of [for page in doc], on the text and the links so far. *)
Definition add_page (acc : string * Links) (page : Page)
  : result (string * Links) :=
  links <- ResumeParser.for_each add_link (snd acc) (get_links page) ;;
  Ok (fst acc ++ get_text page, links).

Definition is_ascii_alnum (c : ascii) : bool :=
  in_range 48 57 c || in_range 65 90 c || in_range 97 122 c.

(** The characters the pattern of [re.sub] leaves in place: the letters
    and digits of ASCII, the apostrophe (code 39), the double quote
    (code 34) and white space. *)
Definition kept_char (c : ascii) : bool :=
  is_ascii_alnum c || (code c =? 39)%N || (code c =? 34)%N || isspace_char c.

(** The [re.sub] of [extract_data]: a space for every other character. *)
Fixpoint clean (text : string) : string :=
  match text with
  | EmptyString => EmptyString
  | String c r => String (if kept_char c then c else " "%char) (clean r)
  end.

(** The characters [\w] matches: those for which [isalnum] holds, and the
    underscore. *)
Definition is_word (c : ascii) : bool :=
  is_ascii_alnum c || (code c =? 95)%N
  || (code c =? 170)%N || (code c =? 178)%N || (code c =? 179)%N
  || (code c =? 181)%N || (code c =? 185)%N || (code c =? 186)%N
  || in_range 188 190 c || in_range 192 214 c || in_range 216 246 c
  || in_range 248 255 c.

(** Ten digits and a word boundary match at the head of [s]: ten decimal
    digits, then the end of the text or a character that is not a word
    character. *)
Definition ten_digits_here (s : string) : bool :=
  (10 <=? String.length s)%nat
  && all_chars is_decimal (substring 0 10 s)
  && match String.get 10 s with
     | Some c => negb (is_word c)
     | None => true
     end.

(** The [re.findall] of [extract_data]: the matches of ten digits between
    two word boundaries, scanning from a position whose
    previous character is a word character or not.  A match starts only
    after a character that is not a word character, so no two matches
    overlap and the scan may go on one character at a time. *)
Fixpoint findall_ten_digits (prev_word : bool) (s : string) : list string :=
  match s with
  | EmptyString => []
  | String c r =>
      (if negb prev_word && ten_digits_here s then [substring 0 10 s] else [])
      ++ findall_ten_digits (is_word c) r
  end.

(** [extract_data], from the pages of the opened document. *)
Definition extract_data (doc : list Page) : result (string * Links) :=
  acc <- ResumeParser.for_each add_page (EmptyString, empty_links) doc ;;
  let text := fst acc in
  let links := snd acc in
  let clean_text := clean text in
  let p := profile_info links in
  Ok (clean_text,
      mkLinks (mkProfile (linkedin p) (mail p) (medium p)
                 (contact p ++ findall_ten_digits false clean_text)
                 (location p))
        (projects links)).

End TextExtractor.

(** ** The endpoints of [app.py] *)

Module App.
Import Py ResumeParser.

Local Open Scope string_scope.
Local Open Scope Q_scope.

(** An uploaded file: its name, and what saving it and opening it as a
    PDF gives. *)
Record UploadFile : Type := mkUpload {
  filename : option string;
  document : result (list TextExtractor.Page)
}.

(** What an endpoint body raises: an exception of the code it calls, or
    an [HTTPException]. *)
Inductive raised : Type :=
| PyExn (e : exn)
| HTTPException (status_code : nat) (detail : string).

Inductive outcome (A : Type) : Type :=
| Return (a : A)
| Fail (r : raised).

Arguments Return {A} a.
Arguments Fail {A} r.

Definition of_result {A : Type} (m : result A) : outcome A :=
  match m with
  | Ok a => Return a
  | Raise e => Fail (PyExn e)
  end.

(** [s.endswith(suffix)] *)
Definition endswith (s suffix : string) : bool :=
  let n := String.length s in
  let m := String.length suffix in
  (m <=? n)%nat && (substring (n - m) m s =? suffix).

(** [resume_file.filename.endswith('.pdf')]; a missing name is [None]. *)
Definition is_pdf (file : UploadFile) : result bool :=
  match filename file with
  | Some name => Ok (endswith name ".pdf")
  | None => Raise AttributeError
  end.

(** The model [MatchResult]. *)
Record MatchResult : Type := mkMatchResult {
  candidate_info : list (string * pyval);
  job_info : list (string * pyval);
  mr_experience_score : Q;
  mr_education_score : Q;
  mr_skill_match_score : list (string * pyval);
  mr_final_match_score : Q
}.

(** A field declared [Dict[str, Any]] takes a dict only. *)
Definition as_dict (v : pyval) : result (list (string * pyval)) :=
  match v with
  | PDict d => Ok d
  | _ => Raise ValueError
  end.

(** [result.get("experience_score", 0.0)] and the like. *)
Definition score_or (result : State) (proj : ScoreBundle -> Q) : Q :=
  match scores result with
  | Some b => proj b
  | None => 0.0
  end.

Definition skill_or_empty (result : State) : pyval :=
  match scores result with
  | Some b => skill_match_score b
  | None => PDict []
  end.

(** [MatchResult(candidate_info=result["candidate_info_json"], ...)] *)
Definition match_result (result : State) : Py.result MatchResult :=
  candidate <- field (candidate_info_json result) ;;
  job <- field (job_info_json result) ;;
  candidate <- as_dict candidate ;;
  job <- as_dict job ;;
  skill <- as_dict (skill_or_empty result) ;;
  Ok (mkMatchResult candidate job (score_or result experience_score)
        (score_or result education_score) skill
        (score_or result final_match_score)).

(** An entry of the list [results] of the batch endpoint. *)
Inductive Entry : Type :=
| Succeeded (name : option string) (candidate_info job_info : pyval)
    (experience education : Q) (skill : pyval) (final : Q)
| Failed (name : option string) (error : string).

Definition success (e : Entry) : bool :=
  match e with
  | Succeeded _ _ _ _ _ _ _ => true
  | Failed _ _ => false
  end.

Definition entry_name (e : Entry) : option string :=
  match e with
  | Succeeded name _ _ _ _ _ _ => name
  | Failed name _ => name
  end.

(** The dict the batch endpoint returns. *)
Record BatchResponse : Type := mkBatch {
  results : list Entry;
  total_processed : nat;
  successful : nat;
  failed : nat
}.

Section Endpoints.

Variable chat : string -> string -> result string.
Variable json_loads : string -> option pyval.
Variable json_dumps : option nat -> pyval -> string.
Variables CANDIDATE_PROMPT JD_PROMPT GRADING_PROMPT : string.

(** [str(e)] *)
Variable str : raised -> string.

(** Extraction from the saved upload, then the graph on the three input
    keys. *)
Definition run_graph (file : UploadFile) (job_description : string)
  : result State :=
  doc <- document file ;;
  extracted <- TextExtractor.extract_data doc ;;
  invoke chat json_loads json_dumps CANDIDATE_PROMPT JD_PROMPT GRADING_PROMPT
    (mkState (Some (fst extracted))
       (Some (TextExtractor.links_value (snd extracted)))
       None (Some job_description) None None).

(** The body of the outer [try] of [parse_resume]. *)
Definition parse_resume_body (resume_file : UploadFile) (job_description : string)
  : outcome MatchResult :=
  match is_pdf resume_file with
  | Raise e => Fail (PyExn e)
  | Ok false => Fail (HTTPException 400 "Only PDF files are supported")
  | Ok true =>
      of_result (result <- run_graph resume_file job_description ;;
                 match_result result)
  end.

(** [parse_resume]: [except Exception] takes every exception of the
    body, an [HTTPException] too. *)
Definition parse_resume (resume_file : UploadFile) (job_description : string)
  : outcome MatchResult :=
  match parse_resume_body resume_file job_description with
  | Return r => Return r
  | Fail e =>
      Fail (HTTPException 500 ("Error processing resume: " ++ str e))
  end.

(** [parse_job_description]: the job node on a state with the one key. *)
Definition parse_job_description (job_description : string) : outcome pyval :=
  match job_desc_extraction chat json_loads JD_PROMPT
          (mkState None None None (Some job_description) None None) with
  | Ok job_info =>
      Return (PDict [("job_info", job_info);
                     ("message", PStr "Job description parsed successfully")])
  | Raise e =>
      Fail (HTTPException 500
              ("Error parsing job description: " ++ str (PyExn e)))
  end.

(** The entry of a file the graph ran on. *)
Definition success_entry (file : UploadFile) (result : State)
  : Py.result Entry :=
  candidate <- field (candidate_info_json result) ;;
  job <- field (job_info_json result) ;;
  Ok (Succeeded (filename file) candidate job
        (score_or result experience_score) (score_or result education_score)
        (skill_or_empty result) (score_or result final_match_score)).

(** One turn of the loop of [batch_parse_resumes], on the list [results]
    so far. *)
Definition batch_step (job_description : string) (results : list Entry)
  (file : UploadFile) : list Entry :=
  match is_pdf file with
  | Raise e => results ++ [Failed (filename file) (str (PyExn e))]
  | Ok false =>
      results ++ [Failed (filename file) "Only PDF files are supported"]
  | Ok true =>
      match (result <- run_graph file job_description ;;
             success_entry file result) with
      | Ok entry => results ++ [entry]
      | Raise e => results ++ [Failed (filename file) (str (PyExn e))]
      end
  end.

Definition batch_parse_resumes (resume_files : list UploadFile)
  (job_description : string) : BatchResponse :=
  let results := fold_left (batch_step job_description) resume_files [] in
  mkBatch results (List.length resume_files)
    (List.length (filter success results))
    (List.length (filter (fun r => negb (success r)) results)).

End Endpoints.

End App.

(** ** Sample documents and replies *)

Module Samples.
Import Py ResumeParser.

Local Open Scope string_scope.

(** A resume of one page with three links. *)
Definition resume : list TextExtractor.Page :=
  [TextExtractor.mkPage "Asha Rao, 9876543210, B.Tech"
     [TextExtractor.mkLink (Some "mailto:asha@gmail.com");
      TextExtractor.mkLink (Some "https://github.com/asha");
      TextExtractor.mkLink (Some "https://asha.dev")]].

(** What [extract_data] returns for it. *)
Definition resume_text : string := "Asha Rao  9876543210  B Tech".

Definition resume_links : TextExtractor.Links :=
  TextExtractor.mkLinks
    (TextExtractor.mkProfile "" "mailto:asha@gmail.com" "" ["9876543210"] "")
    ["https://github.com/asha"; "https://asha.dev"].

(** A reply of the candidate extraction with a contact object, and one
    whose contact is [null]. *)
Definition reply_contact : list (string * pyval) :=
  [("email", PStr "asha@example.org"); ("city", PStr "Pune")].

Definition reply_with_contact : list (string * pyval) :=
  [("name", PStr "Asha Rao"); ("contact", PDict reply_contact)].

Definition reply_null_contact : list (string * pyval) :=
  [("name", PStr "Asha Rao"); ("contact", PNone)].

(** A collaborator that answers with its system prompt, and the parser
    of its answers. *)
Definition echo (system user : string) : result string := Ok system.

Definition json_loads (text : string) : option pyval :=
  if text =? "with contact" then Some (PDict reply_with_contact)
  else if text =? "null contact" then Some (PDict reply_null_contact)
  else if text =? "a list" then Some (PList [PStr "Asha Rao"])
  else None.

(** [str(e)], the same text for every exception. *)
Definition str (e : App.raised) : string := "error".

Definition extracted : State :=
  mkState (Some resume_text) (Some (TextExtractor.links_value resume_links))
    None (Some "job text") None None.

(** An upload of the resume, and the state the graph returns for it with
    the replies of [Demo]. *)
Definition upload : App.UploadFile := App.mkUpload (Some "asha.pdf") (Ok resume).

Definition final_state : State :=
  mkState (Some resume_text) (Some (TextExtractor.links_value resume_links))
    (Some Demo.candidate_record) (Some "job text") (Some Demo.job_record)
    (Some Demo.bundle).

End Samples.

(** ** Python's numbers: [int] and binary64 [float] *)

Module Binary64.
Import Py.

Local Open Scope string_scope.

(** A value decoded from JSON, a number being an [int] or a [float]. *)
Inductive value : Type :=
| VNone
| VBool (b : bool)
| VInt (n : Z)
| VFloat (x : float)
| VStr (s : string)
| VList (l : list value)
| VDict (d : list (string * value)).

Inductive number : Type :=
| Int (n : Z)
| Float (x : float).

(** An integer as a binary floating-point datum of exponent 0, not yet
    rounded to 53 bits. *)
Definition of_Z (n : Z) : spec_float :=
  match n with
  | Z0 => S754_zero false
  | Zpos p => S754_finite false p 0
  | Zneg p => S754_finite true p 0
  end.

(** The [float] nearest to [n / d], a tie going to the even mantissa;
    infinite when the quotient is out of range. *)
Definition nearest_quotient (n d : Z) : float :=
  SF2Prim (SFdiv prec emax (of_Z n) (of_Z d)).

(** An infinite result of a conversion is an [OverflowError]. *)
Definition finite_or_overflow (x : float) : result float :=
  if is_infinity x then Raise OverflowError else Ok x.

(** [float(n)]: the nearest [float], a tie going to the even mantissa. *)
Definition float_of_int (n : Z) : result float :=
  finite_or_overflow (SF2Prim (binary_normalize prec emax n 0 false)).

(** The operand of a mixed operation. *)
Definition to_float (a : number) : result float :=
  match a with
  | Int n => float_of_int n
  | Float x => Ok x
  end.

(** [a + b]: exact on two ints, in binary64 otherwise. *)
Definition add (a b : number) : result number :=
  match a, b with
  | Int m, Int n => Ok (Int (m + n))
  | _, _ => x <- to_float a ;; y <- to_float b ;; Ok (Float (x + y))
  end.

(** [a * b] *)
Definition mul (a b : number) : result number :=
  match a, b with
  | Int m, Int n => Ok (Int (m * n))
  | _, _ => x <- to_float a ;; y <- to_float b ;; Ok (Float (x * y))
  end.

(** [a / b]: the quotient of two ints is rounded once. *)
Definition truediv (a b : number) : result float :=
  match a, b with
  | Int m, Int n =>
      if (n =? 0)%Z then Raise ZeroDivisionError
      else finite_or_overflow (nearest_quotient m n)
  | _, _ =>
      x <- to_float a ;;
      y <- to_float b ;;
      if is_zero y then Raise ZeroDivisionError else Ok (x / y)%float
  end.

(** The value of the finite float of mantissa [m] and exponent [e]. *)
Definition exact (m : positive) (e : Z) : Q :=
  (inject_Z (Zpos m) * (2 # 1) ^ e)%Q.

(** [round(x, ndigits)] on a float: the decimal of [ndigits] places
    nearest to the value of [x], a tie going to the even last digit, read
    back as a float; the sign is kept, and so are zero, the infinities
    and NaN. *)
Definition round (x : float) (ndigits : nat) : float :=
  match Prim2SF x with
  | S754_finite s m e =>
      let n := round_half_even (exact m e * inject_Z (pow10 ndigits)) in
      if (n =? 0)%Z then (if s then neg_zero else zero)
      else nearest_quotient (if s then - n else n) (pow10 ndigits)
  | _ => x
  end.

(** [bool(v)] *)
Definition truthy (v : value) : bool :=
  match v with
  | VNone => false
  | VBool b => b
  | VInt n => negb (n =? 0)%Z
  | VFloat x => negb (is_zero x)
  | VStr s => negb (is_empty s)
  | VList l => match l with [] => false | _ :: _ => true end
  | VDict d => match d with [] => false | _ :: _ => true end
  end.

(** [a or b] *)
Definition py_or (a b : value) : value := if truthy a then a else b.

Fixpoint dict_get (d : list (string * value)) (k : string) : option value :=
  match d with
  | [] => None
  | (k', v) :: r => if String.eqb k' k then Some v else dict_get r k
  end.

(** [o.get(k, default)]: only a dict has the method. *)
Definition get (o : value) (k : string) (default : value) : result value :=
  match o with
  | VDict d =>
      Ok (match dict_get d k with Some v => v | None => default end)
  | _ => Raise AttributeError
  end.

(** [v.lower()]: only a str has the method. *)
Definition lower_of (v : value) : result string :=
  match v with
  | VStr s => Ok (lower s)
  | _ => Raise AttributeError
  end.

(** A value as an operand of [+] or [*] with a number: a bool is the int
    0 or 1, anything that is not a number is a [TypeError]. *)
Definition number_of (v : value) : result number :=
  match v with
  | VInt n => Ok (Int n)
  | VFloat x => Ok (Float x)
  | VBool b => Ok (Int (if b then 1 else 0))
  | _ => Raise TypeError
  end.

(** [for x in v] *)
Definition iter (v : value) : result (list value) :=
  match v with
  | VList l => Ok l
  | VStr s => Ok (map (fun c => VStr (String c EmptyString)) (chars s))
  | VDict d => Ok (map (fun kv => VStr (fst kv)) d)
  | _ => Raise TypeError
  end.

End Binary64.

(** ** [compute_experience_breakdown] in Python's own arithmetic *)

Module Aggregator.
Import Py Binary64.

Local Open Scope string_scope.

(** The five counters of the loop. *)
Record Months : Type := mkMonths {
  internship_months : number;
  apprentice_months : number;
  industry_months : number;
  part_time_months : number;
  freelance_months : number
}.

Definition no_months : Months := mkMonths (Int 0) (Int 0) (Int 0) (Int 0) (Int 0).

(** [counter += months] *)
Definition increase (counter : number) (months : value) : result number :=
  m <- number_of months ;; add counter m.

(** [counter += 0.5 * months] *)
Definition increase_by_half (counter : number) (months : value) : result number :=
  m <- number_of months ;;
  half <- mul (Float 0.5) m ;;
  add counter half.

(** One turn of the loop [for exp in experiences]. *)
Definition add_experience (acc : Months) (exp : value) : result Months :=
  months <- get exp "duration_months" (VInt 0) ;;
  type_v <- get exp "type" (VStr "") ;;
  exp_type <- lower_of (py_or type_v (VStr "")) ;;
  let '(mkMonths i a f p l) := acc in
  if exp_type =? "internship" then
    i' <- increase i months ;; Ok (mkMonths i' a f p l)
  else if exp_type =? "apprentice" then
    a' <- increase a months ;; Ok (mkMonths i a' f p l)
  else if exp_type =? "full time" then
    f' <- increase f months ;; Ok (mkMonths i a f' p l)
  else if exp_type =? "part time" then
    p' <- increase p months ;; Ok (mkMonths i a f p' l)
  else if exp_type =? "free lance" then
    l' <- increase l months ;; Ok (mkMonths i a f p l')
  else
    a' <- increase_by_half a months ;; Ok (mkMonths i a' f p l).

(** The dict [compute_experience_breakdown] returns. *)
Record ExperienceBreakdown : Type := mkBreakdown {
  internship_years : float;
  apprentice_years : float;
  industry_years : float;
  part_time_years : float;
  freelance_years : float;
  effective_years : float
}.

Definition INTERNSHIP_WEIGHT : float := 0.5.
Definition APPRENTICE_WEIGHT : float := 0.6.
Definition PART_TIME_WEIGHT : float := 0.4.
Definition FREELANCE_WEIGHT : float := 0.7.

(** The list the loop runs over, by the shape of [candidate]. *)
Definition experiences_of (candidate : value) : result value :=
  match candidate with
  | VDict _ => get candidate "experience" (VList [])
  | VList (VDict d :: _) => get (VDict d) "experience" (VList [])
  | _ => Ok (VList [])
  end.

(** What follows the loop: years per counter, the weighted sum, the
    rounding. *)
Definition breakdown_of (m : Months) : result ExperienceBreakdown :=
  internship_years <- truediv (internship_months m) (Int 12) ;;
  apprentice_years <- truediv (apprentice_months m) (Int 12) ;;
  industry_years <- truediv (industry_months m) (Int 12) ;;
  part_time_years <- truediv (part_time_months m) (Int 12) ;;
  freelance_years <- truediv (freelance_months m) (Int 12) ;;
  let effective_years :=
    (industry_years
     + INTERNSHIP_WEIGHT * internship_years
     + APPRENTICE_WEIGHT * apprentice_years
     + PART_TIME_WEIGHT * part_time_years
     + FREELANCE_WEIGHT * freelance_years)%float in
  Ok (mkBreakdown (round internship_years 2) (round apprentice_years 2)
        (round industry_years 2) (round part_time_years 2)
        (round freelance_years 2) (round effective_years 2)).

Definition compute_experience_breakdown (candidate : value)
  : result ExperienceBreakdown :=
  experiences <- experiences_of candidate ;;
  items <- iter experiences ;;
  m <- ResumeParser.for_each add_experience no_months items ;;
  breakdown_of m.

End Aggregator.

(** ** The aggregator as the specification words it *)

Module AggregatorSpec.
Import Py Binary64.

Local Open Scope string_scope.

(** An experience record: its type and its duration in months. *)
Record ExperienceRecord : Type := mkRecord {
  type : string;
  duration_months : number
}.

(** How a record is read off an entry of the list decoded from JSON: the
    type is the str under [type], empty when the key is absent or holds
    [null] or another value that counts as false; the duration is the
    number under [duration_months], 0 when the key is absent, [true] and
    [false] counting as 1 and 0.  The entry may hold other keys. *)
Inductive TypeField : option value -> string -> Prop :=
| type_absent : TypeField None ""
| type_str (s : string) : TypeField (Some (VStr s)) s
| type_false (v : value) : truthy v = false -> TypeField (Some v) "".

Inductive DurationField : option value -> number -> Prop :=
| duration_absent : DurationField None (Int 0)
| duration_int (n : Z) : DurationField (Some (VInt n)) (Int n)
| duration_float (x : float) : DurationField (Some (VFloat x)) (Float x)
| duration_bool (b : bool) :
    DurationField (Some (VBool b)) (Int (if b then 1 else 0)).

Inductive Reads : value -> ExperienceRecord -> Prop :=
| reads (d : list (string * value)) (t : string) (m : number) :
    TypeField (dict_get d "type") t ->
    DurationField (dict_get d "duration_months") m ->
    Reads (VDict d) (mkRecord t m).

Definition recognized : list string :=
  ["internship"; "apprentice"; "full time"; "part time"; "free lance"].

(** The recognized category a type matches without regard to case. *)
Definition category (r : ExperienceRecord) : option string :=
  find (String.eqb (lower (type r))) recognized.

(** What a record adds to a bucket: its months to the bucket of its
    category; half its months to the apprentice bucket when its type is
    not recognized; nothing to any other bucket. *)
Definition share (bucket : string) (r : ExperienceRecord)
  : option (result number) :=
  match category r with
  | Some c => if c =? bucket then Some (Ok (duration_months r)) else None
  | None =>
      if bucket =? "apprentice"
      then Some (mul (Float 0.5) (duration_months r))
      else None
  end.

(** The months of a bucket, summed in the order of the records. *)
Fixpoint total (bucket : string) (sum : number) (rs : list ExperienceRecord)
  : result number :=
  match rs with
  | [] => Ok sum
  | r :: rest =>
      match share bucket r with
      | Some m => m <- m ;; sum' <- add sum m ;; total bucket sum' rest
      | None => total bucket sum rest
      end
  end.

(** A bucket in years. *)
Definition years (bucket : string) (rs : list ExperienceRecord) : result float :=
  months <- total bucket (Int 0) rs ;; truediv months (Int 12).

(** The weighted sum, before rounding. *)
Definition weighted_sum (rs : list ExperienceRecord) : result float :=
  internship <- years "internship" rs ;;
  apprentice <- years "apprentice" rs ;;
  industry <- years "full time" rs ;;
  part_time <- years "part time" rs ;;
  freelance <- years "free lance" rs ;;
  Ok (industry * 1.0 + internship * 0.5 + apprentice * 0.6
      + part_time * 0.4 + freelance * 0.7)%float.

(** The integer [n] as a floating-point datum of sign [s] and
    exponent 0. *)
Definition signed (s : bool) (n : Z) : spec_float :=
  match n with
  | Zpos p => S754_finite s p 0
  | _ => S754_zero s
  end.

(** [r] is [x] rounded to [ndigits] decimals: for a finite [x] that is
    not zero, of sign [s] and magnitude [m * 2 ^ e], the float nearest to
    [n / 10 ^ ndigits], of the same sign, where [n] is the integer
    nearest to [m * 2 ^ e * 10 ^ ndigits], the even one of the two when
    they are as near; a zero, an infinity and NaN are left as they are. *)
Inductive Rounded (ndigits : nat) (x : float) : float -> Prop :=
| rounded_finite (s : bool) (m : positive) (e : Z) (n : Z) :
    Prim2SF x = S754_finite s m e ->
    (0 <= n)%Z ->
    (Qabs (inject_Z (Zpos m) * (2 # 1) ^ e * inject_Z (10 ^ Z.of_nat ndigits)
           - inject_Z n) <= 1 # 2)%Q ->
    (Qabs (inject_Z (Zpos m) * (2 # 1) ^ e * inject_Z (10 ^ Z.of_nat ndigits)
           - inject_Z n) == 1 # 2 -> Z.even n = true)%Q ->
    Rounded ndigits x
      (SF2Prim (SFdiv prec emax (signed s n)
                  (S754_finite false (Z.to_pos (10 ^ Z.of_nat ndigits)) 0)))
| rounded_special :
    (forall s m e, Prim2SF x <> S754_finite s m e) ->
    Rounded ndigits x x.

End AggregatorSpec.

(** ** A candidate for the runs of the aggregator *)

Module AggregatorSamples.
Import Binary64.

Local Open Scope string_scope.

(** Four entries: a contract of 3 months, an entry of a null type with
    the duration [true], 2.7 months of full-time work and an internship
    without a duration. *)
Definition entries : list value :=
  [VDict [("company", VStr "Acme"); ("type", VStr "Contract");
          ("duration_months", VInt 3)];
   VDict [("type", VNone); ("duration_months", VBool true)];
   VDict [("duration_months", VFloat 2.7); ("type", VStr "Full Time")];
   VDict [("type", VStr "INTERNSHIP")]].

Definition candidate : list (string * value) :=
  [("name", VStr "A"); ("experience", VList entries)].

(** The records the entries hold. *)
Definition records : list AggregatorSpec.ExperienceRecord :=
  [AggregatorSpec.mkRecord "Contract" (Int 3);
   AggregatorSpec.mkRecord "" (Int 1);
   AggregatorSpec.mkRecord "Full Time" (Float 2.7);
   AggregatorSpec.mkRecord "INTERNSHIP" (Int 0)].

End AggregatorSamples.

(** ** Facts about the Python operations *)

Section StringFacts.
Import Py.

Local Open Scope string_scope.

Lemma starts_with_iff (p s : string) :
  starts_with p s = true <-> exists post, s = p ++ post.
Proof.
  revert s. induction p as [|a p IH]; intros s; simpl.
  - split; [intros _; now exists s | reflexivity].
  - destruct s as [|b s].
    + split; [discriminate | intros [post H]; discriminate].
    + rewrite andb_true_iff, Ascii.eqb_eq, IH. split.
      * intros [-> [post ->]]. now exists post.
      * intros [post H]. injection H as -> ->. split; [reflexivity | now exists post].
Qed.

(** [str_in] is the substring test. *)
Lemma str_in_iff (x t : string) :
  str_in x t = true <-> exists pre post, t = pre ++ x ++ post.
Proof.
  induction t as [|c t IH].
  - simpl. rewrite orb_false_r, starts_with_iff. split.
    + intros [post H]. now exists "", post.
    + intros [pre [post H]]. destruct pre as [|a pre]; [now exists post | discriminate].
  - simpl. rewrite orb_true_iff, starts_with_iff, IH. split.
    + intros [[post H] | [pre [post H]]].
      * now exists "", post.
      * exists (String c pre), post. simpl. now rewrite H.
    + intros [pre [post H]]. destruct pre as [|a pre].
      * left. now exists post.
      * right. simpl in H. injection H as _ H. now exists pre, post.
Qed.

Lemma any_in_iff (terms : list string) (t : string) :
  ResumeParser.any_in terms t = true <->
  exists x pre post, In x terms /\ t = pre ++ x ++ post.
Proof.
  unfold ResumeParser.any_in. rewrite existsb_exists. split.
  - intros [x [Hin H]]. apply str_in_iff in H as [pre [post H]]. now exists x, pre, post.
  - intros [x [pre [post [Hin H]]]]. exists x. split; [assumption |].
    apply str_in_iff. now exists pre, post.
Qed.

Lemma filter_chars_app (p : ascii -> bool) (s t : string) :
  filter_chars p (s ++ t) = filter_chars p s ++ filter_chars p t.
Proof.
  induction s as [|c s IH]; simpl; [reflexivity |].
  destruct (p c); simpl; now rewrite IH.
Qed.

Lemma filter_chars_none (p : ascii -> bool) (s : string) :
  all_chars (fun c => negb (p c)) s = true -> filter_chars p s = "".
Proof.
  induction s as [|c s IH]; simpl; [reflexivity |].
  rewrite andb_true_iff, negb_true_iff. intros [-> H]. auto.
Qed.

Lemma filter_chars_all (p : ascii -> bool) (s : string) :
  all_chars p s = true -> filter_chars p s = s.
Proof.
  induction s as [|c s IH]; simpl; [reflexivity |].
  rewrite andb_true_iff. intros [-> H]. now rewrite IH.
Qed.

Lemma decimal_is_digit (s : string) :
  all_chars is_decimal s = true -> all_chars isdigit_char s = true.
Proof.
  induction s as [|c s IH]; simpl; [reflexivity |].
  rewrite !andb_true_iff. intros [Hc H]. split; [| auto].
  unfold isdigit_char. now rewrite Hc.
Qed.

Lemma append_empty_r (s : string) : s ++ "" = s.
Proof. induction s as [|c s IH]; simpl; [reflexivity | now rewrite IH]. Qed.

(** The digits the comprehension of [experience_match] keeps from a str
    are its digit characters, in order. *)
Lemma digit_items_chars (s : string) :
  x <- ResumeParser.digit_items
         (map (fun c => PStr (String c "")) (chars s)) ;; Ok (join x)
  = Ok (filter_chars isdigit_char s).
Proof.
  induction s as [|c s IH]; simpl; [reflexivity |].
  destruct (ResumeParser.digit_items _) as [kept|e]; simpl in *; [| discriminate].
  injection IH as IH. unfold isdigit. simpl. rewrite andb_true_r.
  destruct (isdigit_char c); simpl; now rewrite IH.
Qed.

Lemma required_years_str (s : string) :
  ResumeParser.required_years (PStr s) =
  match int_of_digits (filter_chars isdigit_char s) with
  | Some n => Ok n
  | None => Raise ValueError
  end.
Proof.
  unfold ResumeParser.required_years. simpl.
  pose proof (digit_items_chars s) as H.
  destruct (ResumeParser.digit_items _) as [kept|e]; simpl in *; [| discriminate].
  now injection H as ->.
Qed.

End StringFacts.

Section NumberFacts.
Import Py.

Local Open Scope Q_scope.



End NumberFacts.

Section DegreeFacts.
Import Py ResumeParser.

Local Open Scope string_scope.
Local Open Scope Q_scope.

(** The [if]/[elif] chain realises the level table. *)
Lemma level_score_table (c j : string) : Spec.LevelScore c j (level_score c j).
Proof.
  unfold level_score.
  destruct (String.eqb_spec c j) as [->|Hcj]; [constructor |].
  destruct (String.eqb_spec c "master"), (String.eqb_spec j "bachelor"),
    (String.eqb_spec c "bachelor"), (String.eqb_spec j "master"),
    (String.eqb_spec c "diploma");
    subst; simpl; try congruence; constructor; congruence.
Qed.

(** The table gives one score per pair of levels. *)
Lemma level_table_functional (c j : string) (q : Q) :
  Spec.LevelScore c j q -> q = level_score c j.
Proof.
  intros H. destruct H; try reflexivity.
  - unfold level_score. now rewrite String.eqb_refl.
  - unfold level_score.
    destruct (String.eqb_spec c j) as [->|_]; [now destruct (H eq_refl) |].
    destruct (String.eqb_spec c "master"), (String.eqb_spec j "bachelor"),
      (String.eqb_spec c "bachelor"), (String.eqb_spec j "master"),
      (String.eqb_spec c "diploma");
      subst; simpl; congruence.
Qed.

Lemma level_score_values (c j : string) :
  level_score c j = 1.0 \/ level_score c j = 0.6 \/
  level_score c j = 0.5 \/ level_score c j = 0.4.
Proof.
  unfold level_score.
  destruct (c =? j)%string; [now left |].
  destruct ((c =? "master") && (j =? "bachelor"))%bool; [now left |].
  destruct ((c =? "bachelor") && (j =? "master"))%bool; [now right; left |].
  destruct ((c =? "diploma") && (j =? "bachelor"))%bool; [now right; right; left |].
  now right; right; right.
Qed.

(** On a str, [normalize_degree] returns one of its five names. *)
Lemma normalize_degree_str (text : string) :
  exists level, normalize_degree (PStr text) = Ok level.
Proof.
  unfold normalize_degree. destruct text as [|c text]; simpl; [now eexists |].
  repeat match goal with
         | |- context [if ?b then _ else _] => destruct b
         end; now eexists.
Qed.

(** On two strs, [compute_field_relevance] returns 1.0, 0.9 or 0.5, and
    1.0 only for a requirement that is blank. *)
Lemma field_relevance_str (stream jd : string) :
  exists fr,
    compute_field_relevance (PStr stream) (PStr jd) = Ok fr
    /\ (fr = 1.0 \/ fr = 0.9 \/ fr = 0.5)
    /\ (is_blank jd = false -> fr = 0.9 \/ fr = 0.5).
Proof.
  unfold compute_field_relevance, strip_is_empty.
  destruct jd as [|c jd]; [simpl; exists 1.0; intuition discriminate |].
  cbn [truthy is_empty negb Py.bind].
  destruct (is_blank (String c jd)); [exists 1.0; intuition discriminate |].
  assert (Hl : lower_of (py_or (PStr stream) (PStr "")) = Ok (lower stream))
    by now destruct stream.
  rewrite Hl. cbn [Py.bind lower_of].
  destruct (any_in RELEVANT_FIELDS (lower stream));
    [exists 0.9 | exists 0.5]; intuition.
Qed.

(** [degree_match] on strs, for a requirement that is not empty. *)
Lemma degree_match_str (d s jd cand_level jd_level : string) (fr : Q) :
  jd <> "" ->
  normalize_degree (PStr d) = Ok cand_level ->
  normalize_degree (PStr jd) = Ok jd_level ->
  compute_field_relevance (PStr s) (PStr jd) = Ok fr ->
  degree_match (PStr d) (PStr s) (PStr jd)
  = Ok (round (0.7 * level_score cand_level jd_level + 0.3 * fr) 3).
Proof.
  intros Hjd Hc Hj Hf. unfold degree_match.
  destruct jd as [|c jd]; [now destruct Hjd |].
  cbn [truthy is_empty negb]. rewrite Hc, Hj, Hf. reflexivity.
Qed.

End DegreeFacts.

Section ExperienceFacts.
Import Py ResumeParser.

Local Open Scope string_scope.
Local Open Scope Q_scope.

(** One turn of the loop on a well-formed record. *)
Lemma add_experience_record (acc : Months) (r : Spec.ExperienceRecord) :
  add_experience acc (Spec.record_value r) =
  Ok (let t := Spec.type_of r in
      let months := Spec.months_of r in
      let '(mkMonths i a f p l) := acc in
      if t =? "internship" then mkMonths (i + months) a f p l
      else if t =? "apprentice" then mkMonths i (a + months) f p l
      else if t =? "full time" then mkMonths i a (f + months) p l
      else if t =? "part time" then mkMonths i a f (p + months) l
      else if t =? "free lance" then mkMonths i a f p (l + months)
      else mkMonths i (a + 0.5 * months) f p l).
Proof.
  destruct r as [[ty|] [m|]]; destruct acc as [i a f p l];
    unfold add_experience, Spec.record_value, Spec.type_of, Spec.months_of;
    cbn [Spec.type Spec.duration_months app get dict_get String.eqb Ascii.eqb
         Bool.eqb Py.bind num];
    try (destruct ty as [|c ty]); reflexivity.
Qed.

Lemma category_months_cons (category : string) (r : Spec.ExperienceRecord)
  (rs : list Spec.ExperienceRecord) :
  Spec.category_months category (r :: rs) =
  if Spec.type_of r =? category
  then Spec.months_of r + Spec.category_months category rs
  else Spec.category_months category rs.
Proof. reflexivity. Qed.

Lemma unrecognized_share_cons (r : Spec.ExperienceRecord)
  (rs : list Spec.ExperienceRecord) :
  Spec.unrecognized_share (r :: rs) =
  if negb (Spec.is_recognized r)
  then 0.5 * Spec.months_of r + Spec.unrecognized_share rs
  else Spec.unrecognized_share rs.
Proof. reflexivity. Qed.

(** The loop over well-formed records adds, to each counter, the months
    the specification assigns to its category. *)
Lemma for_each_records (rs : list Spec.ExperienceRecord) (acc : Months) :
  exists m,
    for_each add_experience acc (map Spec.record_value rs) = Ok m
    /\ internship_months m == internship_months acc + Spec.category_months "internship" rs
    /\ apprentice_months m ==
       apprentice_months acc + (Spec.category_months "apprentice" rs + Spec.unrecognized_share rs)
    /\ industry_months m == industry_months acc + Spec.category_months "full time" rs
    /\ part_time_months m == part_time_months acc + Spec.category_months "part time" rs
    /\ freelance_months m == freelance_months acc + Spec.category_months "free lance" rs.
Proof.
  revert acc. induction rs as [|r rs IH]; intros acc.
  - exists acc. simpl. unfold Spec.category_months, Spec.unrecognized_share. simpl.
    repeat split; try reflexivity; ring.
  - cbn [map for_each]. rewrite add_experience_record. cbn [Py.bind].
    destruct acc as [i a f p l].
    rewrite !category_months_cons, unrecognized_share_cons.
    unfold Spec.is_recognized, Spec.recognized. cbn [existsb].
    set (t := Spec.type_of r). set (mo := Spec.months_of r).
    destruct (String.eqb_spec t "internship") as [E1|E1];
      [| destruct (String.eqb_spec t "apprentice") as [E2|E2];
         [| destruct (String.eqb_spec t "full time") as [E3|E3];
            [| destruct (String.eqb_spec t "part time") as [E4|E4];
               [| destruct (String.eqb_spec t "free lance") as [E5|E5]]]]];
      try rewrite E1; try rewrite E2; try rewrite E3; try rewrite E4;
      try rewrite E5;
      cbn [String.eqb Ascii.eqb Bool.eqb orb negb andb];
      match goal with
      | |- context [for_each add_experience ?acc' _] =>
          destruct (IH acc') as [m [Hm [Hi [Ha [Hf [Hp Hl]]]]]]
      end;
      exists m; (split; [exact Hm |]);
      rewrite Hi, Ha, Hf, Hp, Hl; cbn [internship_months apprentice_months
        industry_months part_time_months freelance_months];
      repeat split; ring.
Qed.

End ExperienceFacts.

(** ** The education matcher *)

Section EducationMatcher.
Import Py ResumeParser.

Local Open Scope string_scope.
Local Open Scope Q_scope.

(** C10: [normalize_degree] tries the bachelor, master, phd and diploma
    terms in that fixed order and returns the name of the first list one
    of whose terms occurs in the lowercased text.  So every text in which
    a bachelor term and a phd term both occur is "bachelor" (as is
    "Bachelor and PhD"), and "Doctor of Medicine", in which the phd term
    "doctor" occurs, is "master" because the short term "me" occurs in it
    as a plain substring. *)
Theorem normalize_degree_first_match :
  (forall text : string,
      (any_in bachelor_terms (lower text) = true ->
       normalize_degree (PStr text) = Ok "bachelor")
      /\ (any_in bachelor_terms (lower text) = false ->
          any_in master_terms (lower text) = true ->
          normalize_degree (PStr text) = Ok "master")
      /\ (any_in bachelor_terms (lower text) = false ->
          any_in master_terms (lower text) = false ->
          any_in phd_terms (lower text) = true ->
          normalize_degree (PStr text) = Ok "phd")
      /\ (any_in bachelor_terms (lower text) = false ->
          any_in master_terms (lower text) = false ->
          any_in phd_terms (lower text) = false ->
          str_in "diploma" (lower text) = true ->
          normalize_degree (PStr text) = Ok "diploma")
      /\ (any_in bachelor_terms (lower text) = false ->
          any_in master_terms (lower text) = false ->
          any_in phd_terms (lower text) = false ->
          str_in "diploma" (lower text) = false ->
          normalize_degree (PStr text) = Ok "unknown"))
  /\ (forall text b p pre post pre' post' : string,
         In b bachelor_terms -> In p phd_terms ->
         lower text = pre ++ b ++ post ->
         lower text = pre' ++ p ++ post' ->
         normalize_degree (PStr text) = Ok "bachelor")
  /\ normalize_degree (PStr "Bachelor and PhD") = Ok "bachelor"
  /\ (lower "Doctor of Medicine" = "" ++ "doctor" ++ " of medicine"
      /\ lower "Doctor of Medicine" = "doctor of " ++ "me" ++ "dicine"
      /\ In "doctor" phd_terms /\ In "me" master_terms
      /\ normalize_degree (PStr "Doctor of Medicine") = Ok "master").
Proof.
  assert (chain : forall text : string,
             text <> "" ->
             normalize_degree (PStr text) =
             Ok (if any_in bachelor_terms (lower text) then "bachelor"
                 else if any_in master_terms (lower text) then "master"
                 else if any_in phd_terms (lower text) then "phd"
                 else if str_in "diploma" (lower text) then "diploma"
                 else "unknown")).
  { intros [|c text] H; [now destruct H |].
    unfold normalize_degree. cbn [truthy is_empty negb lower_of Py.bind].
    repeat match goal with
           | |- context [if ?b then _ else _] => destruct b
           end; reflexivity. }
  assert (first : forall text : string,
             any_in bachelor_terms (lower text) = true ->
             normalize_degree (PStr text) = Ok "bachelor").
  { intros text H. destruct text as [|c text]; [discriminate H |].
    rewrite chain by discriminate. now rewrite H. }
  split; [| split; [| split]].
  - intros text. destruct text as [|c text].
    + repeat split; intros; try discriminate; reflexivity.
    + rewrite chain by discriminate.
      repeat split; intros;
        repeat match goal with
               | H : _ = _ |- _ => rewrite H
               end; reflexivity.
  - intros text b p pre post pre' post' Hb _ Ht _. apply first.
    apply any_in_iff. now exists b, pre, post.
  - reflexivity.
  - repeat split; try reflexivity; simpl; tauto.
Qed.

Lemma normalize_degree_first_match_witness :
  normalize_degree (PStr "B.Tech with a Doctorate") = Ok "bachelor".
Proof.
  apply (proj1 (proj2 normalize_degree_first_match)
           "B.Tech with a Doctorate" "b.tech" "doctorate"
           "" " with a doctorate" "b.tech with a " "");
    simpl; tauto.
Defined.

(** C6: an empty requirement for experience gives the experience score
    1.0 whatever the candidate's years are, and an empty requirement for
    education gives the education score 1.0 whatever the degree and the
    stream are; the same holds for a requirement that is [None]. *)
Theorem empty_requirement_scores_one :
  (forall years : Q, experience_match years (PStr "") == 1)
  /\ (forall degree stream : pyval,
         exists q, degree_match degree stream (PStr "") = Ok q /\ q == 1)
  /\ (forall years : Q, experience_match years PNone == 1)
  /\ (forall degree stream : pyval,
         exists q, degree_match degree stream PNone = Ok q /\ q == 1).
Proof.
  repeat split; intros; try reflexivity; exists 1.0; split; reflexivity.
Qed.

(** C2: for a requirement that is not empty, [degree_match] returns
    0.7 times the level score plus 0.3 times the field relevance of the
    stream, rounded to 3 decimals, the level score being the one the
    table gives for the two normalized levels; for "B.Tech", "Computer
    Science" and "Bachelor" that is 0.97. *)
Theorem degree_match_formula :
  (forall d s jd : string,
      jd <> "" ->
      exists (cand_level jd_level : string) (fr : Q),
        normalize_degree (PStr d) = Ok cand_level
        /\ normalize_degree (PStr jd) = Ok jd_level
        /\ compute_field_relevance (PStr s) (PStr jd) = Ok fr
        /\ (exists ls, Spec.LevelScore cand_level jd_level ls)
        /\ (forall ls : Q,
               Spec.LevelScore cand_level jd_level ls ->
               degree_match (PStr d) (PStr s) (PStr jd)
               = Ok (round (0.7 * ls + 0.3 * fr) 3)))
  /\ (exists q,
         degree_match (PStr "B.Tech") (PStr "Computer Science") (PStr "Bachelor")
         = Ok q /\ q == 0.97).
Proof.
  split.
  - intros d s jd Hjd.
    destruct (normalize_degree_str d) as [cl Hc].
    destruct (normalize_degree_str jd) as [jl Hj].
    destruct (field_relevance_str s jd) as [fr [Hf _]].
    exists cl, jl, fr.
    repeat split; try assumption.
    + exists (level_score cl jl). apply level_score_table.
    + intros ls Hls. rewrite (level_table_functional cl jl ls Hls).
      now apply degree_match_str.
  - eexists. split; reflexivity.
Qed.

Lemma degree_match_formula_witness :
  degree_match (PStr "Diploma") (PStr "Mechanical") (PStr "Bachelor")
  = Ok (round (0.7 * 0.5 + 0.3 * 0.5) 3).
Proof.
  destruct (proj1 degree_match_formula "Diploma" "Mechanical" "Bachelor"
              ltac:(discriminate))
    as (cl & jl & fr & Hc & Hj & Hf & _ & H).
  injection Hc as <-. injection Hj as <-. injection Hf as <-.
  apply H. constructor.
Defined.

(** C7, as the code has it: the education score lies in [0, 1], and in
    [0, 0.97] when the requirement holds a character that is not white
    space. *)
Theorem degree_match_bounds (d s jd : string) :
  exists q,
    degree_match (PStr d) (PStr s) (PStr jd) = Ok q
    /\ 0 <= q /\ q <= 1
    /\ (is_blank jd = false -> q <= 0.97).
Proof.
  destruct jd as [|c jd].
  - exists 1.0. repeat split; discriminate.
  - destruct (normalize_degree_str d) as [cl Hc].
    destruct (normalize_degree_str (String c jd)) as [jl Hj].
    destruct (field_relevance_str s (String c jd)) as [fr [Hf [Hv Hb]]].
    rewrite (degree_match_str d s (String c jd) cl jl fr) by (assumption || discriminate).
    eexists. split; [reflexivity |].
    destruct (is_blank (String c jd)).
    + destruct (level_score_values cl jl) as [-> | [-> | [-> | ->]]];
        destruct Hv as [-> | [-> | ->]];
        repeat split; try discriminate; intros H; discriminate H.
    + destruct (level_score_values cl jl) as [-> | [-> | [-> | ->]]];
        destruct (Hb eq_refl) as [-> | ->];
        repeat split; try discriminate.
Qed.

Lemma degree_match_bounds_witness :
  exists q,
    degree_match (PStr "B.Tech") (PStr "Computer Science") (PStr "Bachelor") = Ok q
    /\ q <= 0.97.
Proof.
  destruct (degree_match_bounds "B.Tech" "Computer Science" "Bachelor")
    as [q [H [_ [_ Hb]]]].
  exists q. split; [exact H | apply Hb; reflexivity].
Defined.

(** C7 as stated fails: with an empty requirement the score is 1.0,
    above 0.97. *)
Lemma degree_match_exceeds_097 :
  exists q,
    degree_match (PStr "B.Tech") (PStr "Computer Science") (PStr "") = Ok q
    /\ ~ q <= 0.97.
Proof.
  exists 1.0. split; [reflexivity |]. intros H. now apply H.
Qed.

End EducationMatcher.

(** ** The experience aggregator and the experience match *)

Section Experience.
Import Py ResumeParser.

Local Open Scope string_scope.
Local Open Scope Q_scope.

(** The three bands of [experience_match] for a required count. *)
Lemma experience_match_required (years : Q) (s : string) (required : Z) :
  required_years (PStr s) = Ok required ->
  experience_match years (PStr s) =
  if Qle_bool (inject_Z required) years then 1.0
  else if Qle_bool (inject_Z required - 1) years then 0.6
  else 0.2.
Proof.
  intros H. destruct s as [|c s]; [discriminate H |].
  unfold experience_match. cbn [truthy is_empty negb]. now rewrite H.
Qed.

Lemma bands_cases (required years : Q) :
  (required <= years ->
   (if Qle_bool required years then 1.0
    else if Qle_bool (required - 1) years then 0.6 else 0.2) = 1.0)
  /\ (required - 1 <= years -> years < required ->
      (if Qle_bool required years then 1.0
       else if Qle_bool (required - 1) years then 0.6 else 0.2) = 0.6)
  /\ (years < required - 1 ->
      (if Qle_bool required years then 1.0
       else if Qle_bool (required - 1) years then 0.6 else 0.2) = 0.2).
Proof.
  repeat split.
  - intros H. apply Qle_bool_iff in H. now rewrite H.
  - intros H1 H2. apply Qle_bool_iff in H1. rewrite H1.
    destruct (Qle_bool required years) eqn:E; [| reflexivity].
    apply Qle_bool_iff in E. now destruct (Qlt_not_le _ _ H2).
  - intros H.
    assert (H' : years < required).
    { apply Qlt_le_trans with (required - 1); [assumption |].
      rewrite <- (Qplus_0_r required) at 2. unfold Qminus.
      apply Qplus_le_r. discriminate. }
    destruct (Qle_bool required years) eqn:E1.
    { apply Qle_bool_iff in E1. now destruct (Qlt_not_le _ _ H'). }
    destruct (Qle_bool (required - 1) years) eqn:E2; [| reflexivity].
    apply Qle_bool_iff in E2. now destruct (Qlt_not_le _ _ H).
Qed.

(** C5: when the requirement holds a single run of decimal digits, of
    value R, and no other digit, the score is 1.0 for years of at least
    R, 0.6 for years of at least R-1 and below R, and 0.2 for years below
    R-1; so 5 years against "3+ years required" score 1.0, 2 years
    against "3+ years" 0.6 and half a year 0.2. *)
Theorem experience_match_bands :
  (forall (years : Q) (pre run post : string),
      all_chars (fun c => negb (isdigit_char c)) pre = true ->
      all_chars (fun c => negb (isdigit_char c)) post = true ->
      run <> "" ->
      all_chars is_decimal run = true ->
      (inject_Z (decimal_value 0 run) <= years ->
       experience_match years (PStr (pre ++ run ++ post)) == 1.0)
      /\ (inject_Z (decimal_value 0 run) - 1 <= years ->
          years < inject_Z (decimal_value 0 run) ->
          experience_match years (PStr (pre ++ run ++ post)) == 0.6)
      /\ (years < inject_Z (decimal_value 0 run) - 1 ->
          experience_match years (PStr (pre ++ run ++ post)) == 0.2))
  /\ experience_match 5 (PStr "3+ years required") == 1.0
  /\ experience_match 2 (PStr "3+ years") == 0.6
  /\ experience_match 0.5 (PStr "3+ years") == 0.2.
Proof.
  split; [| repeat split; reflexivity].
  intros years pre run post Hpre Hpost Hrun Hdec.
  assert (Hreq : required_years (PStr (pre ++ run ++ post))
                 = Ok (decimal_value 0 run)).
  { rewrite required_years_str, !filter_chars_app.
    rewrite (filter_chars_none _ pre Hpre), (filter_chars_none _ post Hpost).
    rewrite (filter_chars_all _ run (decimal_is_digit run Hdec)).
    rewrite append_empty_r. cbn [append]. unfold int_of_digits.
    rewrite Hdec. destruct run; [now destruct Hrun | reflexivity]. }
  rewrite (experience_match_required years _ _ Hreq).
  destruct (bands_cases (inject_Z (decimal_value 0 run)) years) as [B1 [B2 B3]].
  repeat split; intros.
  - now rewrite B1.
  - now rewrite B2.
  - now rewrite B3.
Qed.

Lemma experience_match_bands_witness :
  experience_match 11.5 (PStr "at least 12 years") == 0.6.
Proof.
  apply (proj1 (proj2 (proj1 experience_match_bands 11.5 "at least " "12" " years"
                         eq_refl eq_refl ltac:(discriminate) eq_refl)));
    vm_compute; [discriminate | reflexivity].
Defined.

Lemma leading_digits_run (run post : string) :
  all_chars isdigit_char run = true ->
  all_chars (fun c => negb (isdigit_char c)) post = true ->
  Spec.leading_digits (run ++ post) = run.
Proof.
  intros Hrun Hpost. induction run as [|c run IH]; simpl in *.
  - destruct post as [|c post]; [reflexivity |]. simpl in *.
    apply andb_true_iff in Hpost as [Hc _]. apply negb_true_iff in Hc.
    now rewrite Hc.
  - apply andb_true_iff in Hrun as [Hc Hrun]. rewrite Hc. now rewrite IH.
Qed.

(** Where the digits of the requirement form one run, the first run is
    all the digits: the wording of the specification and the code give
    the same score. *)
Lemma first_run_agrees_on_single_run (years : Q) (pre run post : string) :
  all_chars (fun c => negb (isdigit_char c)) pre = true ->
  all_chars (fun c => negb (isdigit_char c)) post = true ->
  run <> "" ->
  all_chars is_decimal run = true ->
  Spec.experience_match_first_run years (pre ++ run ++ post)
  = experience_match years (PStr (pre ++ run ++ post)).
Proof.
  intros Hpre Hpost Hne Hdec.
  pose proof (decimal_is_digit run Hdec) as Hdig.
  assert (Hfirst : Spec.first_digit_run (pre ++ run ++ post) = run).
  { clear Hdec. induction pre as [|c pre IH]; simpl in *.
    - destruct run as [|c run]; [now destruct Hne |]. simpl in *.
      apply andb_true_iff in Hdig as [Hc Hdig]. rewrite Hc.
      now rewrite leading_digits_run.
    - apply andb_true_iff in Hpre as [Hc Hpre]. apply negb_true_iff in Hc.
      rewrite Hc. auto. }
  assert (Hfilter : filter_chars isdigit_char (pre ++ run ++ post) = run).
  { rewrite !filter_chars_app, (filter_chars_none _ pre Hpre),
      (filter_chars_none _ post Hpost), (filter_chars_all _ run Hdig).
    now rewrite append_empty_r. }
  unfold Spec.experience_match_first_run, experience_match.
  rewrite Hfirst, required_years_str, Hfilter.
  assert (Ht : truthy (PStr (pre ++ run ++ post)) = true).
  { destruct pre; [destruct run; [now destruct Hne |] |]; reflexivity. }
  rewrite Ht. cbn [negb].
  destruct (int_of_digits run); reflexivity.
Qed.

(** C4, as the code has it: the required count is the decimal value of
    all the digit characters of the requirement, taken in order; when the
    requirement is empty or holds no digit the score is 1.0; for
    "2-4 years" the count is 24. *)
Theorem required_years_joins_all_digits :
  (forall s : string,
      required_years (PStr s) =
      match int_of_digits (filter_chars isdigit_char s) with
      | Some n => Ok n
      | None => Raise ValueError
      end)
  /\ (forall (years : Q) (s : string),
         filter_chars isdigit_char s = "" ->
         experience_match years (PStr s) == 1.0)
  /\ (forall (years : Q) (s : string),
         filter_chars isdigit_char s <> "" ->
         all_chars is_decimal (filter_chars isdigit_char s) = true ->
         required_years (PStr s)
         = Ok (decimal_value 0 (filter_chars isdigit_char s))
         /\ experience_match years (PStr s) =
            if Qle_bool (inject_Z (decimal_value 0 (filter_chars isdigit_char s))) years
            then 1.0
            else if Qle_bool
                      (inject_Z (decimal_value 0 (filter_chars isdigit_char s)) - 1)
                      years
                 then 0.6 else 0.2)
  /\ filter_chars isdigit_char "2-4 years" = "24"
  /\ required_years (PStr "2-4 years") = Ok 24%Z.
Proof.
  split; [exact required_years_str |].
  split; [| split; [| split; reflexivity]].
  - intros years s H. unfold experience_match.
    destruct (negb (truthy (PStr s))); [reflexivity |].
    rewrite required_years_str, H. reflexivity.
  - intros years s Hne Hdec.
    assert (Hreq : required_years (PStr s)
                   = Ok (decimal_value 0 (filter_chars isdigit_char s))).
    { rewrite required_years_str. unfold int_of_digits. rewrite Hdec.
      destruct (filter_chars isdigit_char s); [now destruct Hne | reflexivity]. }
    split; [exact Hreq | now apply experience_match_required].
Qed.

Lemma required_years_joins_all_digits_witness :
  required_years (PStr "10 years, 2 of them abroad") = Ok 102%Z.
Proof.
  apply (proj1 (proj1 (proj2 (proj2 required_years_joins_all_digits)) 0
                  "10 years, 2 of them abroad"
                  ltac:(discriminate) eq_refl)).
Defined.

(** C4 as stated fails: the first run of digits of "2-4 years" is 2, and
    the code requires 24 years, so 3 years score 0.2 where a requirement
    of 2 years would score 1.0. *)
Lemma required_years_not_first_run :
  int_of_digits (Spec.first_digit_run "2-4 years") = Some 2%Z
  /\ required_years (PStr "2-4 years") <> Ok 2%Z
  /\ experience_match 3 (PStr "2-4 years") == 0.2
  /\ Spec.experience_match_first_run 3 "2-4 years" == 1.0
  /\ ~ experience_match 3 (PStr "2-4 years")
       == Spec.experience_match_first_run 3 "2-4 years".
Proof.
  repeat split; try reflexivity; discriminate.
Qed.

End Experience.

(** ** Binary64 arithmetic *)

Section FloatFacts.

Lemma SFmul_comm (x y : spec_float) : SFmul prec emax x y = SFmul prec emax y x.
Proof.
  destruct x as [sx|sx| |sx mx ex], y as [sy|sy| |sy my ey]; simpl;
    rewrite ?(xorb_comm sx sy); try reflexivity.
  now rewrite Pos.mul_comm, Z.add_comm.
Qed.

Lemma mul_comm (x y : float) : (x * y = y * x)%float.
Proof. apply Prim2SF_inj. rewrite !mul_spec. apply SFmul_comm. Qed.

Lemma SFmul_one (x : spec_float) :
  valid_binary x = true ->
  SFmul prec emax x (Prim2SF 1) = x.
Proof.
  change (Prim2SF 1) with (S754_finite false 4503599627370496 (-52)).
  destruct x as [s|s| |s m e]; simpl; intros V;
    rewrite ?xorb_false_r; try reflexivity.
  unfold bounded, canonical_mantissa in V.
  apply andb_true_iff in V as [C B].
  apply Z.eqb_eq in C. apply Z.leb_le in B.
  rewrite Pos.mul_comm.
  unfold binary_round_aux, shr_fexp, Zdigits2. cbn [Pos.mul digits2_pos].
  match goal with
  | |- context [fexp prec emax ?a] =>
      assert (E : fexp prec emax a = e)
        by (etransitivity; [| exact C]; f_equal; lia);
      rewrite E; clear E
  end.
  replace (e - (e + -52))%Z with 52%Z by lia.
  cbn [shr shr_record_of_loc iter_pos shr_1 orb].
  cbn [shr_m loc_of_shr_record round_nearest_even Zdigits2].
  replace (e + -52 + 52)%Z with e by lia.
  match goal with
  | |- context [fexp prec emax ?a] =>
      assert (E : fexp prec emax a = e)
        by (etransitivity; [| exact C]; f_equal; lia);
      rewrite E; clear E
  end.
  rewrite Z.sub_diag. cbn [shr shr_record_of_loc shr_m].
  apply Z.leb_le in B. now rewrite B.
Qed.

Lemma mul_one_r (x : float) : (x * 1 = x)%float.
Proof.
  apply Prim2SF_inj. rewrite mul_spec. apply SFmul_one, Prim2SF_valid.
Qed.
End FloatFacts.

Section RoundingFacts.
Import Py Binary64.

Lemma round_half_even_nearest (q : Q) :
  (Qabs (q - inject_Z (round_half_even q)) <= 1 # 2)%Q
  /\ ((Qabs (q - inject_Z (round_half_even q)) == 1 # 2)%Q ->
      Z.even (round_half_even q) = true).
Proof.
  unfold round_half_even.
  pose proof (Qfloor_le q) as L. pose proof (Qlt_floor q) as U.
  rewrite inject_Z_plus in U. change (inject_Z 1) with 1%Q in U.
  assert (I : (inject_Z (Qfloor q + 1) == inject_Z (Qfloor q) + 1)%Q)
    by (rewrite inject_Z_plus; reflexivity).
  destruct (Qcompare_spec (q - inject_Z (Qfloor q)) (1 # 2)) as [E|E|E].
  - assert (A : (Qabs (q - inject_Z (Qfloor q)) == 1 # 2)%Q)
      by (rewrite Qabs_pos; [exact E | lra]).
    destruct (Z.even (Qfloor q)) eqn:Ev.
    + split; [rewrite A; apply Qle_refl | intros _; exact Ev].
    + assert (A' : (Qabs (q - inject_Z (Qfloor q + 1)) == 1 # 2)%Q).
      { rewrite I. rewrite Qabs_neg; lra. }
      split; [rewrite A'; apply Qle_refl |].
      intros _. rewrite Z.even_add, Ev. reflexivity.
  - assert (A : (Qabs (q - inject_Z (Qfloor q)) < 1 # 2)%Q)
      by (rewrite Qabs_pos; lra).
    split; [apply Qlt_le_weak, A |].
    intros H. rewrite H in A. discriminate A.
  - assert (A : (Qabs (q - inject_Z (Qfloor q + 1)) < 1 # 2)%Q).
    { rewrite I. rewrite Qabs_neg; lra. }
    split; [apply Qlt_le_weak, A |].
    intros H. rewrite H in A. discriminate A.
Qed.

Lemma round_half_even_nonneg (q : Q) :
  (0 <= q)%Q -> (0 <= round_half_even q)%Z.
Proof.
  intros H. unfold round_half_even.
  assert (F : (0 <= Qfloor q)%Z).
  { change 0%Z with (Qfloor 0). now apply Qfloor_resp_le. }
  destruct (q - inject_Z (Qfloor q) ?= 1 # 2)%Q; [destruct (Z.even _) | |]; lia.
Qed.

Lemma exact_pos (m : positive) (e : Z) : (0 < exact m e)%Q.
Proof.
  unfold exact. apply Qmult_lt_0_compat; [reflexivity |].
  apply Qpower_0_lt. reflexivity.
Qed.

Lemma pow10_positive (n : nat) : exists p, pow10 n = Zpos p.
Proof.
  unfold pow10. pose proof (Z.pow_pos_nonneg 10 (Z.of_nat n)) as H.
  destruct (10 ^ Z.of_nat n)%Z as [|p|p]; [lia | now exists p | lia].
Qed.

(** [round] gives the float the specification describes. *)
Lemma round_rounded (x : float) (ndigits : nat) :
  AggregatorSpec.Rounded ndigits x (round x ndigits).
Proof.
  unfold round. destruct (Prim2SF x) as [s|s| |s m e] eqn:E;
    try (apply AggregatorSpec.rounded_special; intros s' m' e' H;
         rewrite E in H; discriminate H).
  set (n := round_half_even (exact m e * inject_Z (pow10 ndigits))).
  assert (N : (0 <= n)%Z).
  { apply round_half_even_nonneg. apply Qmult_le_0_compat.
    - apply Qlt_le_weak, exact_pos.
    - destruct (pow10_positive ndigits) as [p ->]. discriminate. }
  destruct (round_half_even_nearest (exact m e * inject_Z (pow10 ndigits)))
    as [A T]. fold n in A, T.
  pose proof (AggregatorSpec.rounded_finite ndigits x s m e n E N A T) as R.
  match goal with
  | |- AggregatorSpec.Rounded _ _ ?r =>
      match type of R with
      | AggregatorSpec.Rounded _ _ ?r' => replace r with r'; [exact R |]
      end
  end.
  fold (pow10 ndigits). destruct (pow10_positive ndigits) as [p ->].
  destruct n as [|k|k]; [destruct s; reflexivity | | lia].
  cbn [Z.eqb]. unfold nearest_quotient. destruct s; reflexivity.
Qed.

(** At most one integer is nearest, a tie going to the even one. *)
Lemma nearest_even_unique (q : Q) (n n' : Z) :
  (Qabs (q - inject_Z n) <= 1 # 2)%Q ->
  ((Qabs (q - inject_Z n) == 1 # 2)%Q -> Z.even n = true) ->
  (Qabs (q - inject_Z n') <= 1 # 2)%Q ->
  ((Qabs (q - inject_Z n') == 1 # 2)%Q -> Z.even n' = true) ->
  n = n'.
Proof.
  intros A T A' T'.
  apply Qabs_Qle_condition in A as [A1 A2].
  apply Qabs_Qle_condition in A' as [A1' A2'].
  assert (L : (n <= n' + 1)%Z).
  { rewrite Zle_Qle, inject_Z_plus. change (inject_Z 1) with 1%Q. lra. }
  assert (U : (n' <= n + 1)%Z).
  { rewrite Zle_Qle, inject_Z_plus. change (inject_Z 1) with 1%Q. lra. }
  destruct (Z.eq_dec n n') as [E|N]; [exact E | exfalso].
  assert (C : n = (n' + 1)%Z \/ n' = (n + 1)%Z) by lia.
  destruct C as [C|C]; subst.
  - rewrite inject_Z_plus in *. change (inject_Z 1) with 1%Q in *.
    assert (E1 : (Qabs (q - (inject_Z n' + 1)) == 1 # 2)%Q)
      by (rewrite Qabs_neg; lra).
    assert (E2 : (Qabs (q - inject_Z n') == 1 # 2)%Q)
      by (rewrite Qabs_pos; lra).
    specialize (T E1). specialize (T' E2).
    rewrite Z.even_add, T' in T. discriminate T.
  - rewrite inject_Z_plus in *. change (inject_Z 1) with 1%Q in *.
    assert (E1 : (Qabs (q - (inject_Z n + 1)) == 1 # 2)%Q)
      by (rewrite Qabs_neg; lra).
    assert (E2 : (Qabs (q - inject_Z n) == 1 # 2)%Q)
      by (rewrite Qabs_pos; lra).
    specialize (T E2). specialize (T' E1).
    rewrite Z.even_add, T in T'. discriminate T'.
Qed.

(** The specification's rounding names one float. *)
Lemma Rounded_unique (ndigits : nat) (x r r' : float) :
  AggregatorSpec.Rounded ndigits x r ->
  AggregatorSpec.Rounded ndigits x r' ->
  r = r'.
Proof.
  intros [s m e n E N A T | S] [s' m' e' n' E' N' A' T' | S'].
  - rewrite E in E'. injection E' as <- <- <-.
    now rewrite (nearest_even_unique _ n n' A T A' T').
  - now destruct (S' s m e).
  - now destruct (S s' m' e').
  - reflexivity.
Qed.

End RoundingFacts.

(** ** The experience aggregator in Python's own arithmetic *)

Section AggregatorFacts.
Import Py Binary64 Aggregator AggregatorSpec.

Local Open Scope string_scope.

Lemma finite_or_overflow_raise (x : float) (e : exn) :
  finite_or_overflow x = Raise e -> e = OverflowError.
Proof. unfold finite_or_overflow. destruct (is_infinity x); congruence. Qed.

Lemma to_float_raise (a : number) (e : exn) :
  to_float a = Raise e -> e = OverflowError.
Proof.
  destruct a; simpl; [apply finite_or_overflow_raise | discriminate].
Qed.

Lemma float_op_raise (op : float -> float -> float) (a b : number) (e : exn) :
  (x <- to_float a ;; y <- to_float b ;; Ok (Float (op x y))) = Raise e ->
  e = OverflowError.
Proof.
  destruct (to_float a) as [x|e1] eqn:A; cbn [Py.bind].
  - destruct (to_float b) as [y|e2] eqn:B; cbn [Py.bind]; [discriminate |].
    intros H. injection H as <-. now apply to_float_raise in B.
  - intros H. injection H as <-. now apply to_float_raise in A.
Qed.

Lemma add_raise (a b : number) (e : exn) :
  add a b = Raise e -> e = OverflowError.
Proof.
  destruct a, b; unfold add; try apply float_op_raise. discriminate.
Qed.

Lemma mul_raise (a b : number) (e : exn) :
  mul a b = Raise e -> e = OverflowError.
Proof.
  destruct a, b; unfold mul; try apply float_op_raise. discriminate.
Qed.

(** Division by the int 12 fails only by overflow. *)
Lemma truediv_12_raise (a : number) (e : exn) :
  truediv a (Int 12) = Raise e -> e = OverflowError.
Proof.
  destruct a as [n|x]; unfold truediv.
  - cbn [Z.eqb]. apply finite_or_overflow_raise.
  - cbn [to_float Py.bind]. discriminate.
Qed.

(** What the loop reads off an entry that holds a record. *)
Lemma reads_fields (exp : value) (r : ExperienceRecord) :
  Reads exp r ->
  exists months type_v : value,
    get exp "duration_months" (VInt 0) = Ok months
    /\ number_of months = Ok (duration_months r)
    /\ get exp "type" (VStr "") = Ok type_v
    /\ lower_of (py_or type_v (VStr "")) = Ok (lower (type r)).
Proof.
  intros [d t m T D]. cbn [get type duration_months].
  do 2 eexists. split; [reflexivity |]. split.
  - destruct D; reflexivity.
  - split; [reflexivity |].
    destruct T as [|s|v F]; unfold py_or.
    + reflexivity.
    + destruct s; reflexivity.
    + now rewrite F.
Qed.

(** One turn of the loop on an entry that holds a record. *)
Lemma add_experience_reads (acc : Months) (exp : value) (r : ExperienceRecord) :
  Reads exp r ->
  add_experience acc exp =
  let t := lower (type r) in
  let months := duration_months r in
  let '(mkMonths i a f p l) := acc in
  if t =? "internship" then i' <- add i months ;; Ok (mkMonths i' a f p l)
  else if t =? "apprentice" then a' <- add a months ;; Ok (mkMonths i a' f p l)
  else if t =? "full time" then f' <- add f months ;; Ok (mkMonths i a f' p l)
  else if t =? "part time" then p' <- add p months ;; Ok (mkMonths i a f p' l)
  else if t =? "free lance" then l' <- add l months ;; Ok (mkMonths i a f p l')
  else half <- mul (Float 0.5) months ;;
       a' <- add a half ;; Ok (mkMonths i a' f p l).
Proof.
  intros R. destruct (reads_fields exp r R) as (months & type_v & G & N & T & L).
  unfold add_experience, increase, increase_by_half.
  rewrite G, T. cbn [Py.bind]. rewrite L. cbn [Py.bind].
  destruct acc as [i a f p l]. cbn zeta.
  rewrite N. cbn [Py.bind].
  repeat match goal with
         | |- context [if ?b then _ else _] => destruct b
         end; try reflexivity.
  destruct (mul (Float 0.5) (duration_months r)); reflexivity.
Qed.

(** What a record adds to each bucket, by its type. *)
Lemma total_cons (bucket : string) (sum : number) (r : ExperienceRecord)
  (rs : list ExperienceRecord) :
  total bucket sum (r :: rs) =
  let t := lower (type r) in
  if existsb (String.eqb t) recognized
  then if t =? bucket
       then sum' <- add sum (duration_months r) ;; total bucket sum' rs
       else total bucket sum rs
  else if bucket =? "apprentice"
       then half <- mul (Float 0.5) (duration_months r) ;;
            sum' <- add sum half ;; total bucket sum' rs
       else total bucket sum rs.
Proof.
  cbn [total]. unfold share, category, recognized. cbn [find existsb].
  cbn zeta. set (t := lower (type r)).
  destruct (String.eqb_spec t "internship") as [->|E1];
    [cbn [orb]; destruct ("internship" =? bucket); reflexivity |].
  destruct (String.eqb_spec t "apprentice") as [->|E2];
    [cbn [orb]; destruct ("apprentice" =? bucket); reflexivity |].
  destruct (String.eqb_spec t "full time") as [->|E3];
    [cbn [orb]; destruct ("full time" =? bucket); reflexivity |].
  destruct (String.eqb_spec t "part time") as [->|E4];
    [cbn [orb]; destruct ("part time" =? bucket); reflexivity |].
  destruct (String.eqb_spec t "free lance") as [->|E5];
    [cbn [orb]; destruct ("free lance" =? bucket); reflexivity |].
  cbn [orb]. destruct (bucket =? "apprentice"); reflexivity.
Qed.

(** The loop over entries that hold records fills each counter with
    the total of its bucket, and fails only by overflow, when a total
    does. *)
Lemma loop_totals (exps : list value) (rs : list ExperienceRecord) :
  Forall2 Reads exps rs ->
  forall acc : Months,
    match ResumeParser.for_each add_experience acc exps with
    | Ok m =>
        total "internship" (internship_months acc) rs = Ok (internship_months m)
        /\ total "apprentice" (apprentice_months acc) rs = Ok (apprentice_months m)
        /\ total "full time" (industry_months acc) rs = Ok (industry_months m)
        /\ total "part time" (part_time_months acc) rs = Ok (part_time_months m)
        /\ total "free lance" (freelance_months acc) rs = Ok (freelance_months m)
    | Raise e =>
        e = OverflowError
        /\ (total "internship" (internship_months acc) rs = Raise OverflowError
            \/ total "apprentice" (apprentice_months acc) rs = Raise OverflowError
            \/ total "full time" (industry_months acc) rs = Raise OverflowError
            \/ total "part time" (part_time_months acc) rs = Raise OverflowError
            \/ total "free lance" (freelance_months acc) rs = Raise OverflowError)
    end.
Proof.
  induction 1 as [|exp r exps rs R _ IH]; intros acc.
  - cbn. repeat split.
  - cbn [ResumeParser.for_each]. rewrite (add_experience_reads acc exp r R).
    rewrite !total_cons. unfold recognized. cbn [existsb]. cbn zeta.
    destruct acc as [i a f p l].
    cbn [internship_months apprentice_months industry_months part_time_months
         freelance_months].
    remember (lower (type r)) as t eqn:Et.
    remember (duration_months r) as d eqn:Ed.
    destruct (String.eqb_spec t "internship") as [->|E1];
      [| destruct (String.eqb_spec t "apprentice") as [->|E2];
         [| destruct (String.eqb_spec t "full time") as [->|E3];
            [| destruct (String.eqb_spec t "part time") as [->|E4];
               [| destruct (String.eqb_spec t "free lance") as [->|E5]]]]];
      cbn [String.eqb Ascii.eqb Bool.eqb orb];
      try (destruct (mul (Float 0.5) d) as [h|e] eqn:M; cbn [Py.bind];
           [| apply mul_raise in M; subst e; split; auto 8]);
      match goal with
      | |- context [Py.bind (Py.bind (add ?x ?y) _) _] =>
          destruct (add x y) as [s'|e] eqn:A; cbn [Py.bind];
          [| apply add_raise in A; subst e; split; auto 8]
      end;
      match goal with
      | |- context [ResumeParser.for_each add_experience ?acc' exps] =>
          exact (IH acc')
      end.
Qed.

End AggregatorFacts.

Section AggregatorClaims.
Import Py Binary64 Aggregator AggregatorSpec.

Local Open Scope string_scope.

(** The breakdown of a candidate whose experience is a list of entries
    that hold records: the years of each bucket, rounded, and the
    weighted sum of the code, rounded; a failure is an overflow of one
    of the buckets. *)
Lemma breakdown_on_records (c : list (string * value)) (exps : list value)
  (rs : list ExperienceRecord) :
  dict_get c "experience" = Some (VList exps) ->
  Forall2 Reads exps rs ->
  match compute_experience_breakdown (VDict c) with
  | Ok b =>
      exists i a f p l : float,
        years "internship" rs = Ok i
        /\ years "apprentice" rs = Ok a
        /\ years "full time" rs = Ok f
        /\ years "part time" rs = Ok p
        /\ years "free lance" rs = Ok l
        /\ b = mkBreakdown (round i 2) (round a 2) (round f 2) (round p 2)
                 (round l 2)
                 (round (f + 0.5 * i + 0.6 * a + 0.4 * p + 0.7 * l)%float 2)
  | Raise e =>
      e = OverflowError
      /\ (years "internship" rs = Raise OverflowError
          \/ years "apprentice" rs = Raise OverflowError
          \/ years "full time" rs = Raise OverflowError
          \/ years "part time" rs = Raise OverflowError
          \/ years "free lance" rs = Raise OverflowError)
  end.
Proof.
  intros E R.
  unfold compute_experience_breakdown, experiences_of, get. rewrite E.
  cbn [Py.bind iter]. pose proof (loop_totals exps rs R no_months) as L.
  unfold years.
  destruct (ResumeParser.for_each add_experience no_months exps) as [m|e];
    cbn [Py.bind no_months internship_months apprentice_months industry_months
         part_time_months freelance_months] in L |- *.
  - destruct L as (-> & -> & -> & -> & ->). cbn [Py.bind].
    unfold breakdown_of.
    destruct (truediv (internship_months m) (Int 12)) as [i|e] eqn:Hi;
      cbn [Py.bind]; [| apply truediv_12_raise in Hi; subst e; auto 8].
    destruct (truediv (apprentice_months m) (Int 12)) as [a|e] eqn:Ha;
      cbn [Py.bind]; [| apply truediv_12_raise in Ha; subst e; auto 8].
    destruct (truediv (industry_months m) (Int 12)) as [f|e] eqn:Hf;
      cbn [Py.bind]; [| apply truediv_12_raise in Hf; subst e; auto 8].
    destruct (truediv (part_time_months m) (Int 12)) as [p|e] eqn:Hp;
      cbn [Py.bind]; [| apply truediv_12_raise in Hp; subst e; auto 8].
    destruct (truediv (freelance_months m) (Int 12)) as [l|e] eqn:Hl;
      cbn [Py.bind]; [| apply truediv_12_raise in Hl; subst e; auto 8].
    exists i, a, f, p, l. repeat split.
  - destruct L as [-> L]. split; [reflexivity |].
    destruct L as [-> | [-> | [-> | [-> | ->]]]]; cbn [Py.bind]; auto 8.
Qed.

(** The weighted sum as the code writes it is the one of the
    specification: a product by 1.0 is exact, and a product does not
    depend on the order of its factors. *)
Lemma weighted_sum_forms (i a f p l : float) :
  (f + 0.5 * i + 0.6 * a + 0.4 * p + 0.7 * l
   = f * 1.0 + i * 0.5 + a * 0.6 + p * 0.4 + l * 0.7)%float.
Proof.
  rewrite (mul_one_r f), (mul_comm i), (mul_comm a), (mul_comm p), (mul_comm l).
  reflexivity.
Qed.

(** C3, in Python's own arithmetic.  For a candidate whose experience
    is a list of entries holding records (a type that is a str, absent,
    null or another value that counts as false; a duration that is an
    int, a float, a bool or absent; any other keys), the code returns
    exactly when the weighted sum of the
    specification is defined, and [effective_years] is then that sum
    rounded to 2 decimals: the one float the rounding names.  The sum is
    industry * 1.0 + internship * 0.5 + apprentice * 0.6
    + part_time * 0.4 + freelance * 0.7 over the buckets in years, each
    the months of its category, summed in the order of the records,
    divided by 12, the apprentice bucket taking also 0.5 times the
    months of a record of an unrecognized type.  When a bucket is too
    large for a float the code raises [OverflowError].  The records of
    the example give 2.25; a contract of 3 months gives 0.07, where
    exact arithmetic would round 0.075 to 0.08. *)
Theorem effective_years_weighted_sum :
  (forall (c : list (string * value)) (exps : list value)
          (rs : list ExperienceRecord),
      dict_get c "experience" = Some (VList exps) ->
      Forall2 Reads exps rs ->
      (forall y : float,
          weighted_sum rs = Ok y ->
          exists b,
            compute_experience_breakdown (VDict c) = Ok b
            /\ Rounded 2 y (effective_years b)
            /\ (forall r : float, Rounded 2 y r -> r = effective_years b))
      /\ (forall e : exn,
             weighted_sum rs = Raise e ->
             compute_experience_breakdown (VDict c) = Raise OverflowError))
  /\ (exists b,
         compute_experience_breakdown
           (VDict [("experience",
                    VList [VDict [("type", VStr "full time");
                                  ("duration_months", VInt 24)];
                           VDict [("type", VStr "internship");
                                  ("duration_months", VInt 6)]])])
         = Ok b
         /\ effective_years b = 2.25%float)
  /\ (exists b,
         compute_experience_breakdown
           (VDict [("experience",
                    VList [VDict [("type", VStr "contract");
                                  ("duration_months", VInt 3)]])])
         = Ok b
         /\ effective_years b = 0.07%float).
Proof.
  split; [| split; eexists; split; reflexivity].
  intros c exps rs E R.
  pose proof (breakdown_on_records c exps rs E R) as B.
  unfold weighted_sum.
  destruct (compute_experience_breakdown (VDict c)) as [b|e0].
  - destruct B as (i & a & f & p & l & -> & -> & -> & -> & -> & ->).
    cbn [Py.bind effective_years]. split.
    + intros y H. injection H as <-. eexists. split; [reflexivity |].
      rewrite weighted_sum_forms.
      split; [apply round_rounded |].
      intros r H. apply (Rounded_unique 2 _ _ _ H), round_rounded.
    + discriminate.
  - destruct B as [-> B]. split; [| reflexivity].
    intros y H. exfalso.
    destruct (years "internship" rs); [| discriminate H].
    destruct (years "apprentice" rs); [| discriminate H].
    destruct (years "full time" rs); [| discriminate H].
    destruct (years "part time" rs); [| discriminate H].
    destruct (years "free lance" rs); [| discriminate H].
    destruct B as [B | [B | [B | [B | B]]]]; discriminate B.
Qed.

Lemma effective_years_weighted_sum_witness :
  exists b,
    compute_experience_breakdown (VDict AggregatorSamples.candidate) = Ok b
    /\ Rounded 2 0.325 (effective_years b)
    /\ effective_years b = 0.33%float.
Proof.
  assert (R : Forall2 Reads AggregatorSamples.entries AggregatorSamples.records)
    by (repeat constructor).
  destruct (proj1 (proj1 effective_years_weighted_sum
                     AggregatorSamples.candidate AggregatorSamples.entries
                     AggregatorSamples.records eq_refl R)
              0.325%float eq_refl)
    as (b & H & Rd & _).
  exists b. split; [exact H |]. split; [exact Rd |].
  apply (f_equal (fun r => match r with
                           | Ok b' => effective_years b'
                           | Raise _ => 0.33%float
                           end)) in H.
  symmetry. exact H.
Defined.

(** X12, in Python's own arithmetic: when the function returns, each of
    the five year fields is the bucket of its category in years (the
    months summed in the order of the records, the apprentice bucket
    with half the months of the records of an unrecognized type, divided
    by 12), rounded to 2 decimals. *)
Theorem breakdown_year_fields (c : list (string * value)) (exps : list value)
  (rs : list ExperienceRecord) (b : ExperienceBreakdown) :
  dict_get c "experience" = Some (VList exps) ->
  Forall2 Reads exps rs ->
  compute_experience_breakdown (VDict c) = Ok b ->
  exists i a f p l : float,
    years "internship" rs = Ok i /\ Rounded 2 i (internship_years b)
    /\ years "apprentice" rs = Ok a /\ Rounded 2 a (apprentice_years b)
    /\ years "full time" rs = Ok f /\ Rounded 2 f (industry_years b)
    /\ years "part time" rs = Ok p /\ Rounded 2 p (part_time_years b)
    /\ years "free lance" rs = Ok l /\ Rounded 2 l (freelance_years b).
Proof.
  intros E R H.
  pose proof (breakdown_on_records c exps rs E R) as B. rewrite H in B.
  destruct B as (i & a & f & p & l & Hi & Ha & Hf & Hp & Hl & ->).
  exists i, a, f, p, l.
  cbn [internship_years apprentice_years industry_years part_time_years
       freelance_years].
  repeat split; first [assumption | apply round_rounded].
Qed.

Lemma breakdown_year_fields_witness :
  exists a f : float,
    years "apprentice" AggregatorSamples.records = Ok a
    /\ Rounded 2 a 0.17
    /\ years "full time" AggregatorSamples.records = Ok f
    /\ Rounded 2 f 0.23.
Proof.
  assert (R : Forall2 Reads AggregatorSamples.entries AggregatorSamples.records)
    by (repeat constructor).
  destruct (breakdown_year_fields AggregatorSamples.candidate
              AggregatorSamples.entries AggregatorSamples.records
              (mkBreakdown 0 0.17 0.23 0 0 0.33) eq_refl R eq_refl)
    as (i & a & f & p & l & _ & _ & Ha & Ra & Hf & Rf & _).
  exists a, f. repeat split; assumption.
Defined.

End AggregatorClaims.

(** ** The graph nodes *)

Section NodeFacts.
Import Py ResumeParser.

Local Open Scope string_scope.
Local Open Scope Q_scope.

Variable chat : string -> string -> result string.
Variable json_loads : string -> option pyval.
Variable json_dumps : option nat -> pyval -> string.
Variables CANDIDATE_PROMPT JD_PROMPT GRADING_PROMPT : string.

Local Abbreviation matching :=
  (candidate_job_matching chat json_loads json_dumps GRADING_PROMPT).
Local Abbreviation candidate_node :=
  (candidate_info_extraction chat json_loads json_dumps CANDIDATE_PROMPT).
Local Abbreviation jd_node := (job_desc_extraction chat json_loads JD_PROMPT).
Local Abbreviation graph :=
  (invoke chat json_loads json_dumps CANDIDATE_PROMPT JD_PROMPT GRADING_PROMPT).

Lemma bind_ok {A B : Type} (m : result A) (k : A -> result B) (b : B) :
  Py.bind m k = Ok b -> exists a, m = Ok a /\ k a = Ok b.
Proof.
  destruct m as [a|e]; simpl; intros H; [now exists a | discriminate H].
Qed.

Lemma field_ok {A : Type} (v : option A) (a : A) : field v = Ok a -> v = Some a.
Proof. destruct v; simpl; congruence. Qed.

Lemma loads_ok (text : string) (v : pyval) :
  loads json_loads text = Ok v -> json_loads text = Some v.
Proof. unfold loads. destruct (json_loads text); congruence. Qed.

(** What a run of the last node that returns has gone through. *)
Lemma candidate_job_matching_ok (st : State) (b : ScoreBundle) :
  matching st = Ok b ->
  exists (candidate jd : pyval) (exp_data : ExperienceBreakdown)
         (jd_exp : pyval) (edu_score : Q) (payload : pyval) (content : string)
         (graded : pyval) (extracted : pyval * pyval) (skill_score : Q),
    candidate_info_json st = Some candidate
    /\ job_info_json st = Some jd
    /\ compute_experience_breakdown candidate = Ok exp_data
    /\ get jd "experience_required" (PStr "") = Ok jd_exp
    /\ build_payload candidate jd = Ok payload
    /\ chat GRADING_PROMPT (json_dumps None payload) = Ok content
    /\ json_loads content = Some graded
    /\ extract_skill_score graded = Ok extracted
    /\ num (snd extracted) = Ok skill_score
    /\ b = mkBundle (experience_match (effective_years exp_data) jd_exp)
             edu_score (fst extracted)
             (final_score (experience_match (effective_years exp_data) jd_exp)
                edu_score skill_score).
Proof.
  unfold candidate_job_matching. intros H.
  apply bind_ok in H as [candidate [Hc H]]. apply field_ok in Hc.
  apply bind_ok in H as [jd [Hj H]]. apply field_ok in Hj.
  apply bind_ok in H as [exp_data [Hexp H]].
  apply bind_ok in H as [jd_exp [Hje H]].
  apply bind_ok in H as [ds [Hds H]].
  apply bind_ok in H as [jd_edu [Hjd H]].
  apply bind_ok in H as [edu_score [Hedu H]].
  apply bind_ok in H as [payload [Hp H]].
  apply bind_ok in H as [content [Hchat H]].
  apply bind_ok in H as [graded [Hg H]]. apply loads_ok in Hg.
  apply bind_ok in H as [extracted [Hx H]].
  apply bind_ok in H as [skill_score [Hs H]].
  injection H as <-.
  exists candidate, jd, exp_data, jd_exp, edu_score, payload, content, graded,
    extracted, skill_score.
  repeat split; assumption.
Qed.

(** The adapter returns exactly on the shapes it is written for. *)
Lemma extract_skill_score_ok (r : pyval) (x : pyval * pyval) :
  extract_skill_score r = Ok x ->
  exists d, Spec.GraderObject r d /\ fst x = PDict d
            /\ get (PDict d) "final_skill_match_score" (PNum 0) = Ok (snd x).
Proof.
  unfold extract_skill_score. intros H.
  destruct r as [| | | |l|d]; try discriminate H.
  - destruct l as [|y l].
    + exists []. injection H as <-. repeat split. constructor.
    + destruct y; try discriminate H. cbn in H. injection H as <-.
      eexists. repeat split. constructor.
  - exists d. cbn in H. injection H as <-. repeat split. constructor.
Qed.

(** A failure of the collaborator is not caught by a node. *)
Lemma chat_failure_propagates (st : State) (raw_text : string) (links : pyval)
  (e : exn) :
  raw_extracted_text st = Some raw_text ->
  links_info st = Some links ->
  chat CANDIDATE_PROMPT (combined_input json_dumps raw_text links) = Raise e ->
  candidate_node st = Raise e /\ graph st = Raise e.
Proof.
  intros Hr Hl Hchat.
  assert (Hnode : candidate_node st = Raise e).
  { unfold candidate_info_extraction. rewrite Hr, Hl. cbn [field Py.bind].
    now rewrite Hchat. }
  split; [exact Hnode |].
  unfold invoke, run_candidate_json. now rewrite Hnode.
Qed.

(** C1: the final score is 0.20 times the experience score plus 0.10
    times the education score plus 0.70 times the skill score, the
    weights adding up to 1; so (1.0, 1.0, 0) gives 0.30 and
    (1.0, 1.0, 1.0) gives 1.0; and the bundle the matching node returns
    holds that combination of its own sub-scores and of the number read
    from [final_skill_match_score] of its skill object. *)
Theorem final_score_weighted :
  (forall e d s : Q, final_score e d s == 0.20 * e + 0.10 * d + 0.70 * s)
  /\ 0.20 + 0.10 + 0.70 == 1
  /\ final_score 1.0 1.0 0 == 0.30
  /\ final_score 1.0 1.0 1.0 == 1.0
  /\ (forall (st : State) (b : ScoreBundle),
         matching st = Ok b ->
         exists (v : pyval) (s : Q),
           get (skill_match_score b) "final_skill_match_score" (PNum 0) = Ok v
           /\ num v = Ok s
           /\ final_match_score b ==
              0.20 * experience_score b + 0.10 * education_score b + 0.70 * s).
Proof.
  repeat split; try reflexivity.
  intros st b H.
  destruct (candidate_job_matching_ok st b H)
    as (candidate & jd & exp_data & jd_exp & edu & payload & content & graded
        & x & s & _ & _ & _ & _ & _ & _ & _ & Hx & Hs & ->).
  destruct (extract_skill_score_ok graded x Hx) as [d [_ [Hd Hget]]].
  exists (snd x), s. cbn [skill_match_score final_match_score experience_score
                          education_score].
  rewrite Hd. split; [exact Hget | split; [exact Hs | reflexivity]].
Qed.



(** The matching node on two degraded records: both sub-scores are 1.0
    and the node goes on to the grader. *)
Lemma matching_on_degraded (st : State) (m1 m2 : string) :
  candidate_info_json st = Some (degraded_record m1) ->
  job_info_json st = Some (degraded_record m2) ->
  exists payload,
    build_payload (degraded_record m1) (degraded_record m2) = Ok payload
    /\ matching st =
       (content <- chat GRADING_PROMPT (json_dumps None payload) ;;
        graded <- loads json_loads content ;;
        extracted <- extract_skill_score graded ;;
        skill_score <- num (snd extracted) ;;
        Ok (mkBundle 1.0 1.0 (fst extracted) (final_score 1.0 1.0 skill_score))).
Proof.
  intros Hc Hj. eexists. split; [reflexivity |].
  unfold candidate_job_matching. rewrite Hc, Hj. reflexivity.
Qed.

(** C9: when the reply to the candidate extraction, or to the job
    extraction, is a text [json.loads] rejects, the node does not raise:
    it returns the object of two keys, [error] with the text
    "Invalid JSON returned" and [raw_output] with the reply, and the
    graph goes on to the next node with that object in the state. *)
Theorem invalid_json_degrades :
  (forall (st : State) (raw_text : string) (links : pyval) (msg : string),
      raw_extracted_text st = Some raw_text ->
      links_info st = Some links ->
      chat CANDIDATE_PROMPT (combined_input json_dumps raw_text links) = Ok msg ->
      json_loads msg = None ->
      candidate_node st
      = Ok (PDict [("error", PStr "Invalid JSON returned");
                   ("raw_output", PStr msg)])
      /\ graph st =
         (s2 <- run_jd_json chat json_loads JD_PROMPT
                  (with_candidate_info st
                     (PDict [("error", PStr "Invalid JSON returned");
                             ("raw_output", PStr msg)])) ;;
          run_match_score chat json_loads json_dumps GRADING_PROMPT s2))
  /\ (forall (st : State) (job_desc msg : string),
         job_description st = Some job_desc ->
         chat JD_PROMPT job_desc = Ok msg ->
         json_loads msg = None ->
         jd_node st
         = Ok (PDict [("error", PStr "Invalid JSON returned");
                      ("raw_output", PStr msg)])
         /\ run_jd_json chat json_loads JD_PROMPT st
            = Ok (with_job_info st
                    (PDict [("error", PStr "Invalid JSON returned");
                            ("raw_output", PStr msg)]))
         /\ forall st0 : State,
             run_candidate_json chat json_loads json_dumps CANDIDATE_PROMPT st0
             = Ok st ->
             graph st0 =
             run_match_score chat json_loads json_dumps GRADING_PROMPT
               (with_job_info st
                  (PDict [("error", PStr "Invalid JSON returned");
                          ("raw_output", PStr msg)]))).
Proof.
  split.
  - intros st raw_text links msg Hr Hl Hchat Hloads.
    assert (Hnode : candidate_node st
                    = Ok (PDict [("error", PStr "Invalid JSON returned");
                                 ("raw_output", PStr msg)])).
    { unfold candidate_info_extraction, loads_or_degraded.
      rewrite Hr, Hl. cbn [field Py.bind]. rewrite Hchat. cbn [Py.bind].
      rewrite Hloads. reflexivity. }
    split; [exact Hnode |].
    unfold invoke, run_candidate_json. rewrite Hnode. reflexivity.
  - intros st job_desc msg Hj Hchat Hloads.
    assert (Hnode : jd_node st
                    = Ok (PDict [("error", PStr "Invalid JSON returned");
                                 ("raw_output", PStr msg)])).
    { unfold job_desc_extraction, loads_or_degraded.
      rewrite Hj. cbn [field Py.bind]. rewrite Hchat. cbn [Py.bind].
      now rewrite Hloads. }
    assert (Hrun : run_jd_json chat json_loads JD_PROMPT st
                   = Ok (with_job_info st
                           (PDict [("error", PStr "Invalid JSON returned");
                                   ("raw_output", PStr msg)]))).
    { unfold run_jd_json. now rewrite Hnode. }
    repeat split; try assumption.
    intros st0 H0. unfold invoke. rewrite H0. cbn [Py.bind]. now rewrite Hrun.
Qed.

End NodeFacts.

(** ** Runs of the graph *)

Section Runs.
Import Py ResumeParser.

Local Open Scope string_scope.
Local Open Scope Q_scope.

Lemma final_score_weighted_witness :
  exists (v : pyval) (s : Q),
    get (skill_match_score Demo.bundle) "final_skill_match_score" (PNum 0) = Ok v
    /\ num v = Ok s
    /\ final_match_score Demo.bundle ==
       0.20 * experience_score Demo.bundle
       + 0.10 * education_score Demo.bundle + 0.70 * s.
Proof.
  apply (proj2 (proj2 (proj2 (proj2
           (final_score_weighted Demo.chat Demo.json_loads Demo.json_dumps
              "grade"))))
           Demo.extracted_state Demo.bundle).
  reflexivity.
Defined.


Lemma invalid_json_degrades_witness :
  candidate_info_extraction Demo.chat_prose Demo.json_loads Demo.json_dumps
    "candidate" Demo.initial_state
  = Ok (PDict [("error", PStr "Invalid JSON returned");
               ("raw_output", PStr "Sorry, I cannot do that.")])
  /\ invoke Demo.chat_prose Demo.json_loads Demo.json_dumps
       "candidate" "jd" "grade" Demo.initial_state
     = (s2 <- run_jd_json Demo.chat_prose Demo.json_loads "jd"
                (with_candidate_info Demo.initial_state
                   (PDict [("error", PStr "Invalid JSON returned");
                           ("raw_output", PStr "Sorry, I cannot do that.")])) ;;
        run_match_score Demo.chat_prose Demo.json_loads Demo.json_dumps
          "grade" s2).
Proof.
  apply (proj1 (invalid_json_degrades Demo.chat_prose Demo.json_loads
                  Demo.json_dumps "candidate" "jd" "grade")
           Demo.initial_state "resume text" (PDict [])
           "Sorry, I cannot do that.");
    reflexivity.
Defined.

(** The scenario of the specification: experience 1.0, education 0.97,
    grade 0.8, final score 0.857. *)
Example scenario_scores :
  exists st,
    invoke Demo.chat Demo.json_loads Demo.json_dumps "candidate" "jd" "grade"
      Demo.initial_state = Ok st
    /\ scores st = Some Demo.bundle
    /\ experience_score Demo.bundle == 1.0
    /\ education_score Demo.bundle == 0.97
    /\ final_match_score Demo.bundle == 0.857.
Proof. eexists. repeat split. Qed.

(** With both extractions degraded the graph still returns: the two
    sub-scores are 1.0 and the final score is 0.2 + 0.1 + 0.7 * 0.8. *)
Example degraded_run_scores :
  exists st b,
    invoke Demo.chat_prose Demo.json_loads Demo.json_dumps
      "candidate" "jd" "grade" Demo.initial_state = Ok st
    /\ candidate_info_json st
       = Some (degraded_record "Sorry, I cannot do that.")
    /\ job_info_json st = Some (degraded_record "Sorry, I cannot do that.")
    /\ scores st = Some b
    /\ experience_score b == 1.0
    /\ education_score b == 1.0
    /\ final_match_score b == 0.86.
Proof. do 2 eexists. repeat split. Qed.

(** The reply of the grader is parsed outside any [try]: a grade in
    prose makes the last node raise. *)
Example prose_grade_raises :
  candidate_job_matching (fun _ _ => Ok "It is a good match.") Demo.json_loads
    Demo.json_dumps "grade" Demo.extracted_state
  = Raise JSONDecodeError.
Proof. reflexivity. Qed.

End Runs.

(** ** Further properties of the education matcher *)

Section EducationProperties.
Import Py ResumeParser.

Local Open Scope string_scope.
Local Open Scope Q_scope.

Lemma lower_char_keeps_space (c : ascii) :
  isspace_char (lower_char c) = isspace_char c.
Proof.
  destruct c as [[] [] [] [] [] [] [] []]; reflexivity.
Qed.

Lemma is_blank_lower (s : string) : is_blank (lower s) = is_blank s.
Proof.
  unfold is_blank. induction s as [|c s IH]; simpl; [reflexivity |].
  now rewrite lower_char_keeps_space, IH.
Qed.

Lemma lower_eq_empty (s t : string) :
  lower s = lower t -> is_empty s = is_empty t.
Proof. destruct s, t; simpl; intros H; (reflexivity || discriminate H). Qed.

Lemma normalize_degree_by_lower (s t : string) :
  lower s = lower t -> normalize_degree (PStr s) = normalize_degree (PStr t).
Proof.
  intros H. pose proof (lower_eq_empty s t H) as He.
  unfold normalize_degree, lower_of. cbn [truthy]. now rewrite He, H.
Qed.

Lemma field_relevance_by_lower (s s' jd jd' : string) :
  lower s = lower s' -> lower jd = lower jd' ->
  compute_field_relevance (PStr s) (PStr jd)
  = compute_field_relevance (PStr s') (PStr jd').
Proof.
  intros Hs Hj.
  assert (Hb : is_blank jd = is_blank jd')
    by now rewrite <- (is_blank_lower jd), <- (is_blank_lower jd'), Hj.
  assert (Hc : lower_of (py_or (PStr s) (PStr "")) = lower_of (py_or (PStr s') (PStr ""))).
  { assert (E : forall x, lower_of (py_or (PStr x) (PStr "")) = Ok (lower x))
      by (now intros []).
    now rewrite !E, Hs. }
  unfold compute_field_relevance, strip_is_empty, lower_of at 2 4.
  cbn [truthy]. rewrite (lower_eq_empty jd jd' Hj), Hb, Hc, Hj. reflexivity.
Qed.

(** X1: [degree_match] does not tell upper case from lower case, in any
    of its three arguments. *)
Theorem degree_match_ignores_case (d d' s s' jd jd' : string) :
  lower d = lower d' -> lower s = lower s' -> lower jd = lower jd' ->
  degree_match (PStr d) (PStr s) (PStr jd)
  = degree_match (PStr d') (PStr s') (PStr jd').
Proof.
  intros Hd Hs Hj. unfold degree_match. cbn [truthy].
  rewrite (lower_eq_empty jd jd' Hj).
  rewrite (normalize_degree_by_lower d d' Hd),
    (normalize_degree_by_lower jd jd' Hj),
    (field_relevance_by_lower s s' jd jd' Hs Hj).
  reflexivity.
Qed.

Lemma degree_match_ignores_case_witness :
  degree_match (PStr "M.TECH") (PStr "Data Science") (PStr "BACHELOR")
  = degree_match (PStr "m.tech") (PStr "DATA SCIENCE") (PStr "bachelor").
Proof.
  apply degree_match_ignores_case; reflexivity.
Defined.

(** X2: [normalize_degree] returns "unknown" for every value that is
    falsy ([None], the empty string, 0, an empty list or dict), one of
    its five names for every str, and raises [AttributeError] for every
    other value. *)
Theorem normalize_degree_values (text : pyval) :
  (truthy text = false -> normalize_degree text = Ok "unknown")
  /\ (forall s, text = PStr s ->
        exists level,
          normalize_degree text = Ok level
          /\ In level ["bachelor"; "master"; "phd"; "diploma"; "unknown"])
  /\ (truthy text = true -> (forall s, text <> PStr s) ->
      normalize_degree text = Raise AttributeError).
Proof.
  split; [| split].
  - intros H. unfold normalize_degree. now rewrite H.
  - intros s ->. unfold normalize_degree, lower_of.
    destruct (negb (truthy (PStr s))); [exists "unknown"; simpl; tauto |].
    cbn [Py.bind].
    repeat match goal with
           | |- context [if ?b then _ else _] => destruct b
           end; eexists; (split; [reflexivity | simpl; tauto]).
  - intros H Hs. unfold normalize_degree. rewrite H. cbn [negb].
    destruct text; try reflexivity. now destruct (Hs s).
Qed.

Lemma normalize_degree_values_witness :
  normalize_degree (PNum 12) = Raise AttributeError.
Proof.
  apply (proj2 (proj2 (normalize_degree_values (PNum 12))));
    [reflexivity | discriminate].
Defined.

(** X3: the text of the requirement bears on the field relevance only by
    being blank or not.  For a blank requirement the relevance is 1.0
    whatever the stream is, even a value that is no str; for two
    requirements that are not blank the relevance of a stream is the
    same; and a stream that is [None] has relevance 0.5 then. *)
Theorem field_relevance_ignores_requirement_text :
  (forall (stream : pyval) (jd : string),
      is_blank jd = true ->
      compute_field_relevance stream (PStr jd) = Ok 1.0)
  /\ (forall stream jd jd' : string,
         is_blank jd = false -> is_blank jd' = false ->
         compute_field_relevance (PStr stream) (PStr jd)
         = compute_field_relevance (PStr stream) (PStr jd'))
  /\ (forall jd : string,
         is_blank jd = false ->
         compute_field_relevance PNone (PStr jd) = Ok 0.5).
Proof.
  split; [| split].
  - intros stream jd H. unfold compute_field_relevance, strip_is_empty.
    destruct (negb (truthy (PStr jd))); [reflexivity |].
    cbn [Py.bind]. now rewrite H.
  - intros stream jd jd' H H'.
    assert (E : forall x, is_blank x = false -> truthy (PStr x) = true).
    { intros [|c x]; [discriminate | reflexivity]. }
    unfold compute_field_relevance, strip_is_empty.
    rewrite (E jd H), (E jd' H'), H, H'. cbn [negb Py.bind].
    destruct (lower_of (py_or (PStr stream) (PStr ""))); reflexivity.
  - intros jd H. unfold compute_field_relevance, strip_is_empty.
    destruct jd as [|c jd]; [discriminate H |].
    cbn [truthy is_empty negb Py.bind]. rewrite H. reflexivity.
Qed.

Lemma field_relevance_ignores_requirement_text_witness :
  compute_field_relevance (PStr "Fine Arts") (PStr "B.Tech in Computer Science")
  = compute_field_relevance (PStr "Fine Arts") (PStr "Any degree").
Proof.
  apply (proj1 (proj2 field_relevance_ignores_requirement_text)); reflexivity.
Defined.

(** What a call of [compute_field_relevance] that returns, returns. *)
Lemma field_relevance_values (stream jd : pyval) (fr : Q) :
  compute_field_relevance stream jd = Ok fr ->
  fr = 1.0 \/ fr = 0.9 \/ fr = 0.5.
Proof.
  unfold compute_field_relevance. intros H.
  destruct (negb (truthy jd)); [injection H as <-; tauto |].
  destruct (strip_is_empty jd) as [[]|]; cbn [Py.bind] in H;
    [injection H as <-; tauto | | discriminate H].
  destruct (lower_of (py_or stream (PStr ""))) as [cand|]; cbn [Py.bind] in H;
    [| discriminate H].
  destruct (lower_of jd); cbn [Py.bind] in H; [| discriminate H].
  destruct (any_in RELEVANT_FIELDS cand); injection H as <-; tauto.
Qed.

(** What a call of [degree_match] that returns, has gone through. *)
Lemma degree_match_ok (d s jd : pyval) (q : Q) :
  degree_match d s jd = Ok q ->
  (truthy jd = false /\ q = 1.0)
  \/ (truthy jd = true /\
      exists (cl jl : string) (fr : Q),
        normalize_degree d = Ok cl
        /\ normalize_degree jd = Ok jl
        /\ compute_field_relevance s jd = Ok fr
        /\ q = round (0.7 * level_score cl jl + 0.3 * fr) 3).
Proof.
  unfold degree_match. intros H.
  destruct (truthy jd); cbn [negb] in H; [right | left; now injection H as <-].
  split; [reflexivity |].
  destruct (normalize_degree d) as [cl|]; cbn [Py.bind] in H; [| discriminate H].
  destruct (normalize_degree jd) as [jl|]; cbn [Py.bind] in H; [| discriminate H].
  destruct (compute_field_relevance s jd) as [fr|] eqn:Hf; cbn [Py.bind] in H;
    [| discriminate H].
  injection H as <-. now exists cl, jl, fr.
Qed.

(** X4: whenever [degree_match] returns, whatever values it was given,
    the rounding to 3 decimals has changed nothing (the score is 0.7
    times a level score plus 0.3 times a field relevance, or 1 for no
    requirement), and the score is at least 0.43 and at most 1. *)
Theorem degree_match_exact_and_floor (d s jd : pyval) (q : Q) :
  degree_match d s jd = Ok q ->
  0.43 <= q /\ q <= 1
  /\ (q == 1 \/
      exists (cl jl : string) (fr : Q),
        normalize_degree d = Ok cl
        /\ normalize_degree jd = Ok jl
        /\ compute_field_relevance s jd = Ok fr
        /\ q == 0.7 * level_score cl jl + 0.3 * fr).
Proof.
  intros H. destruct (degree_match_ok d s jd q H) as [[_ ->] | [_ H']].
  - repeat split; try discriminate. now left.
  - destruct H' as (cl & jl & fr & Hc & Hj & Hf & ->).
    assert (V : forall ls fr',
               (ls = 1.0 \/ ls = 0.6 \/ ls = 0.5 \/ ls = 0.4) ->
               (fr' = 1.0 \/ fr' = 0.9 \/ fr' = 0.5) ->
               0.43 <= round (0.7 * ls + 0.3 * fr') 3
               /\ round (0.7 * ls + 0.3 * fr') 3 <= 1
               /\ round (0.7 * ls + 0.3 * fr') 3 == 0.7 * ls + 0.3 * fr').
    { intros ls fr' [-> | [-> | [-> | ->]]] [-> | [-> | ->]];
        repeat split; discriminate || reflexivity. }
    destruct (V (level_score cl jl) fr (level_score_values cl jl)
                (field_relevance_values s jd fr Hf)) as [V1 [V2 V3]].
    repeat split; try assumption.
    right. now exists cl, jl, fr.
Qed.

Lemma degree_match_exact_and_floor_witness :
  0.43 <= round (0.7 * 0.4 + 0.3 * 0.5) 3.
Proof.
  apply (proj1 (degree_match_exact_and_floor (PStr "PhD") (PStr "History")
                  (PStr "Diploma") (round (0.7 * 0.4 + 0.3 * 0.5) 3) eq_refl)).
Defined.

(** X5: a candidate whose degree normalizes to the level of the
    requirement is never outscored by a candidate of the same stream. *)
Theorem exact_level_scores_highest (d d' s jd : string) (level : string) (q q' : Q) :
  normalize_degree (PStr d') = Ok level ->
  normalize_degree (PStr jd) = Ok level ->
  degree_match (PStr d) (PStr s) (PStr jd) = Ok q ->
  degree_match (PStr d') (PStr s) (PStr jd) = Ok q' ->
  q <= q'.
Proof.
  intros Hd' Hj H H'.
  destruct jd as [|c jd].
  { injection H as <-. injection H' as <-. discriminate. }
  destruct (degree_match_ok _ _ _ _ H) as [[Ht _] | [_ H1]]; [discriminate Ht |].
  destruct (degree_match_ok _ _ _ _ H') as [[Ht _] | [_ H2]]; [discriminate Ht |].
  destruct H1 as (cl & jl & fr & Hc & Hj1 & Hf & ->).
  destruct H2 as (cl' & jl' & fr' & Hc' & Hj2 & Hf' & ->).
  assert (jl = level) by congruence. assert (jl' = level) by congruence.
  assert (cl' = level) by congruence. assert (fr' = fr) by congruence.
  subst. unfold level_score at 2. rewrite String.eqb_refl.
  destruct (level_score_values cl level) as [-> | [-> | [-> | ->]]];
    destruct (field_relevance_values _ _ _ Hf) as [-> | [-> | ->]];
    discriminate.
Qed.

Lemma exact_level_scores_highest_witness :
  round (0.7 * 0.4 + 0.3 * 0.9) 3 <= round (0.7 * 1.0 + 0.3 * 0.9) 3.
Proof.
  apply (exact_level_scores_highest "PhD in Physics" "B.E" "Computer Science"
           "Bachelor" "bachelor" _ _ eq_refl eq_refl eq_refl eq_refl).
Defined.

(** X6: the level table has no rule for a degree above the required one
    other than master for bachelor: against a requirement of a bachelor,
    a candidate whose degree is read as a phd scores strictly less than
    a candidate of the same stream whose degree is read as a diploma. *)
Theorem phd_scores_below_diploma (phd diploma s jd : string) (q q' : Q) :
  normalize_degree (PStr phd) = Ok "phd" ->
  normalize_degree (PStr diploma) = Ok "diploma" ->
  normalize_degree (PStr jd) = Ok "bachelor" ->
  degree_match (PStr phd) (PStr s) (PStr jd) = Ok q ->
  degree_match (PStr diploma) (PStr s) (PStr jd) = Ok q' ->
  q < q'.
Proof.
  intros Hp Hd Hj H H'.
  assert (Hne : truthy (PStr jd) = true).
  { destruct jd; [discriminate Hj | reflexivity]. }
  destruct (degree_match_ok _ _ _ _ H) as [[Ht _] | [_ H1]]; [congruence |].
  destruct (degree_match_ok _ _ _ _ H') as [[Ht _] | [_ H2]]; [congruence |].
  destruct H1 as (cl & jl & fr & Hc & Hj1 & Hf & ->).
  destruct H2 as (cl' & jl' & fr' & Hc' & Hj2 & Hf' & ->).
  assert (cl = "phd") by congruence. assert (cl' = "diploma") by congruence.
  assert (jl = "bachelor") by congruence. assert (jl' = "bachelor") by congruence.
  assert (fr' = fr) by congruence. subst.
  destruct (field_relevance_values _ _ _ Hf) as [-> | [-> | ->]]; reflexivity.
Qed.

Lemma phd_scores_below_diploma_witness :
  round (0.7 * 0.4 + 0.3 * 0.9) 3 < round (0.7 * 0.5 + 0.3 * 0.9) 3.
Proof.
  apply (phd_scores_below_diploma "PhD" "Diploma" "Electronics" "Bachelor"
           _ _ eq_refl eq_refl eq_refl eq_refl eq_refl).
Defined.

End EducationProperties.

(** ** Further properties of the experience match and aggregator *)

Section ExperienceProperties.
Import Py ResumeParser.

Local Open Scope string_scope.
Local Open Scope Q_scope.

Lemma Qle_bool_trans_r (a y y' : Q) :
  Qle_bool a y = true -> y <= y' -> Qle_bool a y' = true.
Proof.
  intros H Hy. apply Qle_bool_iff. apply Qle_bool_iff in H.
  now apply Qle_trans with y.
Qed.

(** X7: [experience_match] returns one of 1.0, 0.6 and 0.2, and more
    years never give a lower score, whatever the requirement is. *)
Theorem experience_match_monotone (jd_exp : pyval) (years years' : Q) :
  years <= years' ->
  experience_match years jd_exp <= experience_match years' jd_exp
  /\ (experience_match years jd_exp = 1.0
      \/ experience_match years jd_exp = 0.6
      \/ experience_match years jd_exp = 0.2).
Proof.
  intros Hy. unfold experience_match.
  destruct (negb (truthy jd_exp)); [split; [discriminate | tauto] |].
  destruct (required_years jd_exp) as [required|]; [| split; [discriminate | tauto]].
  destruct (Qle_bool (inject_Z required) years) eqn:E1.
  { rewrite (Qle_bool_trans_r _ _ _ E1 Hy). split; [discriminate | tauto]. }
  destruct (Qle_bool (inject_Z required - 1) years) eqn:E2.
  { rewrite (Qle_bool_trans_r _ _ _ E2 Hy).
    destruct (Qle_bool (inject_Z required) years'); split; (discriminate || tauto). }
  destruct (Qle_bool (inject_Z required) years');
    [| destruct (Qle_bool (inject_Z required - 1) years')];
    split; (discriminate || tauto).
Qed.

Lemma experience_match_monotone_witness :
  experience_match 1.5 (PStr "4 years") <= experience_match 3.2 (PStr "4 years").
Proof.
  apply (experience_match_monotone (PStr "4 years") 1.5 3.2). discriminate.
Defined.

Lemma all_chars_app (p : ascii -> bool) (s t : string) :
  all_chars p (s ++ t) = all_chars p s && all_chars p t.
Proof.
  induction s as [|c s IH]; simpl; [reflexivity |].
  now rewrite IH, andb_assoc.
Qed.

(** X8: a requirement that is a number or a boolean, not a text, is
    read as no requirement: the score is 1.0 for every number of years.
    So is a text in which a superscript digit occurs, since [isdigit]
    keeps it and [int] refuses it. *)
Theorem experience_match_unreadable_requirement (years : Q) :
  (forall q : Q, experience_match years (PNum q) = 1.0)
  /\ (forall b : bool, experience_match years (PBool b) = 1.0)
  /\ (forall (pre post : string) (c : ascii),
         isdigit_char c = true -> is_decimal c = false ->
         experience_match years (PStr (pre ++ String c post)) = 1.0).
Proof.
  split; [| split].
  - intros q. unfold experience_match. now destruct (negb (truthy (PNum q))).
  - intros []; reflexivity.
  - intros pre post c Hd Hn. unfold experience_match.
    destruct (negb (truthy _)); [reflexivity |].
    rewrite required_years_str, filter_chars_app. cbn [filter_chars].
    rewrite Hd. unfold int_of_digits.
    rewrite all_chars_app. cbn [all_chars]. rewrite Hn.
    now rewrite andb_false_r, andb_false_r.
Qed.

Lemma experience_match_unreadable_requirement_witness :
  experience_match 0 (PStr ("10" ++ String (ascii_of_nat 178) " years")) = 1.0.
Proof.
  apply (proj2 (proj2 (experience_match_unreadable_requirement 0))
           "10" " years" (ascii_of_nat 178)); reflexivity.
Defined.

(** X9: the aggregator reads a list whose first element is a dict as
    that dict; a dict with no key [experience], and every value that is
    neither a dict nor such a list (an empty list, [None], a text, a
    number), give the breakdown of no experience, all fields 0. *)
Theorem breakdown_shapes :
  (forall (d : list (string * pyval)) (rest : list pyval),
      compute_experience_breakdown (PList (PDict d :: rest))
      = compute_experience_breakdown (PDict d))
  /\ (forall d : list (string * pyval),
         dict_get d "experience" = None ->
         compute_experience_breakdown (PDict d) = Ok (breakdown_of no_months))
  /\ (forall candidate : pyval,
         (forall d, candidate <> PDict d) ->
         (forall d rest, candidate <> PList (PDict d :: rest)) ->
         compute_experience_breakdown candidate = Ok (breakdown_of no_months))
  /\ effective_years (breakdown_of no_months) == 0.
Proof.
  split; [| split; [| split]].
  - reflexivity.
  - intros d H. unfold compute_experience_breakdown, experiences_of, get.
    now rewrite H.
  - intros candidate Hd Hl. unfold compute_experience_breakdown, experiences_of.
    destruct candidate as [| | | |l|d]; try reflexivity.
    + destruct l as [|x l]; [reflexivity |].
      destruct x; try reflexivity. now destruct (Hl d l).
    + now destruct (Hd d).
  - reflexivity.
Qed.

Lemma breakdown_shapes_witness :
  compute_experience_breakdown (PList [PStr "resume"; PDict []])
  = Ok (breakdown_of no_months).
Proof.
  apply (proj1 (proj2 (proj2 breakdown_shapes))); discriminate.
Defined.

Lemma for_each_app {S A : Type} (body : S -> A -> result S) (s : S)
  (l1 l2 : list A) :
  for_each body s (l1 ++ l2)
  = (s' <- for_each body s l1 ;; for_each body s' l2).
Proof.
  revert s. induction l1 as [|x l1 IH]; intros s; simpl; [reflexivity |].
  destruct (body s x); simpl; [apply IH | reflexivity].
Qed.

Lemma breakdown_of_list (d : list (string * pyval)) (items : list pyval) :
  dict_get d "experience" = Some (PList items) ->
  compute_experience_breakdown (PDict d)
  = (m <- for_each add_experience no_months items ;; Ok (breakdown_of m)).
Proof.
  intros H. unfold compute_experience_breakdown, experiences_of, get.
  now rewrite H.
Qed.

(** X10: one malformed entry makes the aggregator raise, with nothing
    kept of the entries before it: [AttributeError] for an entry that is
    not a dict, [TypeError] for a record whose duration is not a number
    (a text, [None], a list). *)
Theorem breakdown_rejects_malformed_entry
  (d : list (string * pyval)) (rs : list Spec.ExperienceRecord)
  (x : pyval) (rest : list pyval) :
  dict_get d "experience"
  = Some (PList (map Spec.record_value rs ++ x :: rest)) ->
  ((forall xd, x <> PDict xd) ->
   compute_experience_breakdown (PDict d) = Raise AttributeError)
  /\ (forall (t : string) (v : pyval),
         x = PDict [("type", PStr t); ("duration_months", v)] ->
         num v = Raise TypeError ->
         compute_experience_breakdown (PDict d) = Raise TypeError).
Proof.
  intros H. rewrite (breakdown_of_list d _ H), for_each_app.
  destruct (for_each_records rs no_months) as [m [-> _]]. cbn [Py.bind for_each].
  split.
  - intros Hx. destruct x; try reflexivity. now destruct (Hx d0).
  - intros t v -> Hv. unfold add_experience.
    cbn [get dict_get String.eqb Ascii.eqb Bool.eqb Py.bind].
    assert (E : lower_of (py_or (PStr t) (PStr "")) = Ok (lower t)) by now destruct t.
    rewrite E. cbn [Py.bind]. now rewrite Hv.
Qed.

Lemma breakdown_rejects_malformed_entry_witness :
  compute_experience_breakdown
    (PDict [("experience",
             PList [PDict [("type", PStr "full time"); ("duration_months", PNum 24)];
                    PDict [("type", PStr "internship"); ("duration_months", PNone)]])])
  = Raise TypeError.
Proof.
  apply (proj2 (breakdown_rejects_malformed_entry
                  [("experience",
                    PList [PDict [("type", PStr "full time");
                                  ("duration_months", PNum 24)];
                           PDict [("type", PStr "internship");
                                  ("duration_months", PNone)]])]
                  [Spec.mkRecord (Some "full time") (Some 24)]
                  (PDict [("type", PStr "internship"); ("duration_months", PNone)])
                  [] eq_refl)
           "internship" PNone); reflexivity.
Defined.





End ExperienceProperties.

Section ExperienceBounds.
Import Py ResumeParser.

Local Open Scope string_scope.
Local Open Scope Q_scope.










End ExperienceBounds.

(** ** Further properties of the graph nodes *)

Section NodeProperties.
Import Py ResumeParser.

Local Open Scope string_scope.
Local Open Scope Q_scope.

Variable chat : string -> string -> result string.
Variable json_loads : string -> option pyval.
Variable json_dumps : option nat -> pyval -> string.
Variables CANDIDATE_PROMPT JD_PROMPT GRADING_PROMPT : string.

Local Abbreviation matching :=
  (candidate_job_matching chat json_loads json_dumps GRADING_PROMPT).
Local Abbreviation candidate_node :=
  (candidate_info_extraction chat json_loads json_dumps CANDIDATE_PROMPT).
Local Abbreviation jd_node := (job_desc_extraction chat json_loads JD_PROMPT).
Local Abbreviation graph :=
  (invoke chat json_loads json_dumps CANDIDATE_PROMPT JD_PROMPT GRADING_PROMPT).

Lemma dict_get_set_same (d : list (string * pyval)) (k : string) (v : pyval) :
  dict_get (dict_set d k v) k = Some v.
Proof.
  induction d as [|[k' v'] d IH]; simpl.
  - now rewrite String.eqb_refl.
  - destruct (String.eqb_spec k' k) as [->|H]; simpl.
    + now rewrite String.eqb_refl.
    + destruct (String.eqb_spec k' k); [contradiction | exact IH].
Qed.

Lemma dict_get_set_other (d : list (string * pyval)) (k k0 : string) (v : pyval) :
  k0 <> k -> dict_get (dict_set d k v) k0 = dict_get d k0.
Proof.
  intros Hk. induction d as [|[k' v'] d IH]; simpl.
  - destruct (String.eqb_spec k k0); [congruence | reflexivity].
  - destruct (String.eqb_spec k' k) as [->|H]; simpl.
    + destruct (String.eqb_spec k k0); [congruence | reflexivity].
    + destruct (String.eqb_spec k' k0); [reflexivity | exact IH].
Qed.

(** The candidate node up to the reply of the collaborator. *)
Lemma candidate_node_reply (st : State) (raw_text : string) (links : pyval)
  (msg : string) :
  raw_extracted_text st = Some raw_text ->
  links_info st = Some links ->
  chat CANDIDATE_PROMPT (combined_input json_dumps raw_text links) = Ok msg ->
  candidate_node st =
  match loads_or_degraded json_loads msg with
  | PDict d =>
      match dict_get d "contact" with
      | Some contact => stitch_contact d contact links
      | None => Ok (PDict d)
      end
  | parsed => Ok parsed
  end.
Proof.
  intros Hr Hl Hchat. unfold candidate_info_extraction.
  rewrite Hr, Hl. cbn [field Py.bind]. rewrite Hchat. cbn [Py.bind].
  destruct (loads_or_degraded json_loads msg); reflexivity.
Qed.

(** X14: when the reply is an object whose [contact] is an object, and
    the links are those [extract_data] returns, the candidate node does
    not raise and writes six fields of the contact from the links, over
    whatever the reply gave for them: the email is the mail link (empty
    when there is none), the phone is the list of numbers found, the
    github and the portfolio are the first and the second of the other
    links (empty when missing), which are all kept as [other_links].
    The other fields of the contact and the other keys of the reply are
    as the reply gave them. *)
Theorem contact_written_from_links
  (st : State) (raw_text msg : string) (links : TextExtractor.Links)
  (d c : list (string * pyval)) :
  raw_extracted_text st = Some raw_text ->
  links_info st = Some (TextExtractor.links_value links) ->
  chat CANDIDATE_PROMPT
    (combined_input json_dumps raw_text (TextExtractor.links_value links))
  = Ok msg ->
  json_loads msg = Some (PDict d) ->
  dict_get d "contact" = Some (PDict c) ->
  exists d' c' : list (string * pyval),
    candidate_node st = Ok (PDict d')
    /\ dict_get d' "contact" = Some (PDict c')
    /\ (forall k, k <> "contact" -> dict_get d' k = dict_get d k)
    /\ dict_get c' "email"
       = Some (PStr (TextExtractor.mail (TextExtractor.profile_info links)))
    /\ dict_get c' "phone"
       = Some (PList (map PStr
                        (TextExtractor.contact (TextExtractor.profile_info links))))
    /\ dict_get c' "linkedin"
       = Some (PStr (TextExtractor.linkedin (TextExtractor.profile_info links)))
    /\ dict_get c' "github"
       = Some (PStr (nth 0 (TextExtractor.projects links) ""))
    /\ dict_get c' "portfolio"
       = Some (PStr (nth 1 (TextExtractor.projects links) ""))
    /\ dict_get c' "other_links"
       = Some (PList (map PStr (TextExtractor.projects links)))
    /\ (forall k,
           ~ In k ["email"; "phone"; "linkedin"; "github"; "portfolio";
                   "other_links"] ->
           dict_get c' k = dict_get c k).
Proof.
  intros Hr Hl Hchat Hloads Hc.
  rewrite (candidate_node_reply st raw_text _ msg Hr Hl Hchat).
  unfold loads_or_degraded. rewrite Hloads, Hc.
  destruct links as [[li ma me co lo] projects].
  assert (Hs : exists g p : string,
             stitch_contact d (PDict c)
               (TextExtractor.links_value
                  (TextExtractor.mkLinks (TextExtractor.mkProfile li ma me co lo)
                     projects))
             = Ok (PDict
                     (dict_set d "contact"
                        (PDict
                           (dict_set
                              (dict_set
                                 (dict_set
                                    (dict_set
                                       (dict_set (dict_set c "email" (PStr ma))
                                          "phone" (PList (map PStr co)))
                                       "linkedin" (PStr li))
                                    "github" (PStr g))
                                 "portfolio" (PStr p))
                              "other_links" (PList (map PStr projects))))))
             /\ g = nth 0 projects "" /\ p = nth 1 projects "").
  { destruct projects as [|p0 [|p1 rest]]; do 2 eexists;
      (split; [reflexivity | split; reflexivity]). }
  destruct Hs as (g & p & -> & -> & ->).
  do 2 eexists. split; [reflexivity |].
  cbn [TextExtractor.profile_info TextExtractor.mail TextExtractor.contact
       TextExtractor.linkedin TextExtractor.projects].
  split; [apply dict_get_set_same |].
  split; [intros k Hk; now apply dict_get_set_other |].
  repeat split;
    try (repeat (rewrite dict_get_set_other by discriminate);
         now rewrite dict_get_set_same).
  intros k Hk. cbn [In] in Hk.
  repeat (rewrite dict_get_set_other by (intros ->; tauto)). reflexivity.
Qed.

(** X15: a reply that is JSON with no [contact] to write to, be it an
    object without that key or a value that is no object, is returned by
    the candidate node as it is, whatever the links are. *)
Theorem candidate_reply_returned_as_is
  (st : State) (raw_text msg : string) (links parsed : pyval) :
  raw_extracted_text st = Some raw_text ->
  links_info st = Some links ->
  chat CANDIDATE_PROMPT (combined_input json_dumps raw_text links) = Ok msg ->
  json_loads msg = Some parsed ->
  (forall d, parsed = PDict d -> dict_get d "contact" = None) ->
  candidate_node st = Ok parsed.
Proof.
  intros Hr Hl Hchat Hloads Hno.
  rewrite (candidate_node_reply st raw_text links msg Hr Hl Hchat).
  unfold loads_or_degraded. rewrite Hloads.
  destruct parsed; try reflexivity. now rewrite (Hno d eq_refl).
Qed.

(** X16: a reply whose [contact] is not an object ([null], a text, a
    list) makes the candidate node raise [TypeError], with the links
    [extract_data] returns. *)
Theorem contact_not_object_raises
  (st : State) (raw_text msg : string) (links : TextExtractor.Links)
  (d : list (string * pyval)) (contact : pyval) :
  raw_extracted_text st = Some raw_text ->
  links_info st = Some (TextExtractor.links_value links) ->
  chat CANDIDATE_PROMPT
    (combined_input json_dumps raw_text (TextExtractor.links_value links))
  = Ok msg ->
  json_loads msg = Some (PDict d) ->
  dict_get d "contact" = Some contact ->
  (forall c, contact <> PDict c) ->
  candidate_node st = Raise TypeError.
Proof.
  intros Hr Hl Hchat Hloads Hc Hno.
  rewrite (candidate_node_reply st raw_text _ msg Hr Hl Hchat).
  unfold loads_or_degraded. rewrite Hloads, Hc.
  destruct contact; try reflexivity. now destruct (Hno d0).
Qed.

End NodeProperties.

Section ScoreRanges.
Import Py ResumeParser.

Local Open Scope string_scope.
Local Open Scope Q_scope.

Lemma experience_match_values (years : Q) (jd_exp : pyval) :
  experience_match years jd_exp = 1.0
  \/ experience_match years jd_exp = 0.6
  \/ experience_match years jd_exp = 0.2.
Proof.
  unfold experience_match.
  destruct (negb (truthy jd_exp)); [tauto |].
  destruct (required_years jd_exp) as [required|]; [| tauto].
  destruct (Qle_bool (inject_Z required) years); [tauto |].
  destruct (Qle_bool (inject_Z required - 1) years); tauto.
Qed.

Lemma degree_match_range (d s jd : pyval) (q : Q) :
  degree_match d s jd = Ok q -> 0.43 <= q /\ q <= 1.
Proof.
  intros H. destruct (degree_match_ok d s jd q H) as [[_ ->] | [_ H']].
  - split; discriminate.
  - destruct H' as (cl & jl & fr & _ & _ & Hf & ->).
    destruct (level_score_values cl jl) as [-> | [-> | [-> | ->]]];
      destruct (field_relevance_values s jd fr Hf) as [-> | [-> | ->]];
      split; discriminate.
Qed.

Lemma get_ok_dict (o : pyval) (k : string) (default v : pyval) :
  get o k default = Ok v -> exists d, o = PDict d.
Proof. destruct o; try discriminate. intros _. now eexists. Qed.

End ScoreRanges.

Section GraphProperties.
Import Py ResumeParser.

Local Open Scope string_scope.
Local Open Scope Q_scope.

Variable chat : string -> string -> result string.
Variable json_loads : string -> option pyval.
Variable json_dumps : option nat -> pyval -> string.
Variables CANDIDATE_PROMPT JD_PROMPT GRADING_PROMPT : string.

Local Abbreviation matching :=
  (candidate_job_matching chat json_loads json_dumps GRADING_PROMPT).
Local Abbreviation graph :=
  (invoke chat json_loads json_dumps CANDIDATE_PROMPT JD_PROMPT GRADING_PROMPT).

(** What the bundle of a matching node that returns is made of. *)
Lemma candidate_job_matching_bundle (st : State) (b : ScoreBundle) :
  matching st = Ok b ->
  exists (cd jd sd : list (string * pyval)) (years : Q) (jd_exp d s jd_edu v : pyval)
         (skill : Q),
    candidate_info_json st = Some (PDict cd)
    /\ job_info_json st = Some (PDict jd)
    /\ skill_match_score b = PDict sd
    /\ experience_score b = experience_match years jd_exp
    /\ degree_match d s jd_edu = Ok (education_score b)
    /\ get (PDict sd) "final_skill_match_score" (PNum 0) = Ok v
    /\ num v = Ok skill
    /\ final_match_score b
       = final_score (experience_score b) (education_score b) skill.
Proof.
  unfold candidate_job_matching. intros H.
  apply bind_ok in H as [candidate [Hc H]]. apply field_ok in Hc.
  apply bind_ok in H as [jd [Hj H]]. apply field_ok in Hj.
  apply bind_ok in H as [exp_data [Hexp H]].
  apply bind_ok in H as [jd_exp [Hje H]].
  apply bind_ok in H as [ds [Hds H]].
  apply bind_ok in H as [jd_edu [Hjd H]].
  apply bind_ok in H as [edu_score [Hedu H]].
  apply bind_ok in H as [payload [Hp H]].
  apply bind_ok in H as [content [Hchat H]].
  apply bind_ok in H as [graded [Hg H]].
  apply bind_ok in H as [extracted [Hx H]].
  apply bind_ok in H as [skill [Hs H]].
  injection H as <-.
  destruct (get_ok_dict _ _ _ _ Hje) as [jdd ->].
  unfold build_payload in Hp. apply bind_ok in Hp as [skills [Hsk _]].
  destruct (get_ok_dict _ _ _ _ Hsk) as [cd ->].
  destruct (extract_skill_score_ok graded extracted Hx) as [sd [_ [Hsd Hget]]].
  exists cd, jdd, sd, (effective_years exp_data), jd_exp, (fst ds), (snd ds),
    jd_edu, (snd extracted), skill.
  cbn [skill_match_score experience_score education_score final_match_score].
  repeat split; first [assumption | reflexivity].
Qed.

(** X17: the matching node returns only when the candidate record and
    the job record are both objects, and the skill object of its bundle
    is an object then.  A candidate record that is a list, a shape the
    aggregator accepts, makes the node raise. *)
Theorem matching_needs_objects (st : State) :
  (forall b : ScoreBundle,
      matching st = Ok b ->
      exists cd jd sd : list (string * pyval),
        candidate_info_json st = Some (PDict cd)
        /\ job_info_json st = Some (PDict jd)
        /\ skill_match_score b = PDict sd)
  /\ (forall l : list pyval,
         candidate_info_json st = Some (PList l) ->
         exists e, matching st = Raise e).
Proof.
  assert (first : forall b : ScoreBundle,
             matching st = Ok b ->
             exists cd jd sd : list (string * pyval),
               candidate_info_json st = Some (PDict cd)
               /\ job_info_json st = Some (PDict jd)
               /\ skill_match_score b = PDict sd).
  { intros b H.
    destruct (candidate_job_matching_bundle st b H)
      as (cd & jd & sd & _ & _ & _ & _ & _ & _ & _ & Hc & Hj & Hs & _).
    now exists cd, jd, sd. }
  split; [exact first |].
  intros l Hl. destruct (matching st) as [b|e] eqn:E; [| now exists e].
  destruct (first b eq_refl) as (cd & _ & _ & Hc & _). congruence.
Qed.

(** X18, with the numbers read as exact rationals, as in C1: the final
    score of a bundle lies between 0.083 + 0.7 s and 0.3 + 0.7 s, for
    the skill score s read from the grader's object; so it lies in
    [0.083, 1] whenever s lies in [0, 1].  The node does not clamp: the
    bounds move with s.  The rounding of binary floating point is not
    part of this statement. *)
Theorem final_score_range (st : State) (b : ScoreBundle) :
  matching st = Ok b ->
  exists (v : pyval) (s : Q),
    get (skill_match_score b) "final_skill_match_score" (PNum 0) = Ok v
    /\ num v = Ok s
    /\ 0.083 + 0.70 * s <= final_match_score b
    /\ final_match_score b <= 0.3 + 0.70 * s
    /\ (0 <= s -> s <= 1 ->
        0.083 <= final_match_score b /\ final_match_score b <= 1).
Proof.
  intros H.
  destruct (candidate_job_matching_bundle st b H)
    as (cd & jd & sd & years & jd_exp & d & s & jd_edu & v & skill
        & _ & _ & Hs & He & Hd & Hget & Hnum & Hf).
  exists v, skill. rewrite Hs. split; [exact Hget |]. split; [exact Hnum |].
  rewrite Hf. unfold final_score.
  destruct (degree_match_range d s jd_edu _ Hd) as [D1 D2].
  assert (E : 0.2 <= experience_score b /\ experience_score b <= 1).
  { rewrite He.
    destruct (experience_match_values years jd_exp) as [-> | [-> | ->]];
      split; discriminate. }
  destruct E as [E1 E2].
  repeat split; intros; lra.
Qed.

(** X19: what the graph gives depends on the three input keys of the
    initial state only: whatever the initial state holds under the keys
    the nodes write is never read. *)
Theorem graph_reads_inputs_only (st : State) :
  graph st =
  graph (mkState (raw_extracted_text st) (links_info st) None
           (job_description st) None None).
Proof.
  destruct st as [raw links c jd j sc].
  unfold invoke, run_candidate_json, run_jd_json, run_match_score,
    candidate_info_extraction, job_desc_extraction, candidate_job_matching,
    with_candidate_info, with_job_info, with_scores.
  cbn [raw_extracted_text links_info candidate_info_json job_description
       job_info_json scores].
  destruct (field raw) as [raw_text|]; [| reflexivity]. cbn [Py.bind].
  destruct (field links) as [l|]; [| reflexivity]. cbn [Py.bind].
  destruct (chat CANDIDATE_PROMPT _) as [msg|]; [| reflexivity]. cbn [Py.bind].
  match goal with
  | |- Py.bind (Py.bind ?m _) _ = _ => destruct m as [cand|]; [| reflexivity]
  end.
  cbn [Py.bind raw_extracted_text links_info candidate_info_json
       job_description job_info_json scores].
  destruct (field jd) as [job_desc|]; [| reflexivity]. cbn [Py.bind].
  destruct (chat JD_PROMPT job_desc) as [msg'|]; [| reflexivity].
  cbn [Py.bind raw_extracted_text links_info candidate_info_json
       job_description job_info_json scores field].
  match goal with
  | |- Py.bind ?m _ = _ => destruct m as [bundle|]; reflexivity
  end.
Qed.

(** X20: when the replies to the two extraction prompts are texts
    [json.loads] rejects, each extraction node returns the object of
    the two keys [error], with "Invalid JSON returned", and
    [raw_output], with its reply; the grader is then asked about a
    payload of empty lists, and when [json.loads] rejects its reply too
    the matching node raises the error of [json.loads], which is
    outside any [try] there, and so does the graph. *)
Theorem graph_fails_on_prose_grade
  (st : State) (raw_text job_desc : string) (links : pyval) (m1 m2 m3 : string) :
  raw_extracted_text st = Some raw_text ->
  links_info st = Some links ->
  job_description st = Some job_desc ->
  chat CANDIDATE_PROMPT (combined_input json_dumps raw_text links) = Ok m1 ->
  json_loads m1 = None ->
  chat JD_PROMPT job_desc = Ok m2 ->
  json_loads m2 = None ->
  chat GRADING_PROMPT
    (json_dumps None
       (PDict [("jd_required_skills", PList []);
               ("jd_optional_skills", PList []);
               ("jd_tools", PList []);
               ("jd_responsibilities", PList []);
               ("candidate_skills", PList []);
               ("candidate_tools", PList []);
               ("candidate_projects", PList []);
               ("candidate_experience", PList []);
               ("candidate_certifications", PList [])])) = Ok m3 ->
  json_loads m3 = None ->
  candidate_info_extraction chat json_loads json_dumps CANDIDATE_PROMPT st
  = Ok (PDict [("error", PStr "Invalid JSON returned");
               ("raw_output", PStr m1)])
  /\ job_desc_extraction chat json_loads JD_PROMPT st
     = Ok (PDict [("error", PStr "Invalid JSON returned");
                  ("raw_output", PStr m2)])
  /\ matching
       (with_job_info
          (with_candidate_info st
             (PDict [("error", PStr "Invalid JSON returned");
                     ("raw_output", PStr m1)]))
          (PDict [("error", PStr "Invalid JSON returned");
                  ("raw_output", PStr m2)]))
     = Raise JSONDecodeError
  /\ graph st = Raise JSONDecodeError.
Proof.
  intros Hr Hl Hj H1 L1 H2 L2 H3 L3.
  assert (N1 : candidate_info_extraction chat json_loads json_dumps
                 CANDIDATE_PROMPT st
               = Ok (PDict [("error", PStr "Invalid JSON returned");
                            ("raw_output", PStr m1)])).
  { unfold candidate_info_extraction, loads_or_degraded.
    rewrite Hr, Hl. cbn [field Py.bind]. rewrite H1. cbn [Py.bind].
    now rewrite L1. }
  assert (N2 : forall s : State,
             job_description s = Some job_desc ->
             job_desc_extraction chat json_loads JD_PROMPT s
             = Ok (PDict [("error", PStr "Invalid JSON returned");
                          ("raw_output", PStr m2)])).
  { intros s Hs. unfold job_desc_extraction, loads_or_degraded.
    rewrite Hs. cbn [field Py.bind]. rewrite H2. cbn [Py.bind].
    now rewrite L2. }
  assert (N3 : matching
                 (with_job_info
                    (with_candidate_info st
                       (PDict [("error", PStr "Invalid JSON returned");
                               ("raw_output", PStr m1)]))
                    (PDict [("error", PStr "Invalid JSON returned");
                            ("raw_output", PStr m2)]))
               = Raise JSONDecodeError).
  { match goal with
    | |- candidate_job_matching _ _ _ _ ?s = _ =>
        destruct (matching_on_degraded chat json_loads json_dumps GRADING_PROMPT
                    s m1 m2 eq_refl eq_refl) as [payload [Hp ->]]
    end.
    cbv in Hp. injection Hp as <-. rewrite H3. cbn [Py.bind]. unfold loads.
    now rewrite L3. }
  split; [exact N1 |]. split; [now apply N2 |]. split; [exact N3 |].
  unfold invoke, run_candidate_json, run_jd_json, run_match_score.
  rewrite N1. cbn [Py.bind]. rewrite N2 by exact Hj. cbn [Py.bind].
  now rewrite N3.
Qed.

End GraphProperties.

(** ** Properties of the text extractor *)

Section ExtractorProperties.
Import Py ResumeParser TextExtractor.

Local Open Scope string_scope.

Lemma append_assoc (a b c : string) : (a ++ b) ++ c = a ++ b ++ c.
Proof. induction a as [|x a IH]; simpl; [reflexivity | now rewrite IH]. Qed.

Lemma append_length (a b : string) :
  String.length (a ++ b) = (String.length a + String.length b)%nat.
Proof. induction a as [|x a IH]; simpl; [reflexivity | now rewrite IH]. Qed.

Lemma join_app (a b : list string) : join (a ++ b) = join a ++ join b.
Proof.
  unfold join. induction a as [|x a IH]; simpl; [reflexivity |].
  now rewrite IH, append_assoc.
Qed.

Lemma clean_kept (text : string) : all_chars kept_char (clean text) = true.
Proof.
  induction text as [|c text IH]; simpl; [reflexivity |].
  rewrite IH, andb_true_r. destruct (kept_char c) eqn:E; [exact E | reflexivity].
Qed.

Lemma clean_length (text : string) :
  String.length (clean text) = String.length text.
Proof. induction text as [|c text IH]; simpl; [reflexivity | now rewrite IH]. Qed.

Lemma clean_fixed (text : string) :
  all_chars kept_char text = true -> clean text = text.
Proof.
  induction text as [|c text IH]; simpl; [reflexivity |].
  rewrite andb_true_iff. intros [-> H]. now rewrite IH.
Qed.

(** The loop over the links leaves the numbers and the location alone. *)
Lemma add_links_keeps_contact (links : list Link) (l l' : Links) :
  for_each add_link l links = Ok l' ->
  contact (profile_info l') = contact (profile_info l)
  /\ location (profile_info l') = location (profile_info l).
Proof.
  revert l. induction links as [|x links IH]; intros l H; simpl in H.
  - injection H as <-. split; reflexivity.
  - unfold add_link in H at 1. destruct (uri x) as [u|]; [| discriminate H].
    cbn [Py.bind] in H. apply IH in H as [H1 H2]. rewrite H1, H2.
    destruct (str_in "gmail" u); [split; reflexivity |].
    destruct (str_in "linkedin" u); [split; reflexivity |].
    destruct (str_in "medium" u); split; reflexivity.
Qed.

(** The loop over the pages: the text is the texts of the pages in
    order, and the links come from one loop over all their links. *)
Lemma add_pages (doc : list Page) (acc : string * Links) :
  for_each add_page acc doc
  = (links <- for_each add_link (snd acc) (flat_map get_links doc) ;;
     Ok (fst acc ++ join (map get_text doc), links)).
Proof.
  revert acc. induction doc as [|p doc IH]; intros [t l]; simpl.
  - now rewrite append_empty_r.
  - rewrite for_each_app. unfold add_page at 1. cbn [fst snd].
    destruct (for_each add_link l (get_links p)) as [l1|e]; cbn [Py.bind];
      [| reflexivity].
    rewrite IH. cbn [fst snd]. now rewrite append_assoc.
Qed.

Lemma extract_data_ok (doc : list Page) (text : string) (links : Links) :
  extract_data doc = Ok (text, links) ->
  exists l,
    for_each add_link empty_links (flat_map get_links doc) = Ok l
    /\ text = clean (join (map get_text doc))
    /\ links = mkLinks (mkProfile (linkedin (profile_info l))
                          (mail (profile_info l)) (medium (profile_info l))
                          (findall_ten_digits false text) "")
                 (projects l).
Proof.
  unfold extract_data. rewrite add_pages. cbn [fst snd].
  destruct (for_each add_link empty_links (flat_map get_links doc)) as [l|e] eqn:E;
    cbn [Py.bind fst snd]; [| discriminate].
  intros H. injection H as <- <-. exists l. split; [reflexivity |].
  split; [reflexivity |].
  destruct (add_links_keeps_contact _ _ _ E) as [-> ->]. reflexivity.
Qed.

(** X21: the text [extract_data] returns is the texts of the pages in
    order with a space for every character that is not a letter or a
    digit of ASCII, a quote or white space: it has the length of the
    original, holds only such characters, and cleaning it again changes
    nothing. *)
Theorem extracted_text_is_clean (doc : list Page) (text : string) (links : Links) :
  extract_data doc = Ok (text, links) ->
  text = clean (join (map get_text doc))
  /\ all_chars kept_char text = true
  /\ String.length text = String.length (join (map get_text doc))
  /\ clean text = text.
Proof.
  intros H. destruct (extract_data_ok doc text links H) as [l [_ [-> _]]].
  split; [reflexivity |]. split; [apply clean_kept |].
  split; [apply clean_length |]. apply clean_fixed, clean_kept.
Qed.

Lemma extracted_text_is_clean_witness :
  clean "a.b@c-d_e" = "a b c d e"
  /\ all_chars kept_char "a b c d e" = true.
Proof.
  destruct (extracted_text_is_clean [mkPage "a.b@" []; mkPage "c-d_e" []]
              "a b c d e" (mkLinks (mkProfile "" "" "" [] "") []) eq_refl)
    as [H [K _]].
  split; [symmetry; exact H | exact K].
Defined.

Lemma add_link_ok (l : Links) (link : Link) (u : string) :
  uri link = Some u ->
  exists l',
    add_link l link = Ok l'
    /\ mail (profile_info l')
       = mail (profile_info l) ++ (if str_in "gmail" u then u else "")
    /\ linkedin (profile_info l')
       = linkedin (profile_info l)
         ++ (if negb (str_in "gmail" u) && str_in "linkedin" u then u else "")
    /\ medium (profile_info l')
       = medium (profile_info l)
         ++ (if negb (str_in "gmail" u) && negb (str_in "linkedin" u)
                && str_in "medium" u then u else "")
    /\ projects l'
       = (projects l
          ++ (if negb (str_in "gmail" u) && negb (str_in "linkedin" u)
                 && negb (str_in "medium" u) then [u] else []))%list.
Proof.
  intros H. unfold add_link. rewrite H. eexists. split; [reflexivity |].
  destruct l as [[li ma me co lo] pr].
  destruct (str_in "gmail" u), (str_in "linkedin" u), (str_in "medium" u);
    cbn; rewrite ?append_empty_r, ?app_nil_r; repeat split; reflexivity.
Qed.

Lemma add_links_sorted (links : list Link) (us : list string) (l : Links) :
  map uri links = map Some us ->
  exists l',
    for_each add_link l links = Ok l'
    /\ mail (profile_info l')
       = mail (profile_info l) ++ join (filter (str_in "gmail") us)
    /\ linkedin (profile_info l')
       = linkedin (profile_info l)
         ++ join (filter (fun u => negb (str_in "gmail" u) && str_in "linkedin" u) us)
    /\ medium (profile_info l')
       = medium (profile_info l)
         ++ join (filter (fun u => negb (str_in "gmail" u)
                                   && negb (str_in "linkedin" u)
                                   && str_in "medium" u) us)
    /\ projects l'
       = (projects l
          ++ filter (fun u => negb (str_in "gmail" u)
                              && negb (str_in "linkedin" u)
                              && negb (str_in "medium" u)) us)%list.
Proof.
  revert us l. induction links as [|x links IH]; intros [|u us] l H;
    try discriminate H.
  - exists l. cbn. rewrite !append_empty_r, app_nil_r. repeat split; reflexivity.
  - cbn [map] in H. injection H as Hx H.
    destruct (add_link_ok l x u Hx) as [l1 [E1 [M1 [L1 [D1 P1]]]]].
    destruct (IH us l1 H) as [l' [E [M [L [D P]]]]].
    exists l'. cbn [for_each]. rewrite E1. cbn [Py.bind].
    split; [exact E |].
    rewrite M, L, D, P, M1, L1, D1, P1. cbn [filter].
    destruct (str_in "gmail" u), (str_in "linkedin" u), (str_in "medium" u);
      cbn [negb andb join fold_right app];
      rewrite ?append_empty_r, ?app_nil_r, ?append_assoc, <- ?app_assoc;
      repeat split; reflexivity.
Qed.

(** X22: when every link has a [uri], each goes to one place, told by
    the first of "gmail", "linkedin" and "medium" that occurs in it: the
    mail, the linkedin and the medium fields are the links of their kind
    joined with nothing between them, and the projects are the links of
    no kind, all in the order of the document. *)
Theorem links_sorted_by_first_keyword (doc : list Page) (us : list string) :
  map uri (flat_map get_links doc) = map Some us ->
  exists text links,
    extract_data doc = Ok (text, links)
    /\ mail (profile_info links) = join (filter (str_in "gmail") us)
    /\ linkedin (profile_info links)
       = join (filter (fun u => negb (str_in "gmail" u) && str_in "linkedin" u) us)
    /\ medium (profile_info links)
       = join (filter (fun u => negb (str_in "gmail" u)
                                 && negb (str_in "linkedin" u)
                                 && str_in "medium" u) us)
    /\ projects links
       = filter (fun u => negb (str_in "gmail" u)
                           && negb (str_in "linkedin" u)
                           && negb (str_in "medium" u)) us
    /\ location (profile_info links) = "".
Proof.
  intros H.
  destruct (add_links_sorted _ us empty_links H) as [l [E [M [L [D P]]]]].
  unfold extract_data. rewrite add_pages. cbn [fst snd]. rewrite E.
  cbn [Py.bind fst snd]. do 2 eexists. split; [reflexivity |].
  cbn [profile_info mail linkedin medium projects location].
  rewrite M, L, D, P. repeat split.
  destruct (add_links_keeps_contact _ _ _ E) as [_ ->]. reflexivity.
Qed.

Lemma links_sorted_by_first_keyword_witness :
  exists text links,
    extract_data
      [mkPage "cv" [mkLink (Some "mailto:a@gmail.com");
                    mkLink (Some "https://linkedin.com/in/a?mail=a@gmail.com")];
       mkPage "" [mkLink (Some "https://github.com/a")]]
    = Ok (text, links)
    /\ mail (profile_info links)
       = "mailto:a@gmail.comhttps://linkedin.com/in/a?mail=a@gmail.com"
    /\ linkedin (profile_info links) = ""
    /\ projects links = ["https://github.com/a"].
Proof.
  destruct (links_sorted_by_first_keyword
              [mkPage "cv" [mkLink (Some "mailto:a@gmail.com");
                            mkLink (Some "https://linkedin.com/in/a?mail=a@gmail.com")];
               mkPage "" [mkLink (Some "https://github.com/a")]]
              ["mailto:a@gmail.com"; "https://linkedin.com/in/a?mail=a@gmail.com";
               "https://github.com/a"] eq_refl)
    as (text & links & H & M & L & _ & P & _).
  exists text, links. repeat split; assumption.
Defined.

Lemma add_links_raise (links : list Link) (l : Links) (e : exn) :
  for_each add_link l links = Raise e -> e = KeyError.
Proof.
  revert l. induction links as [|x links IH]; intros l H; simpl in H;
    [discriminate H |].
  unfold add_link in H at 1. destruct (uri x); cbn [Py.bind] in H.
  - now apply IH in H.
  - now injection H as <-.
Qed.

Lemma add_links_missing_uri (links : list Link) (l : Links) :
  (exists link, In link links /\ uri link = None) ->
  for_each add_link l links = Raise KeyError.
Proof.
  intros [bad [Hin Hbad]]. revert l.
  induction links as [|x links IH]; intros l; [destruct Hin |].
  simpl. unfold add_link at 1. destruct (uri x) eqn:Ex; cbn [Py.bind].
  - destruct Hin as [-> | Hin]; [congruence | now apply IH].
  - reflexivity.
Qed.

(** X23: one link without a [uri], on any page, makes [extract_data]
    raise [KeyError]: nothing is returned of the text or of the other
    links. *)
Theorem link_without_uri_raises (doc : list Page) (link : Link) :
  In link (flat_map get_links doc) ->
  uri link = None ->
  extract_data doc = Raise KeyError.
Proof.
  intros Hin Hbad. unfold extract_data. rewrite add_pages. cbn [fst snd].
  rewrite (add_links_missing_uri _ empty_links); [reflexivity |].
  now exists link.
Qed.

Lemma link_without_uri_raises_witness :
  extract_data [mkPage "page one" [mkLink (Some "https://github.com/a")];
                mkPage "page two" [mkLink None]]
  = Raise KeyError.
Proof.
  apply (link_without_uri_raises _ (mkLink None)); [simpl; tauto | reflexivity].
Defined.

End ExtractorProperties.

Section PhoneNumbers.
Import Py ResumeParser TextExtractor.

Local Open Scope string_scope.

Lemma substring_split (n : nat) (s : string) :
  (n <= String.length s)%nat ->
  exists post,
    s = substring 0 n s ++ post
    /\ String.get n s = String.get 0 post
    /\ String.length (substring 0 n s) = n.
Proof.
  revert s. induction n as [|n IH]; intros s H.
  - exists s. destruct s; repeat split; reflexivity.
  - destruct s as [|c s]; [simpl in H; lia |].
    destruct (IH s) as [post [E [G L]]]; [simpl in H; lia |].
    exists post. simpl. rewrite <- E, L. repeat split; assumption.
Qed.

Lemma substring_of_app (c post : string) :
  substring 0 (String.length c) (c ++ post) = c.
Proof.
  induction c as [|x c IH]; simpl; [now destruct post | now rewrite IH].
Qed.

Lemma get_of_app (c post : string) :
  String.get (String.length c) (c ++ post) = String.get 0 post.
Proof. induction c as [|x c IH]; simpl; [reflexivity | exact IH]. Qed.

(** The match at the head of a text, in terms of the text. *)
Lemma ten_digits_here_iff (s c : string) :
  ten_digits_here s = true /\ c = substring 0 10 s
  <-> exists post,
      s = c ++ post
      /\ String.length c = 10%nat
      /\ all_chars is_decimal c = true
      /\ (forall ch post', post = String ch post' -> is_word ch = false).
Proof.
  unfold ten_digits_here. split.
  - intros [H ->]. apply andb_true_iff in H as [H Hb].
    apply andb_true_iff in H as [Hl Hd]. apply Nat.leb_le in Hl.
    destruct (substring_split 10 s Hl) as [post [E [G L]]].
    exists post. repeat split; try assumption.
    intros ch post' ->. rewrite G in Hb. simpl in Hb.
    now apply negb_true_iff in Hb.
  - intros [post [-> [L [D B]]]].
    pose proof (substring_of_app c post) as S1. rewrite L in S1.
    pose proof (get_of_app c post) as G1. rewrite L in G1.
    rewrite S1, G1. split; [| reflexivity].
    rewrite append_length, L, D. simpl.
    destruct post as [|ch post']; [reflexivity |].
    simpl. now rewrite (B ch post' eq_refl).
Qed.

Lemma findall_sound (s : string) (prev : bool) (c : string) :
  In c (findall_ten_digits prev s) ->
  exists pre post,
    s = pre ++ c ++ post
    /\ String.length c = 10%nat
    /\ all_chars is_decimal c = true
    /\ (pre = "" -> prev = false)
    /\ (forall pre' ch, pre = pre' ++ String ch "" -> is_word ch = false)
    /\ (forall ch post', post = String ch post' -> is_word ch = false).
Proof.
  revert prev. induction s as [|a s IH]; intros prev H; [destruct H |].
  cbn [findall_ten_digits] in H. apply in_app_or in H as [H | H].
  - destruct (negb prev && ten_digits_here (String a s)) eqn:E; [| destruct H].
    apply andb_true_iff in E as [Ep Et]. apply negb_true_iff in Ep.
    destruct H as [<- | []].
    destruct (proj1 (ten_digits_here_iff (String a s) _) (conj Et eq_refl))
      as [post [E [L [D B]]]].
    exists "", post. repeat split; try assumption.
    + intros _. exact Ep.
    + intros pre' ch Hp. destruct pre'; discriminate Hp.
  - destruct (IH _ H) as [pre [post [-> [L [D [P0 [P1 P2]]]]]]].
    exists (String a pre), post. repeat split; try assumption.
    + discriminate.
    + intros pre' ch Hp. destruct pre' as [|x pre'].
      * simpl in Hp. injection Hp as -> ->. now apply P0.
      * simpl in Hp. injection Hp as _ Hp. now apply (P1 pre' ch).
Qed.

Lemma findall_complete (pre c post : string) (prev : bool) :
  String.length c = 10%nat ->
  all_chars is_decimal c = true ->
  (pre = "" -> prev = false) ->
  (forall pre' ch, pre = pre' ++ String ch "" -> is_word ch = false) ->
  (forall ch post', post = String ch post' -> is_word ch = false) ->
  In c (findall_ten_digits prev (pre ++ c ++ post)).
Proof.
  intros L D. revert prev. induction pre as [|a pre IH]; intros prev P0 P1 P2.
  - cbn [append].
    destruct (proj2 (ten_digits_here_iff (c ++ post) c)) as [Ht Hc].
    { exists post. repeat split; assumption. }
    destruct c as [|x c]; [discriminate L |].
    cbn [append findall_ten_digits]. apply in_or_app. left.
    cbn [append] in Ht, Hc. rewrite (P0 eq_refl), Ht. cbn [negb andb].
    left. now symmetry.
  - cbn [append findall_ten_digits]. apply in_or_app. right.
    apply IH; [| | exact P2].
    + intros ->. now apply (P1 "" a).
    + intros pre' ch ->. now apply (P1 (String a pre') ch).
Qed.

(** X24: the numbers [extract_data] returns as contact are the runs of
    ten decimal digits of the cleaned text that stand between two word
    boundaries: such a run is found wherever it has no word character
    (a letter, a digit, an underscore) just before it and none just
    after it, and nothing else is found. *)
Theorem contacts_are_ten_digit_words
  (doc : list Page) (text : string) (links : Links) (c : string) :
  extract_data doc = Ok (text, links) ->
  In c (contact (profile_info links))
  <-> exists pre post,
      text = pre ++ c ++ post
      /\ String.length c = 10%nat
      /\ all_chars is_decimal c = true
      /\ (forall pre' ch, pre = pre' ++ String ch "" -> is_word ch = false)
      /\ (forall ch post', post = String ch post' -> is_word ch = false).
Proof.
  intros H. destruct (extract_data_ok doc text links H) as [l [_ [_ ->]]].
  cbn [profile_info contact]. split.
  - intros Hin. destruct (findall_sound _ _ _ Hin) as (pre & post & E & L & D & _ & P1 & P2).
    now exists pre, post.
  - intros (pre & post & E & L & D & P1 & P2).
    rewrite E at 1. now apply findall_complete.
Qed.

Lemma contacts_are_ten_digit_words_witness :
  In "9876543210"
    (contact (profile_info
                (mkLinks (mkProfile "" "" "" ["9876543210"] "") []))).
Proof.
  apply (proj2 (contacts_are_ten_digit_words
                  [mkPage "9876543210/12345678901" []]
                  "9876543210 12345678901"
                  (mkLinks (mkProfile "" "" "" ["9876543210"] "") [])
                  "9876543210" eq_refl)).
  exists "", " 12345678901". repeat split.
  - intros pre' ch H. destruct pre'; discriminate H.
  - intros ch post' H. injection H as <- _. reflexivity.
Defined.

End PhoneNumbers.

(** ** Properties of the endpoints *)

Section EndpointProperties.
Import Py ResumeParser App.

Local Open Scope string_scope.
Local Open Scope Q_scope.

Variable chat : string -> string -> result string.
Variable json_loads : string -> option pyval.
Variable json_dumps : option nat -> pyval -> string.
Variables CANDIDATE_PROMPT JD_PROMPT GRADING_PROMPT : string.
Variable str : raised -> string.

Local Abbreviation graph_on :=
  (run_graph chat json_loads json_dumps CANDIDATE_PROMPT JD_PROMPT GRADING_PROMPT).
Local Abbreviation parse :=
  (parse_resume chat json_loads json_dumps CANDIDATE_PROMPT JD_PROMPT
     GRADING_PROMPT str).
Local Abbreviation batch :=
  (batch_parse_resumes chat json_loads json_dumps CANDIDATE_PROMPT JD_PROMPT
     GRADING_PROMPT str).

(** The state the graph returns is the state its last node ran on, with
    the bundle of that node. *)
Lemma invoke_ok (s0 st : State) :
  invoke chat json_loads json_dumps CANDIDATE_PROMPT JD_PROMPT GRADING_PROMPT s0
  = Ok st ->
  exists (s2 : State) (b : ScoreBundle),
    candidate_job_matching chat json_loads json_dumps GRADING_PROMPT s2 = Ok b
    /\ st = with_scores s2 b
    /\ raw_extracted_text s2 = raw_extracted_text s0
    /\ links_info s2 = links_info s0
    /\ job_description s2 = job_description s0.
Proof.
  unfold invoke. intros H.
  apply bind_ok in H as [s1 [H1 H]]. apply bind_ok in H as [s2 [H2 H]].
  unfold run_match_score in H. apply bind_ok in H as [b [Hb H]].
  injection H as <-.
  unfold run_candidate_json in H1. apply bind_ok in H1 as [c [_ H1]].
  injection H1 as <-.
  unfold run_jd_json in H2. apply bind_ok in H2 as [j [_ H2]].
  injection H2 as <-.
  eexists. exists b. split; [exact Hb |]. repeat split.
Qed.

(** What the graph returned passes the checks of the response model. *)
Lemma match_result_of_graph (file : UploadFile) (job_description : string)
  (st : State) :
  graph_on file job_description = Ok st ->
  exists (r : MatchResult) (b : ScoreBundle),
    match_result st = Ok r
    /\ candidate_info_json st = Some (PDict (candidate_info r))
    /\ job_info_json st = Some (PDict (job_info r))
    /\ scores st = Some b
    /\ skill_match_score b = PDict (mr_skill_match_score r)
    /\ mr_experience_score r = experience_score b
    /\ mr_education_score r = education_score b
    /\ mr_final_match_score r = final_match_score b.
Proof.
  unfold run_graph. intros H.
  apply bind_ok in H as [doc [_ H]]. apply bind_ok in H as [extracted [_ H]].
  destruct (invoke_ok _ _ H) as (s2 & b & Hb & -> & _).
  destruct (candidate_job_matching_bundle _ _ _ _ s2 b Hb)
    as (cd & jd & sd & _ & _ & _ & _ & _ & _ & _ & Hc & Hj & Hs & _).
  unfold match_result, with_scores, skill_or_empty, score_or.
  cbn [candidate_info_json job_info_json scores].
  rewrite Hc, Hj, Hs. cbn [field as_dict Py.bind].
  exists (mkMatchResult cd jd (experience_score b) (education_score b) sd
            (final_match_score b)), b.
  repeat split; assumption.
Qed.

(** X25: [parse_resume] answers every failure with the status 500.  A
    file whose name does not end in ".pdf" (in lower case) is no
    exception: the status 400 raised for it is caught by the handler
    around it and sent as a 500. *)
Theorem parse_resume_fails_with_500 (file : UploadFile) (job_description : string) :
  (forall r, parse file job_description = Fail r ->
             exists detail, r = HTTPException 500 detail)
  /\ (forall name,
         filename file = Some name ->
         endswith name ".pdf" = false ->
         parse file job_description
         = Fail (HTTPException 500
                   ("Error processing resume: "
                    ++ str (HTTPException 400 "Only PDF files are supported")))).
Proof.
  split.
  - intros r. unfold parse_resume.
    destruct (parse_resume_body _ _ _ _ _ _ _ _); [discriminate |].
    intros H. injection H as <-. now eexists.
  - intros name Hn He. unfold parse_resume, parse_resume_body, is_pdf.
    now rewrite Hn, He.
Qed.

(** X26: for a file named as a PDF, [parse_resume] returns exactly when
    extraction and the graph return: the response model never refuses
    what the graph gives, and its six fields are the two records, the
    skill object and the three scores of the final state. *)
Theorem parse_resume_returns_with_graph
  (file : UploadFile) (job_description : string) :
  is_pdf file = Ok true ->
  (forall st,
      graph_on file job_description = Ok st ->
      exists (r : MatchResult) (b : ScoreBundle),
        parse file job_description = Return r
        /\ candidate_info_json st = Some (PDict (candidate_info r))
        /\ job_info_json st = Some (PDict (job_info r))
        /\ scores st = Some b
        /\ skill_match_score b = PDict (mr_skill_match_score r)
        /\ mr_experience_score r = experience_score b
        /\ mr_education_score r = education_score b
        /\ mr_final_match_score r = final_match_score b)
  /\ (forall r,
         parse file job_description = Return r ->
         exists st, graph_on file job_description = Ok st).
Proof.
  intros Hpdf. split.
  - intros st H.
    destruct (match_result_of_graph file job_description st H)
      as (r & b & Hr & Hrest).
    exists r, b. split; [| exact Hrest].
    unfold parse_resume, parse_resume_body. rewrite Hpdf, H. cbn [Py.bind].
    now rewrite Hr.
  - intros r. unfold parse_resume, parse_resume_body. rewrite Hpdf.
    destruct (graph_on file job_description) as [st|e]; [now exists st |].
    discriminate.
Qed.

Lemma batch_step_appends (job_description : string) (acc : list Entry)
  (file : UploadFile) :
  exists e,
    batch_step chat json_loads json_dumps CANDIDATE_PROMPT JD_PROMPT
      GRADING_PROMPT str job_description acc file = (acc ++ [e])%list
    /\ entry_name e = filename file
    /\ (is_pdf file = Ok false ->
        e = Failed (filename file) "Only PDF files are supported")
    /\ (success e = true ->
        is_pdf file = Ok true
        /\ exists st, graph_on file job_description = Ok st).
Proof.
  unfold batch_step. destruct (is_pdf file) as [[|]|err].
  - destruct (graph_on file job_description) as [st|e1] eqn:Hg; cbn [Py.bind].
    + unfold success_entry.
      destruct (field (candidate_info_json st)); cbn [Py.bind];
        [| eexists; repeat split; try reflexivity; discriminate].
      destruct (field (job_info_json st)); cbn [Py.bind];
        [| eexists; repeat split; try reflexivity; discriminate].
      eexists. repeat split; try reflexivity; try discriminate. now exists st.
    + eexists. repeat split; try reflexivity; discriminate.
  - eexists. repeat split; try reflexivity; discriminate.
  - eexists. repeat split; try reflexivity; discriminate.
Qed.

Lemma filter_split_length {A : Type} (p : A -> bool) (l : list A) :
  (List.length (filter p l) + List.length (filter (fun x => negb (p x)) l)
   = List.length l)%nat.
Proof.
  induction l as [|x l IH]; simpl; [reflexivity |].
  destruct (p x); simpl; lia.
Qed.

Lemma batch_results (job_description : string) (files : list UploadFile)
  (acc : list Entry) :
  exists entries,
    fold_left (batch_step chat json_loads json_dumps CANDIDATE_PROMPT JD_PROMPT
                 GRADING_PROMPT str job_description) files acc
    = (acc ++ entries)%list
    /\ map entry_name entries = map filename files
    /\ Forall2 (fun file e =>
                  (is_pdf file = Ok false ->
                   e = Failed (filename file) "Only PDF files are supported")
                  /\ (success e = true ->
                      is_pdf file = Ok true
                      /\ exists st, graph_on file job_description = Ok st))
         files entries.
Proof.
  revert acc. induction files as [|f files IH]; intros acc.
  - exists []. simpl. rewrite app_nil_r. repeat split. constructor.
  - destruct (batch_step_appends job_description acc f) as [e [E [N [P S]]]].
    cbn [fold_left]. rewrite E.
    destruct (IH (acc ++ [e])%list) as [entries [E' [N' F']]].
    exists (e :: entries). rewrite E', <- app_assoc. split; [reflexivity |].
    split; [cbn [map]; now rewrite N, N' |].
    constructor; [split; assumption | exact F'].
Qed.

(** X27: the batch endpoint appends one entry per file, in the order of
    the files and under the name of the file, whether the file is
    refused, fails or succeeds: [total_processed] is the length of
    [results], and [successful] and [failed] add up to it.  A file whose
    name does not end in ".pdf" gets the entry that says so, and an
    entry tells success only for a PDF on which the graph returned. *)
Theorem batch_counts_every_file (files : list UploadFile) (job_description : string) :
  List.length (results (batch files job_description)) = List.length files
  /\ total_processed (batch files job_description) = List.length files
  /\ (successful (batch files job_description)
      + failed (batch files job_description)
      = total_processed (batch files job_description))%nat
  /\ map entry_name (results (batch files job_description)) = map filename files
  /\ Forall2 (fun file e =>
                (is_pdf file = Ok false ->
                 e = Failed (filename file) "Only PDF files are supported")
                /\ (success e = true ->
                    is_pdf file = Ok true
                    /\ exists st, graph_on file job_description = Ok st))
       files (results (batch files job_description)).
Proof.
  unfold batch_parse_resumes.
  cbn [results total_processed successful failed].
  destruct (batch_results job_description files []) as [entries [-> [N F]]].
  cbn [app].
  assert (L : List.length entries = List.length files).
  { rewrite <- (length_map entry_name), N. apply length_map. }
  repeat split; try assumption.
  rewrite filter_split_length. exact L.
Qed.

(** X28: the job endpoint runs the job node on a state that holds the
    job description only, and that is enough.  When the collaborator
    answers with a text [json.loads] reads, the endpoint returns the
    value read under [job_info], with the message of success; when it
    answers with a text [json.loads] rejects, [job_info] is the object
    of the two keys [error], with "Invalid JSON returned", and
    [raw_output], with the answer, and the message is that of success
    all the same.  It fails, with the status 500, only when the
    collaborator raises. *)
Theorem parse_job_description_outcomes (jd_text : string) :
  (forall (msg : string) (v : pyval),
      chat JD_PROMPT jd_text = Ok msg ->
      json_loads msg = Some v ->
      parse_job_description chat json_loads JD_PROMPT str jd_text
      = Return (PDict [("job_info", v);
                       ("message", PStr "Job description parsed successfully")]))
  /\ (forall msg : string,
         chat JD_PROMPT jd_text = Ok msg ->
         json_loads msg = None ->
         parse_job_description chat json_loads JD_PROMPT str jd_text
         = Return (PDict [("job_info",
                           PDict [("error", PStr "Invalid JSON returned");
                                  ("raw_output", PStr msg)]);
                          ("message",
                           PStr "Job description parsed successfully")]))
  /\ (forall r,
         parse_job_description chat json_loads JD_PROMPT str jd_text
         = Fail r ->
         exists e,
           chat JD_PROMPT jd_text = Raise e
           /\ r = HTTPException 500
                    ("Error parsing job description: " ++ str (PyExn e))).
Proof.
  unfold parse_job_description, job_desc_extraction, loads_or_degraded.
  cbn [job_description field Py.bind]. split; [| split].
  - intros msg v -> Hv. cbn [Py.bind]. now rewrite Hv.
  - intros msg -> Hv. cbn [Py.bind]. now rewrite Hv.
  - intros r. destruct (chat JD_PROMPT jd_text) as [msg|e];
      cbn [Py.bind]; [discriminate |].
    intros H. injection H as <-. now exists e.
Qed.

End EndpointProperties.

(** ** Sample runs of the nodes and the endpoints *)

Section SampleRuns.
Import Py ResumeParser.

Local Open Scope string_scope.
Local Open Scope Q_scope.

Lemma contact_written_from_links_witness :
  exists d' c' : list (string * pyval),
    candidate_info_extraction Samples.echo Samples.json_loads Demo.json_dumps
      "with contact" Samples.extracted = Ok (PDict d')
    /\ dict_get d' "contact" = Some (PDict c')
    /\ dict_get c' "email" = Some (PStr "mailto:asha@gmail.com")
    /\ dict_get c' "phone" = Some (PList [PStr "9876543210"])
    /\ dict_get c' "github" = Some (PStr "https://github.com/asha")
    /\ dict_get c' "city" = Some (PStr "Pune").
Proof.
  destruct (contact_written_from_links Samples.echo Samples.json_loads
              Demo.json_dumps "with contact" Samples.extracted
              Samples.resume_text "with contact" Samples.resume_links
              Samples.reply_with_contact Samples.reply_contact
              eq_refl eq_refl eq_refl eq_refl eq_refl)
    as (d' & c' & H & Hc & _ & He & Hp & _ & Hg & _ & _ & Hk).
  exists d', c'. repeat split; try assumption.
  rewrite Hk; [reflexivity |].
  simpl. intros [H0 | [H0 | [H0 | [H0 | [H0 | [H0 | []]]]]]]; discriminate H0.
Defined.

Lemma candidate_reply_returned_as_is_witness :
  candidate_info_extraction Samples.echo Samples.json_loads Demo.json_dumps
    "a list" Samples.extracted
  = Ok (PList [PStr "Asha Rao"]).
Proof.
  apply (candidate_reply_returned_as_is Samples.echo Samples.json_loads
           Demo.json_dumps "a list" Samples.extracted Samples.resume_text
           "a list" (TextExtractor.links_value Samples.resume_links));
    try reflexivity.
  discriminate.
Defined.

Lemma contact_not_object_raises_witness :
  candidate_info_extraction Samples.echo Samples.json_loads Demo.json_dumps
    "null contact" Samples.extracted
  = Raise TypeError.
Proof.
  apply (contact_not_object_raises Samples.echo Samples.json_loads
           Demo.json_dumps "null contact" Samples.extracted Samples.resume_text
           "null contact" Samples.resume_links Samples.reply_null_contact PNone);
    try reflexivity.
  discriminate.
Defined.

Lemma matching_needs_objects_witness :
  exists cd jd sd : list (string * pyval),
    candidate_info_json Demo.extracted_state = Some (PDict cd)
    /\ job_info_json Demo.extracted_state = Some (PDict jd)
    /\ skill_match_score Demo.bundle = PDict sd.
Proof.
  apply (proj1 (matching_needs_objects Demo.chat Demo.json_loads Demo.json_dumps
                  "grade" Demo.extracted_state) Demo.bundle).
  reflexivity.
Defined.

Lemma final_score_range_witness :
  exists (v : pyval) (s : Q),
    get (skill_match_score Demo.bundle) "final_skill_match_score" (PNum 0) = Ok v
    /\ num v = Ok s
    /\ 0.083 + 0.70 * s <= final_match_score Demo.bundle
    /\ final_match_score Demo.bundle <= 0.3 + 0.70 * s.
Proof.
  destruct (final_score_range Demo.chat Demo.json_loads Demo.json_dumps "grade"
              Demo.extracted_state Demo.bundle eq_refl)
    as (v & s & Hv & Hs & Hlo & Hhi & _).
  now exists v, s.
Defined.

Lemma graph_fails_on_prose_grade_witness :
  candidate_info_extraction Samples.echo Samples.json_loads Demo.json_dumps
    "candidate" Samples.extracted
  = Ok (PDict [("error", PStr "Invalid JSON returned");
               ("raw_output", PStr "candidate")])
  /\ invoke Samples.echo Samples.json_loads Demo.json_dumps "candidate" "jd"
       "grade" Samples.extracted
     = Raise JSONDecodeError.
Proof.
  destruct (graph_fails_on_prose_grade Samples.echo Samples.json_loads
              Demo.json_dumps "candidate" "jd" "grade" Samples.extracted
              Samples.resume_text "job text"
              (TextExtractor.links_value Samples.resume_links)
              "candidate" "jd" "grade"
              eq_refl eq_refl eq_refl eq_refl eq_refl eq_refl eq_refl eq_refl
              eq_refl)
    as (N1 & _ & _ & G).
  split; [exact N1 | exact G].
Defined.

Lemma parse_resume_fails_with_500_witness :
  App.parse_resume Demo.chat Demo.json_loads Demo.json_dumps "candidate" "jd"
    "grade" Samples.str (App.mkUpload (Some "ASHA.PDF") (Ok Samples.resume))
    "job text"
  = App.Fail (App.HTTPException 500 "Error processing resume: error").
Proof.
  apply (proj2 (parse_resume_fails_with_500 Demo.chat Demo.json_loads
                  Demo.json_dumps "candidate" "jd" "grade" Samples.str
                  (App.mkUpload (Some "ASHA.PDF") (Ok Samples.resume))
                  "job text")
           "ASHA.PDF"); reflexivity.
Defined.

Lemma parse_resume_returns_with_graph_witness :
  exists (r : App.MatchResult) (b : ScoreBundle),
    App.parse_resume Demo.chat Demo.json_loads Demo.json_dumps "candidate" "jd"
      "grade" Samples.str Samples.upload "job text" = App.Return r
    /\ scores Samples.final_state = Some b
    /\ App.mr_final_match_score r = final_match_score b.
Proof.
  destruct (proj1 (parse_resume_returns_with_graph Demo.chat Demo.json_loads
                     Demo.json_dumps "candidate" "jd" "grade" Samples.str
                     Samples.upload "job text" eq_refl)
              Samples.final_state eq_refl)
    as (r & b & H & _ & _ & Hs & _ & _ & _ & Hf).
  now exists r, b.
Defined.

Lemma parse_job_description_outcomes_witness :
  App.parse_job_description Demo.chat Demo.json_loads "jd" Samples.str "job text"
  = App.Return
      (PDict [("job_info", Demo.job_record);
              ("message", PStr "Job description parsed successfully")])
  /\ App.parse_job_description Samples.echo Samples.json_loads "jd" Samples.str
       "job text"
     = App.Return
         (PDict [("job_info",
                  PDict [("error", PStr "Invalid JSON returned");
                         ("raw_output", PStr "jd")]);
                 ("message", PStr "Job description parsed successfully")]).
Proof.
  split.
  - apply (proj1 (parse_job_description_outcomes Demo.chat Demo.json_loads "jd"
                    Samples.str "job text") "jd reply" Demo.job_record);
      reflexivity.
  - apply (proj1 (proj2 (parse_job_description_outcomes Samples.echo
                           Samples.json_loads "jd" Samples.str "job text"))
             "jd");
      reflexivity.
Defined.

End SampleRuns.
